(** * borb: the text-field widget of [borb.pdf.canvas.layout.forms.text_field]

    A shallow embedding of [TextField] (text_field.py): the content-box
    calculator [_get_content_box], the widget synthesis
    [_init_widget_dictionary] and the layout pass [_paint_content_box],
    over an explicit store of Python objects with identity. *)

From stdpp Require Import base list strings pretty.
From Stdlib Require Import ZArith Lia.

Open Scope Z_scope.

(* ================================================================== *)
(** ** Python's [decimal.Decimal] *)
(* ================================================================== *)

(** A finite [Decimal] is a coefficient and an exponent: it denotes
    [coef * 10 ^ expo].  The sign is carried by the coefficient (the two
    zeros of Python are not told apart), and NaN and the infinities are
    left out: no operation of text_field.py produces them from finite
    operands.  The exponent limits of the context (Emax = 999999) are not
    modelled. *)
Record Decimal := mkDecimal { coef : Z; expo : Z }.

(** [Decimal(n)] for a Python int. *)
Definition Decimal_of_int (n : Z) : Decimal := mkDecimal n 0.

(** [Decimal(f)] for a Python float [f = n / 2 ^ k] ([float.as_integer_ratio]
    with a power of two as denominator): the conversion is exact,
    [n / 2 ^ k = n * 5 ^ k * 10 ^ (- k)]. *)
Definition Decimal_from_float (n : Z) (k : Z) : Decimal :=
  mkDecimal (n * 5 ^ k) (- k).

(** The float literal [1.2]: the IEEE 754 double nearest to 6/5 is
    [5404319552844595 / 2 ^ 52] (see [float_1_2_is_nearest_double]). *)
Definition float_1_2_numerator : Z := 5404319552844595.
Definition float_1_2_log2_denominator : Z := 52.

(** [Decimal(1.2)], as written on line 163 of text_field.py. *)
Definition Decimal_1_2 : Decimal :=
  Decimal_from_float float_1_2_numerator float_1_2_log2_denominator.

(** The precision of Python's default context. *)
Definition prec : Z := 28.

Fixpoint ndigits_fuel (fuel : nat) (c : Z) : Z :=
  match fuel with
  | O => 1
  | S f => if c <? 10 then 1 else 1 + ndigits_fuel f (c / 10)
  end.

(** Number of decimal digits of the coefficient ([len(self._int)]). *)
Definition ndigits (c : Z) : Z :=
  ndigits_fuel (Z.to_nat (Z.log2 (Z.abs c))) (Z.abs c).

(** ROUND_HALF_EVEN (the rounding of the default context): drop the last
    [k] digits of the magnitude [c]. *)
Definition round_half_even (c k : Z) : Z :=
  let p := 10 ^ k in
  let q := c / p in
  let r := c mod p in
  if (2 * r >? p) || ((2 * r =? p) && Z.odd q) then q + 1 else q.

(** [Decimal._fix]: round to [prec] significant digits. *)
Definition Decimal_fix (d : Decimal) : Decimal :=
  let n := ndigits (coef d) in
  if (coef d =? 0) || (n <=? prec) then d
  else
    let k := n - prec in
    let q := round_half_even (Z.abs (coef d)) k in
    if q =? 10 ^ prec
    then mkDecimal (Z.sgn (coef d) * 10 ^ (prec - 1)) (expo d + k + 1)
    else mkDecimal (Z.sgn (coef d) * q) (expo d + k).

(** [Decimal._rescale] to a smaller exponent: pad with zeros. *)
Definition Decimal_rescale (d : Decimal) (e : Z) : Decimal :=
  mkDecimal (coef d * 10 ^ (expo d - e)) e.

(** [Decimal.__mul__]. *)
Definition Decimal_mul (a b : Decimal) : Decimal :=
  Decimal_fix (mkDecimal (coef a * coef b) (expo a + expo b)).

(** [Decimal.__add__]. *)
Definition Decimal_add (a b : Decimal) : Decimal :=
  let e := Z.min (expo a) (expo b) in
  if (coef a =? 0) && (coef b =? 0) then Decimal_fix (mkDecimal 0 e)
  else if coef a =? 0
  then Decimal_fix (Decimal_rescale b (Z.max e (expo b - prec - 1)))
  else if coef b =? 0
  then Decimal_fix (Decimal_rescale a (Z.max e (expo a - prec - 1)))
  else Decimal_fix
         (mkDecimal (coef a * 10 ^ (expo a - e) + coef b * 10 ^ (expo b - e)) e).

Definition Decimal_neg (a : Decimal) : Decimal := mkDecimal (- coef a) (expo a).

(** [Decimal.__sub__]: [self + other.copy_negate()]. *)
Definition Decimal_sub (a b : Decimal) : Decimal := Decimal_add a (Decimal_neg b).

(** Numerical comparison of two decimals (exact, never rounded). *)
Definition Decimal_cmp (a b : Decimal) : comparison :=
  let e := Z.min (expo a) (expo b) in
  (coef a * 10 ^ (expo a - e)) ?= (coef b * 10 ^ (expo b - e)).

Definition Decimal_eqb (a b : Decimal) : bool :=
  match Decimal_cmp a b with Eq => true | _ => false end.

(** [a > b]. *)
Definition Decimal_gtb (a b : Decimal) : bool :=
  match Decimal_cmp a b with Gt => true | _ => false end.

(** [a >= b]. *)
Definition Decimal_geb (a b : Decimal) : bool :=
  match Decimal_cmp a b with Lt => false | _ => true end.

(** Python's builtin [max(a, b)]: the first of the two unless the second
    is strictly greater. *)
Definition py_max (a b : Decimal) : Decimal :=
  if Decimal_gtb b a then b else a.

(** Two decimals denote the same number. *)
Definition Decimal_equiv (a b : Decimal) : Prop := Decimal_cmp a b = Eq.

(* ================================================================== *)
(** ** Rectangles *)
(* ================================================================== *)

(** [borb.pdf.canvas.geometry.rectangle.Rectangle]: lower-left corner,
    width and height. *)
Record Rectangle := mkRectangle {
  x : Decimal;
  y : Decimal;
  width : Decimal;
  height : Decimal
}.

Close Scope Z_scope.

(* ================================================================== *)
(** ** The object graph *)
(* ================================================================== *)

(** Python objects have identity: a container is a cell of the store and
    is held by reference.  Names, strings, numbers, booleans and byte
    strings are immutable and are held as immediate values. *)
Abbreviation loc := nat.

(** A font descriptor ([StandardType1Font("Helvetica")]); two descriptors
    are equivalent when they are equal. *)
Inductive Font := StandardType1Font (name : string).

Inductive value :=
| VName (s : string)
| VString (s : string)
| VDecimal (d : Decimal)
| VBoolean (b : bool)
| VBytes (bs : list Byte.byte)
| VFont (f : Font)
| VRef (l : loc).

(** The classes of dictionary-like objects of [borb.io.read.types] and
    their subclasses that occur around a page. *)
Inductive dict_class := ClsDictionary | ClsStream | ClsPage | ClsDocument | ClsXRef.

(** The attributes every object gets from [add_base_methods]: the parent
    link followed by [get_root], and the two serialisation markers. *)
Record attrs := mkAttrs {
  parent : option loc;
  is_unique : bool;
  is_inline : bool
}.

Definition no_attrs : attrs := mkAttrs None false false.

(** A dictionary keeps its entries in insertion order, as a Python dict
    does; a key occurs at most once. *)
Inductive object :=
| ODict (c : dict_class) (a : attrs) (entries : list (string * value))
| OList (a : attrs) (items : list value).

(** The store: the object at address [l] is the [l]-th element; a new
    object is appended, so that its address is the length of the store. *)
Abbreviation heap := (list object).

#[global] Instance Font_eq_dec : EqDecision Font.
Proof. solve_decision. Defined.
#[global] Instance Decimal_eq_dec : EqDecision Decimal.
Proof. solve_decision. Defined.
#[global] Instance byte_eq_dec : EqDecision Byte.byte := Byte.byte_eq_dec.
#[global] Instance value_eq_dec : EqDecision value.
Proof. solve_decision. Defined.

(** *** Association lists *)

Fixpoint dict_get (k : string) (es : list (string * value)) : option value :=
  match es with
  | [] => None
  | (k', v) :: es' => if decide (k = k') then Some v else dict_get k es'
  end.

(** [d[k] = v]: overwrite in place, or append a new entry. *)
Fixpoint dict_set (k : string) (v : value) (es : list (string * value))
  : list (string * value) :=
  match es with
  | [] => [(k, v)]
  | (k', v') :: es' =>
      if decide (k = k') then (k, v) :: es' else (k', v') :: dict_set k v es'
  end.

(** *** Reading and writing the store *)

Definition obj_attrs (o : object) : attrs :=
  match o with ODict _ a _ => a | OList a _ => a end.

Definition obj_set_attrs (f : attrs → attrs) (o : object) : object :=
  match o with ODict c a es => ODict c (f a) es | OList a xs => OList (f a) xs end.

Definition obj_dset (k : string) (v : value) (o : object) : object :=
  match o with ODict c a es => ODict c a (dict_set k v es) | _ => o end.

Definition obj_lpush (v : value) (o : object) : object :=
  match o with OList a xs => OList a (xs ++ [v]) | _ => o end.

Definition obj_lset (i : nat) (v : value) (o : object) : object :=
  match o with OList a xs => OList a (<[i := v]> xs) | _ => o end.

(** The entries of the dictionary at [l]. *)
Definition dentries (h : heap) (l : loc) : option (list (string * value)) :=
  match h !! l with
  | Some (ODict _ _ es) => Some es
  | _ => None
  end.

(** The entry under key [k] of the dictionary at [l]. *)
Definition dget (h : heap) (l : loc) (k : string) : option value :=
  match dentries h l with
  | Some es => dict_get k es
  | None => None
  end.

(** The items of the list at [l]. *)
Definition lget (h : heap) (l : loc) : option (list value) :=
  match h !! l with
  | Some (OList _ xs) => Some xs
  | _ => None
  end.

Definition is_dict (h : heap) (l : loc) : bool :=
  match h !! l with Some (ODict _ _ _) => true | _ => false end.

Definition is_list (h : heap) (l : loc) : bool :=
  match h !! l with Some (OList _ _) => true | _ => false end.

(** Update in place of the object at [l]: its address does not change. *)
Definition hupd (f : object → object) (h : heap) (l : loc) : heap :=
  match h !! l with
  | Some o => <[l := f o]> h
  | None => h
  end.

Definition dset (h : heap) (l : loc) (k : string) (v : value) : heap :=
  hupd (obj_dset k v) h l.

Definition lpush (h : heap) (l : loc) (v : value) : heap :=
  hupd (obj_lpush v) h l.

Definition lset (h : heap) (l : loc) (i : nat) (v : value) : heap :=
  hupd (obj_lset i v) h l.

Definition aset (h : heap) (l : loc) (f : attrs → attrs) : heap :=
  hupd (obj_set_attrs f) h l.

(** *** The monad of the embedding *)

Inductive exn := KeyError | TypeError | IndexError | AttributeError.

(** A call returns a result and the new store, raises, or never returns. *)
Inductive outcome (A : Type) :=
| Ok (a : A) (h : heap)
| Raise (e : exn)
| Diverge.
Arguments Ok {A} a h.
Arguments Raise {A} e.
Arguments Diverge {A}.

Definition M (A : Type) : Type := heap → outcome A.

Definition ret {A} (a : A) : M A := λ h, Ok a h.

Definition bind {A B} (m : M A) (f : A → M B) : M B :=
  λ h, match m h with
       | Ok a h' => f a h'
       | Raise e => Raise e
       | Diverge => Diverge
       end.

Definition raise {A} (e : exn) : M A := λ _, Raise e.

Notation "'let*' x ':=' m 'in' k" := (bind m (λ x, k))
  (at level 10, x name, m at level 100, k at level 200, only parsing).
Notation "'do' m 'then' k" := (bind m (λ _, k))
  (at level 10, m at level 100, k at level 200, only parsing).

(** *** Object construction and the base methods *)

(** [Dictionary()], [Stream()] and [List()]: a new, empty object. *)
Definition new_dict (c : dict_class) : M loc :=
  λ h, Ok (length h) (h ++ [ODict c no_attrs []]).

Definition new_Dictionary : M loc := new_dict ClsDictionary.
Definition new_Stream : M loc := new_dict ClsStream.
Definition new_List : M loc := λ h, Ok (length h) (h ++ [OList no_attrs []]).

(** [o.set_is_unique(b)] and [o.set_is_inline(b)] return [o]. *)
Definition set_is_unique (b : bool) (l : loc) : M loc :=
  λ h, Ok l (aset h l (λ a, mkAttrs (parent a) b (is_inline a))).

Definition set_is_inline (b : bool) (l : loc) : M loc :=
  λ h, Ok l (aset h l (λ a, mkAttrs (parent a) (is_unique a) b)).

(** [o.get_parent()]. *)
Definition get_parent (h : heap) (l : loc) : option (option loc) :=
  match h !! l with
  | Some o => Some (parent (obj_attrs o))
  | None => None
  end.

(** [o.get_root()]: follow the parent links up to the object that has
    none.  A chain without a cycle visits every object at most once, so
    [length h] steps are enough; when they are used up the links form a
    cycle and the loop of [get_root] never ends. *)
Fixpoint get_root_fuel (fuel : nat) (h : heap) (l : loc) : option loc :=
  match fuel with
  | O => None
  | S f =>
      match get_parent h l with
      | Some (Some p) => get_root_fuel f h p
      | Some None => Some l
      | None => None
      end
  end.

Definition get_root (l : loc) : M loc :=
  λ h, match get_root_fuel (length h) h l with
       | Some r => Ok r h
       | None => Diverge
       end.

(** *** Item access *)

(** [k in recv].  For a dictionary: [k] is a key.  For a list: some item
    equals the text [k] (names and strings are Python strings). *)
Definition py_contains (k : string) (recv : value) : M bool :=
  λ h, match recv with
       | VRef l =>
           if is_dict h l then Ok (bool_decide (is_Some (dget h l k))) h
           else match lget h l with
                | Some xs => Ok (bool_decide (VName k ∈ xs ∨ VString k ∈ xs)) h
                | None => Raise TypeError
                end
       | _ => Raise TypeError
       end.

(** [recv[k]] with a string key. *)
Definition py_getitem (recv : value) (k : string) : M value :=
  λ h, match recv with
       | VRef l =>
           if is_dict h l then
             match dget h l k with
             | Some v => Ok v h
             | None => Raise KeyError
             end
           else Raise TypeError
       | _ => Raise TypeError
       end.

(** [recv[Name(k)] = v]. *)
Definition py_setitem (recv : value) (k : string) (v : value) : M unit :=
  λ h, match recv with
       | VRef l =>
           if is_dict h l then Ok tt (dset h l k v) else Raise TypeError
       | _ => Raise TypeError
       end.

(** [recv.append(v)]. *)
Definition py_append (recv : value) (v : value) : M unit :=
  λ h, match recv with
       | VRef l =>
           if is_list h l then Ok tt (lpush h l v) else Raise AttributeError
       | _ => Raise AttributeError
       end.

(** [recv[i] = v] with an integer index: a list raises IndexError out of
    range. *)
Definition py_setindex (recv : value) (i : nat) (v : value) : M unit :=
  λ h, match recv with
       | VRef l =>
           match lget h l with
           | Some xs =>
               if decide (i < length xs) then Ok tt (lset h l i v)
               else Raise IndexError
           | None => Raise TypeError
           end
       | _ => Raise TypeError
       end.

(** [recv.items()] of a dictionary. *)
Definition py_items (recv : value) : M (list (string * value)) :=
  λ h, match recv with
       | VRef l =>
           match dentries h l with
           | Some es => Ok es h
           | None => Raise AttributeError
           end
       | _ => Raise AttributeError
       end.
(* ================================================================== *)
(** ** Collaborators of text_field.py *)
(* ================================================================== *)

(** What text_field.py takes from outside and the claims do not look
    into: the colour classes and the %-formatting of floats behind the
    /DA string, [zlib.compress], and the field-name generator of
    [FormField]. *)
Class Collaborators := {
  Color : Type;
  (** ["%f %f %f rg /%s %f Tf" % (...)] on [color.to_rgb()], the font
      resource name and the font size *)
  format_DA : Color → string → Decimal → string;
  (** [zlib.compress(data, level)] *)
  zlib_compress : list Byte.byte → Z → list Byte.byte;
  (** [FormField._get_auto_generated_field_name(page)]: reads the store *)
  _get_auto_generated_field_name : heap → loc → string
}.

(** The name of the [k]-th font resource: [F1], [F2], ... *)
Definition font_name (k : nat) : string := "F" +:+ pretty k.

Definition has_key (k : string) (es : list (string * value)) : bool :=
  bool_decide (is_Some (dict_get k es)).

(** A font resource name that is not yet a key of the font dictionary:
    among [F1 .. F(n+1)] one is free when the dictionary has [n] entries. *)
Definition fresh_font_name (es : list (string * value)) : string :=
  match find (λ k, negb (has_key (font_name k) es)) (seq 1 (S (length es))) with
  | Some k => font_name k
  | None => font_name (S (length es))
  end.

(** Modelled from the spec: [LayoutElement._get_font_resource_name], which
    text_field.py inherits and src/ does not contain.  Section 4.2
    (Resource Registrar): the page's resource dictionary and its font
    dictionary are created on demand; if a resource with an equivalent
    descriptor already exists under the font dictionary its name is
    returned, otherwise a fresh name is allocated, the resource inserted
    and the new name returned. *)
Definition _get_font_resource_name (font : Font) (page : loc) : M string :=
  let* has_resources := py_contains "Resources" (VRef page) in
  do (if has_resources : bool then ret tt
      else let* d := new_Dictionary in py_setitem (VRef page) "Resources" (VRef d)) then
  let* resources := py_getitem (VRef page) "Resources" in
  let* has_font := py_contains "Font" resources in
  do (if has_font : bool then ret tt
      else let* d := new_Dictionary in py_setitem resources "Font" (VRef d)) then
  let* fonts := py_getitem resources "Font" in
  let* entries := py_items fonts in
  match find (λ kv, bool_decide (kv.2 = VFont font)) entries with
  | Some (k, _) => ret k
  | None =>
      let k := fresh_font_name entries in
      do py_setitem fonts k (VFont font) then
      ret k
  end.

(* ================================================================== *)
(** ** [TextField] *)
(* ================================================================== *)

Section TextField.

Context `{Collaborators}.

(** The attributes of a [TextField] that text_field.py reads or writes
    (margins, borders and padding belong to [FormField] and are only
    passed on to it). *)
Record TextField := mkTextField {
  _font_size : Decimal;
  _font_color : Color;
  _value : string;
  _default_value : string;
  _field_name : option string;
  _widget_dictionary : option loc
}.

(** [TextField.__init__]: [assert font_size >= 0]; the widget dictionary
    starts as [None]. *)
Definition TextField__init__ (default_value : string) (field_name : option string)
    (font_color : Color) (font_size : Decimal) (value : string) : option TextField :=
  if Decimal_geb font_size (Decimal_of_int 0)
  then Some (mkTextField font_size font_color value default_value field_name None)
  else None.

Definition set_widget_dictionary (self : TextField) (w : loc) : TextField :=
  mkTextField (_font_size self) (_font_color self) (_value self)
    (_default_value self) (_field_name self) (Some w).

Definition bDecimal (d : Decimal) : value := VDecimal d.

(** The decoded content of the appearance stream, [b"/Tx BMC EMC"]. *)
Definition Tx_BMC_EMC : list Byte.byte := String.list_byte_of_string "/Tx BMC EMC".

(** [self._field_name or self._get_auto_generated_field_name(page)]. *)
Definition field_name_or_auto (self : TextField) (page : loc) : M string :=
  λ h, Ok (match _field_name self with
           | Some (String a s) => String a s
           | _ => _get_auto_generated_field_name h page
           end) h.

(** [TextField._init_widget_dictionary] (lines 70-158).  The result is
    [self] after the call. *)
Definition _init_widget_dictionary (self : TextField) (page : loc)
    (layout_box : Rectangle) : M TextField :=
  match _widget_dictionary self with
  | Some _ => ret self
  | None =>
  let* root := get_root page in
  let* has_xref := py_contains "XRef" (VRef root) in
  if negb has_xref then ret self else
  (* init page and font resources *)
  let* font_resource_name :=
    _get_font_resource_name (StandardType1Font "Helvetica") page in
  (* widget resource dictionary *)
  let* widget_resources := (let* d := new_Dictionary in set_is_unique true d) in
  let* page_resources := py_getitem (VRef page) "Resources" in
  let* page_fonts := py_getitem page_resources "Font" in
  do py_setitem (VRef widget_resources) "Font" page_fonts then
  (* widget normal appearance *)
  let* widget_normal_appearance := (let* d := new_Stream in set_is_unique true d) in
  let wna := VRef widget_normal_appearance in
  do py_setitem wna "Type" (VName "XObject") then
  do py_setitem wna "Subtype" (VName "Form") then
  let* bbox := (let* l := new_List in set_is_inline true l) in
  do py_setitem wna "BBox" (VRef bbox) then
  let* b := py_getitem wna "BBox" in
  do py_append b (bDecimal (Decimal_of_int 0)) then
  let* b := py_getitem wna "BBox" in
  do py_append b (bDecimal (Decimal_of_int 0)) then
  let* b := py_getitem wna "BBox" in
  do py_append b (bDecimal (width layout_box)) then
  let* b := py_getitem wna "BBox" in
  do py_append b (bDecimal (_font_size self)) then
  do py_setitem wna "Resources" (VRef widget_resources) then
  do py_setitem wna "DecodedBytes" (VBytes Tx_BMC_EMC) then
  let* decoded := py_getitem wna "DecodedBytes" in
  do (match decoded with
      | VBytes bs => py_setitem wna "Bytes" (VBytes (zlib_compress bs 9))
      | _ => raise TypeError
      end) then
  do py_setitem wna "Filter" (VName "FlateDecode") then
  let* compressed := py_getitem wna "Bytes" in
  do (match compressed with
      | VBytes bs =>
          py_setitem wna "Length" (bDecimal (Decimal_of_int (Z.of_nat (length bs))))
      | _ => raise TypeError
      end) then
  (* widget appearance dictionary *)
  let* widget_appearance_dictionary :=
    (let* d := new_Dictionary in set_is_unique true d) in
  do py_setitem (VRef widget_appearance_dictionary) "N" wna then
  (* get Catalog *)
  let* root := get_root page in
  let* xref := py_getitem (VRef root) "XRef" in
  let* trailer := py_getitem xref "Trailer" in
  let* catalog := py_getitem trailer "Root" in
  (* widget dictionary *)
  let* w := (let* d := new_Dictionary in set_is_unique true d) in
  let self := set_widget_dictionary self w in
  let wd := VRef w in
  do py_setitem wd "Type" (VName "Annot") then
  do py_setitem wd "Subtype" (VName "Widget") then
  do py_setitem wd "F" (bDecimal (Decimal_of_int 4)) then
  let* rect := (let* l := new_List in set_is_inline true l) in
  do py_setitem wd "Rect" (VRef rect) then
  let* r := py_getitem wd "Rect" in
  do py_append r (bDecimal (x layout_box)) then
  let* r := py_getitem wd "Rect" in
  do py_append r (bDecimal (Decimal_sub (Decimal_add (y layout_box) (height layout_box))
                                        (_font_size self))) then
  let* r := py_getitem wd "Rect" in
  do py_append r (bDecimal (Decimal_add (x layout_box) (width layout_box))) then
  let* r := py_getitem wd "Rect" in
  do py_append r (bDecimal (Decimal_add (y layout_box) (height layout_box))) then
  do py_setitem wd "FT" (VName "Tx") then
  do py_setitem wd "P" catalog then
  let* name := field_name_or_auto self page in
  do py_setitem wd "T" (VString name) then
  do py_setitem wd "V" (VString (_value self)) then
  do py_setitem wd "DV" (VString (_default_value self)) then
  do py_setitem wd "DR" (VRef widget_resources) then
  (* rendering instructions *)
  do py_setitem wd "DA"
       (VString (format_DA (_font_color self) font_resource_name (_font_size self))) then
  do py_setitem wd "AP" (VRef widget_appearance_dictionary) then
  (* append field to page /Annots *)
  let* has_annots := py_contains "Annots" (VRef page) in
  do (if negb has_annots
      then let* l := new_List in py_setitem (VRef page) "Annots" (VRef l)
      else ret tt) then
  let* annots := py_getitem (VRef page) "Annots" in
  do py_append annots wd then
  (* append field to catalog *)
  let* has_acroform := py_contains "AcroForm" catalog in
  do (if negb has_acroform
      then
        let* d := new_Dictionary in
        do py_setitem catalog "AcroForm" (VRef d) then
        let* l := new_List in
        let* acroform := py_getitem catalog "AcroForm" in
        do py_setitem acroform "Fields" (VRef l) then
        let* acroform := py_getitem catalog "AcroForm" in
        do py_setitem acroform "DR" (VRef widget_resources) then
        let* acroform := py_getitem catalog "AcroForm" in
        py_setitem acroform "NeedAppearances" (VBoolean true)
      else ret tt) then
  let* acroform := py_getitem catalog "AcroForm" in
  let* fields := py_getitem acroform "Fields" in
  do py_append fields wd then
  ret self
  end.

(** [TextField._get_content_box] (lines 160-169). *)
Definition _get_content_box (self : TextField) (available_space : Rectangle)
  : Rectangle :=
  let line_height := Decimal_mul (_font_size self) Decimal_1_2 in
  mkRectangle
    (x available_space)
    (Decimal_sub (Decimal_add (y available_space) (height available_space))
                 line_height)
    (py_max (width available_space) (Decimal_of_int 64))
    line_height.

(** The block under [# set location] of [_paint_content_box]
    (lines 179-188): the geometry update of an existing widget. *)
Definition set_location (self : TextField) (cbox : Rectangle) : M unit :=
  match _widget_dictionary self with
  | None => ret tt
  | Some w =>
      let wd := VRef w in
      let* ap := py_getitem wd "AP" in
      let* n := py_getitem ap "N" in
      let* b := py_getitem n "BBox" in
      do py_setindex b 2 (bDecimal (width cbox)) then
      let* ap := py_getitem wd "AP" in
      let* n := py_getitem ap "N" in
      let* b := py_getitem n "BBox" in
      do py_setindex b 3 (bDecimal (_font_size self)) then
      let* r := py_getitem wd "Rect" in
      do py_setindex r 0 (bDecimal (x cbox)) then
      let* r := py_getitem wd "Rect" in
      do py_setindex r 1 (bDecimal (y cbox)) then
      let* r := py_getitem wd "Rect" in
      do py_setindex r 2 (bDecimal (Decimal_add (x cbox) (width cbox))) then
      let* r := py_getitem wd "Rect" in
      py_setindex r 3 (bDecimal (Decimal_add (y cbox) (height cbox)))
  end.

(** [TextField._paint_content_box] (lines 171-189). *)
Definition _paint_content_box (self : TextField) (page : loc)
    (available_space : Rectangle) : M TextField :=
  (* determine layout rectangle *)
  let cbox := _get_content_box self available_space in
  (* init self._widget_dictionary *)
  let* self := _init_widget_dictionary self page cbox in
  (* set location *)
  do set_location self cbox then
  ret self.

End TextField.

(* ================================================================== *)
(** ** Example documents *)
(* ================================================================== *)

(** A codec for the examples: the data behind a one-byte header. *)
Definition stored_compress (bs : list Byte.byte) (level : Z) : list Byte.byte :=
  Byte.x00 :: bs.

Definition stored_decompress (bs : list Byte.byte) : option (list Byte.byte) :=
  match bs with
  | Byte.x00 :: bs' => Some bs'
  | _ => None
  end.

(** Collaborators for the examples: colours are RGB triples, the /DA
    string only shows the resource name, and generated field names count
    the entries of the store. *)
Definition example_collaborators : Collaborators := {|
  Color := Z * Z * Z;
  format_DA := λ _ name _, "0 0 0 rg /" +:+ name +:+ " 12 Tf";
  zlib_compress := stored_compress;
  _get_auto_generated_field_name := λ h _, "field-" +:+ pretty (length h)
|}.

Definition child_of (p : loc) : attrs := mkAttrs (Some p) false false.

(** A document with two empty pages: Document (0) - XRef (1) - Trailer
    (2) - catalog (3) - Pages (4) - Kids (5) - Page (6) and Page (7). *)
Definition example_document : heap := [
  ODict ClsDocument no_attrs [("XRef", VRef 1)];
  ODict ClsXRef (child_of 0) [("Trailer", VRef 2)];
  ODict ClsDictionary (child_of 1) [("Root", VRef 3)];
  ODict ClsDictionary (child_of 2) [("Type", VName "Catalog"); ("Pages", VRef 4)];
  ODict ClsDictionary (child_of 3)
    [("Type", VName "Pages"); ("Kids", VRef 5);
     ("Count", VDecimal (Decimal_of_int 2))];
  OList (child_of 4) [VRef 6; VRef 7];
  ODict ClsPage (child_of 5) [("Type", VName "Page")];
  ODict ClsPage (child_of 5) [("Type", VName "Page")]
].

Definition example_page : loc := 6.
Definition second_page : loc := 7.
Definition example_catalog : loc := 3.

(** The same store before the first page is added to the document: the
    page has no parent yet. *)
Definition example_document_before : heap :=
  <[example_page := ODict ClsPage no_attrs [("Type", VName "Page")]]>
    example_document.

(** A page that belongs to no document. *)
Definition detached_page_heap : heap := [ODict ClsPage no_attrs [("Type", VName "Page")]].

Definition black : Z * Z * Z := (0, 0, 0)%Z.

(** [TextField(font_size=Decimal(12))] with a field name and a value. *)
Definition example_field : @TextField example_collaborators :=
  @mkTextField example_collaborators
    (Decimal_of_int 12) black "hello" "" (Some "name") None.

(** A second field, with a generated name. *)
Definition example_field2 : @TextField example_collaborators :=
  @mkTextField example_collaborators (Decimal_of_int 12) black "" "" None None.

(** [Rectangle(0, 0, 200, 50)]. *)
Definition example_space : Rectangle :=
  mkRectangle (Decimal_of_int 0) (Decimal_of_int 0)
              (Decimal_of_int 200) (Decimal_of_int 50).

(** [Rectangle(0, 0, 10, 50)]: narrower than the minimum width. *)
Definition narrow_space : Rectangle :=
  mkRectangle (Decimal_of_int 0) (Decimal_of_int 0)
              (Decimal_of_int 10) (Decimal_of_int 50).

(** The numbers the geometry example of the specification names. *)
Definition dec_14_4 : Decimal := mkDecimal 144 (-1).
Definition dec_35_6 : Decimal := mkDecimal 356 (-1).

(** The store after the first layout pass of [example_field] on the
    example page, and the field after it. *)
Definition example_painted : heap :=
  match _paint_content_box example_field example_page example_space
          example_document with
  | Ok _ h => h
  | _ => []
  end.

(** The addresses of the widget of [example_field] in that store, of its
    appearance stream, and of its two arrays. *)
Definition example_resources : loc := 10.
Definition example_stream : loc := 11.
Definition example_bbox : loc := 12.
Definition example_widget : loc := 14.
Definition example_rect : loc := 15.

(** The addresses of the widget of [example_field2] when it is attached
    next, of its appearance stream and of its resources dictionary. *)
Definition example_resources2 : loc := 19.
Definition example_stream2 : loc := 20.
Definition example_widget2 : loc := 23.

Definition example_painted_field : @TextField example_collaborators :=
  set_widget_dictionary example_field example_widget.

(* ================================================================== *)
(** ** Shapes of documents *)
(* ================================================================== *)

(** [page.get_root()["XRef"]["Trailer"]["Root"]]: the catalog of the
    document the page belongs to, when the whole path is there and ends
    in a dictionary. *)
Definition catalog_of (h : heap) (page : loc) : option loc :=
  match get_root_fuel (length h) h page with
  | Some root =>
      match dget h root "XRef" with
      | Some (VRef xref) =>
          match dget h xref "Trailer" with
          | Some (VRef trailer) =>
              match dget h trailer "Root" with
              | Some (VRef c) => if is_dict h c then Some c else None
              | _ => None
              end
          | _ => None
          end
      | _ => None
      end
  | None => None
  end.

(** The root of the page neither has a key [XRef] (a dictionary) nor an
    item equal to it (a list). *)
Definition lacks_XRef (h : heap) (root : loc) : bool :=
  if is_dict h root then bool_decide (dget h root "XRef" = None)
  else match lget h root with
       | Some xs => bool_decide (¬ (VName "XRef" ∈ xs ∨ VString "XRef" ∈ xs))
       | None => false
       end.

(** A page of no document: the root it reaches has no [XRef]. *)
Definition detached (h : heap) (page : loc) : bool :=
  match get_root_fuel (length h) h page with
  | Some root => lacks_XRef h root
  | None => false
  end.

(** [/Resources] of the page and its [/Font], when present, are
    dictionaries. *)
Definition resources_typed (h : heap) (page : loc) : bool :=
  match dget h page "Resources" with
  | None => true
  | Some (VRef rs) =>
      is_dict h rs &&
      match dget h rs "Font" with
      | None => true
      | Some (VRef fd) => is_dict h fd
      | Some _ => false
      end
  | Some _ => false
  end.

(** The annotation array of the page. *)
Definition annots_of (h : heap) (page : loc) : option loc :=
  match dget h page "Annots" with
  | Some (VRef al) => Some al
  | _ => None
  end.

(** [/Annots] of the page, when present, is an array. *)
Definition annots_typed (h : heap) (page : loc) : bool :=
  match dget h page "Annots" with
  | None => true
  | Some (VRef al) => is_list h al
  | Some _ => false
  end.

(** The form-registry dictionary of the catalog. *)
Definition acroform_of (h : heap) (cat : loc) : option loc :=
  match dget h cat "AcroForm" with
  | Some (VRef af) => Some af
  | _ => None
  end.

(** The field list of the catalog's form registry. *)
Definition fields_of (h : heap) (cat : loc) : option loc :=
  match acroform_of h cat with
  | Some af =>
      match dget h af "Fields" with
      | Some (VRef fl) => Some fl
      | _ => None
      end
  | None => None
  end.

(** [/AcroForm] of the catalog, when present, is a dictionary whose
    [/Fields] is an array. *)
Definition acroform_typed (h : heap) (cat : loc) : bool :=
  match dget h cat "AcroForm" with
  | None => true
  | Some (VRef af) =>
      match dget h af "Fields" with
      | Some (VRef fl) => is_list h fl
      | _ => false
      end
  | Some _ => false
  end.

(** The annotation array of the page and the field list of the catalog
    are two arrays, not one array reached twice. *)
Definition annots_fields_apart (h : heap) (page cat : loc) : bool :=
  match annots_of h page, fields_of h cat with
  | Some al, Some fl => bool_decide (al ≠ fl)
  | _, _ => true
  end.

(** A page a widget can be attached to: it belongs to a document with a
    catalog, and what the synthesis reads is of the expected kind. *)
Definition attachable (h : heap) (page : loc) : bool :=
  is_dict h page && resources_typed h page && annots_typed h page &&
  match catalog_of h page with
  | Some cat => acroform_typed h cat && annots_fields_apart h page cat
  | None => false
  end.

(** The items of an array of the store, [[]] when there is none. *)
Definition items_of (h : heap) (l : option loc) : list value :=
  match l with
  | Some l => default [] (lget h l)
  | None => []
  end.

(** The font dictionary of the page. *)
Definition fonts_of (h : heap) (page : loc) : option loc :=
  match dget h page "Resources" with
  | Some (VRef rs) =>
      match dget h rs "Font" with
      | Some (VRef fd) => Some fd
      | _ => None
      end
  | _ => None
  end.

(** The normal appearance stream of a widget, [w["AP"]["N"]]. *)
Definition appearance_of (h : heap) (w : loc) : option loc :=
  match dget h w "AP" with
  | Some (VRef ap) =>
      match dget h ap "N" with
      | Some (VRef s) => Some s
      | _ => None
      end
  | _ => None
  end.

(** The array under key [k] of a dictionary. *)
Definition array_of (h : heap) (l : loc) (k : string) : option loc :=
  match dget h l k with
  | Some (VRef a) => if is_list h a then Some a else None
  | _ => None
  end.

(** A widget dictionary as the synthesis leaves it: an appearance stream
    with a [/BBox] array and a [/Rect] array, two arrays of four items
    each. *)
Definition widget_shape (h : heap) (w bbox rect : loc) : bool :=
  match appearance_of h w with
  | Some s =>
      bool_decide (array_of h s "BBox" = Some bbox) &&
      bool_decide (array_of h w "Rect" = Some rect) &&
      bool_decide (length (items_of h (Some bbox)) = 4) &&
      bool_decide (length (items_of h (Some rect)) = 4) &&
      bool_decide (bbox ≠ rect)
  | None => false
  end.

(** The name under which the page's font dictionary already holds a
    font: the first entry with an equal descriptor. *)
Definition registered_font_name (h : heap) (page : loc) (font : Font)
  : option string :=
  match fonts_of h page with
  | Some fd =>
      match dentries h fd with
      | Some es => fst <$> find (λ kv, bool_decide (kv.2 = VFont font)) es
      | None => None
      end
  | None => None
  end.

(** Keys the font registrar never writes. *)
Definition not_a_font_key (k : string) : Prop :=
  k ≠ "Resources" ∧ k ≠ "Font" ∧ ∀ n, k ≠ font_name n.

(** What a call leaves alone in the objects that existed before it:
    parents, kinds, arrays, and the dictionary entries under the keys
    selected by [keep]. *)
Definition preserves (keep : string → Prop) (h h' : heap) : Prop :=
  length h ≤ length h' ∧
  (∀ l, l < length h → get_parent h' l = get_parent h l) ∧
  (∀ l, l < length h → is_dict h' l = is_dict h l) ∧
  (∀ l, l < length h → lget h' l = lget h l) ∧
  (∀ l k, l < length h → keep k → dget h' l k = dget h l k).

(** The dictionary at [l] holds the entries [es], in this order, possibly
    followed by more. *)
Definition dprefix (h : heap) (l : loc) (es : list (string * value)) : Prop :=
  ∃ ex, dentries h l = Some (es ++ ex).

(** Dictionaries only grow: the entries a dictionary had are still its
    first entries. *)
Definition grows (h h' : heap) : Prop :=
  ∀ l es, dentries h l = Some es → dprefix h' l es.

(** The appearance streams of two widgets refer to one resources
    dictionary. *)
Definition same_resources (h : heap) (w1 w2 : loc) : Prop :=
  ∃ s1 s2 r,
    appearance_of h w1 = Some s1 ∧ appearance_of h w2 = Some s2 ∧
    dget h s1 "Resources" = Some (VRef r) ∧
    dget h s2 "Resources" = Some (VRef r).

(* ================================================================== *)
(** ** What a synthesis leaves in the store *)
(* ================================================================== *)

Definition unique_attrs : attrs := mkAttrs None true false.
Definition inline_attrs : attrs := mkAttrs None false true.

Section Postconditions.

Context `{Collaborators}.

(** The bytes of the appearance stream. *)
Definition appearance_bytes : list Byte.byte := zlib_compress Tx_BMC_EMC 9.

(** The entries of the appearance stream, in the order of lines 91-102. *)
Definition stream_entries (bbox resources : loc) : list (string * value) :=
  [("Type", VName "XObject"); ("Subtype", VName "Form");
   ("BBox", VRef bbox); ("Resources", VRef resources);
   ("DecodedBytes", VBytes Tx_BMC_EMC); ("Bytes", VBytes appearance_bytes);
   ("Filter", VName "FlateDecode");
   ("Length", VDecimal (Decimal_of_int (Z.of_nat (length appearance_bytes))))].

(** The entries of the widget dictionary, in the order of lines 117-145. *)
Definition widget_entries (self : TextField) (rect catalog resources ap : loc)
    (field_name font_resource_name : string) : list (string * value) :=
  [("Type", VName "Annot"); ("Subtype", VName "Widget");
   ("F", VDecimal (Decimal_of_int 4)); ("Rect", VRef rect);
   ("FT", VName "Tx"); ("P", VRef catalog); ("T", VString field_name);
   ("V", VString (_value self)); ("DV", VString (_default_value self));
   ("DR", VRef resources);
   ("DA", VString (format_DA (_font_color self) font_resource_name
                             (_font_size self)));
   ("AP", VRef ap)].

(** The items of [/BBox] and of [/Rect] as [_init_widget_dictionary]
    appends them (lines 94-97 and 121-124). *)
Definition bbox_items (self : TextField) (box : Rectangle) : list value :=
  [VDecimal (Decimal_of_int 0); VDecimal (Decimal_of_int 0);
   VDecimal (width box); VDecimal (_font_size self)].

Definition rect_items (self : TextField) (box : Rectangle) : list value :=
  [VDecimal (x box);
   VDecimal (Decimal_sub (Decimal_add (y box) (height box)) (_font_size self));
   VDecimal (Decimal_add (x box) (width box));
   VDecimal (Decimal_add (y box) (height box))].

(** The six objects a synthesis creates, at consecutive addresses from
    [r]: the resources dictionary, the appearance stream, its [/BBox],
    the appearance dictionary, the widget dictionary and its [/Rect]. *)
Definition new_objects (self : TextField) (box : Rectangle) (cat fd : loc)
    (tname fname : string) (r : loc) (h' : heap) : Prop :=
  h' !! r = Some (ODict ClsDictionary unique_attrs [("Font", VRef fd)]) ∧
  h' !! (r + 1) = Some (ODict ClsStream unique_attrs (stream_entries (r + 2) r)) ∧
  h' !! (r + 2) = Some (OList inline_attrs (bbox_items self box)) ∧
  h' !! (r + 3) = Some (ODict ClsDictionary unique_attrs [("N", VRef (r + 1))]) ∧
  h' !! (r + 4) = Some (ODict ClsDictionary unique_attrs
                     (widget_entries self (r + 5) cat r (r + 3) tname fname)) ∧
  h' !! (r + 5) = Some (OList inline_attrs (rect_items self box)).

(** The widget is the last item of the page's annotation array and of the
    catalog's field list, which were otherwise left as they were. *)
Definition registered (h h' : heap) (page cat w r : loc) (al af fl : loc) : Prop :=
  dget h' page "Annots" = Some (VRef al) ∧
  lget h' al = Some (items_of h (annots_of h page) ++ [VRef w]) ∧
  dget h' cat "AcroForm" = Some (VRef af) ∧
  dget h' af "Fields" = Some (VRef fl) ∧
  lget h' fl = Some (items_of h (fields_of h cat) ++ [VRef w]) ∧
  (acroform_of h cat = None →
   dget h' af "DR" = Some (VRef r) ∧
   dget h' af "NeedAppearances" = Some (VBoolean true)) ∧
  al ≠ fl.

(** What the objects that were there before keep: their parents, the
    entries of the dictionaries (entries are added, never replaced) and
    the items of the arrays other than the two the widget is appended
    to. *)
Definition kept (h h' : heap) (al fl : loc) : Prop :=
  length h ≤ length h' ∧
  (∀ l, l < length h → get_parent h' l = get_parent h l) ∧
  grows h h' ∧
  (∀ l xs, lget h l = Some xs → l ≠ al → l ≠ fl → lget h' l = Some xs).

(** The outcome of a synthesis from [h] to [h'] for the widget [w]. *)
Definition synthesized (self : TextField) (page cat : loc) (box : Rectangle)
    (h h' : heap) (w : loc) : Prop :=
  ∃ (h_a : heap) (fname tname : string) (fd al af fl : loc),
    _get_font_resource_name (StandardType1Font "Helvetica") page h = Ok fname h_a ∧
    length h ≤ length h_a ∧
    w = length h_a + 4 ∧
    length h_a + 6 ≤ length h' ∧
    new_objects self box cat fd tname fname (length h_a) h' ∧
    fonts_of h' page = Some fd ∧
    registered_font_name h' page (StandardType1Font "Helvetica") = Some fname ∧
    registered h h' page cat w (length h_a) al af fl ∧
    kept h h' al fl ∧
    (is_Some (dget h_a page "Annots") → is_Some (dget h_a cat "AcroForm") →
     ∀ l, l < length h_a → dentries h' l = dentries h_a l) ∧
    (∀ l, l < length h_a → l ≠ page → l ≠ cat → dentries h' l = dentries h_a l) ∧
    (dget h page "Resources" = None →
     length h < fd ∧
     dentries h_a fd = Some [(font_name 1, VFont (StandardType1Font "Helvetica"))]).

(** The store after the geometry update of lines 183-188: six items are
    overwritten in place, two of [/BBox] and four of [/Rect]. *)
Definition relayout (self : TextField) (cbox : Rectangle) (bbox rect : loc)
    (h : heap) : heap :=
  let h := lset h bbox 2 (VDecimal (width cbox)) in
  let h := lset h bbox 3 (VDecimal (_font_size self)) in
  let h := lset h rect 0 (VDecimal (x cbox)) in
  let h := lset h rect 1 (VDecimal (y cbox)) in
  let h := lset h rect 2 (VDecimal (Decimal_add (x cbox) (width cbox))) in
  lset h rect 3 (VDecimal (Decimal_add (y cbox) (height cbox))).

(** The items of [/Rect] after the update. *)
Definition relayout_rect (cbox : Rectangle) : list value :=
  [VDecimal (x cbox); VDecimal (y cbox);
   VDecimal (Decimal_add (x cbox) (width cbox));
   VDecimal (Decimal_add (y cbox) (height cbox))].

End Postconditions.

(* ================================================================== *)
(** ** Measures and further example documents *)
(* ================================================================== *)



(** The value of a decimal on a scale [e] not above its exponent, as a
    multiple of [10 ^ e]. *)
Definition scaled (d : Decimal) (e : Z) : Z := (coef d * 10 ^ (expo d - e))%Z.

(** The two serialisation markers of the object at [l]:
    [(is_unique, is_inline)]. *)
Definition flags_of (h : heap) (l : loc) : option (bool * bool) :=
  (λ o, (is_unique (obj_attrs o), is_inline (obj_attrs o))) <$> h !! l.

(** The class of the dictionary at [l]. *)
Definition class_of (h : heap) (l : loc) : option dict_class :=
  match h !! l with
  | Some (ODict c _ _) => Some c
  | _ => None
  end.

(** A document whose cross-reference table has no trailer: Document (0)
    - XRef (1), and a page (2) below the document. *)
Definition broken_document : heap := [
  ODict ClsDocument no_attrs [("XRef", VRef 1)];
  ODict ClsXRef (child_of 0) [];
  ODict ClsPage (child_of 0) [("Type", VName "Page")]
].

Definition broken_document_page : loc := 2.

(** A document whose catalog (3) has a form registry (4) without a field
    list, and one page (5). *)
Definition document_without_fields : heap := [
  ODict ClsDocument no_attrs [("XRef", VRef 1)];
  ODict ClsXRef (child_of 0) [("Trailer", VRef 2)];
  ODict ClsDictionary (child_of 1) [("Root", VRef 3)];
  ODict ClsDictionary (child_of 2)
    [("Type", VName "Catalog"); ("AcroForm", VRef 4)];
  ODict ClsDictionary (child_of 3) [("NeedAppearances", VBoolean true)];
  ODict ClsPage (child_of 3) [("Type", VName "Page")]
].

Definition document_without_fields_page : loc := 5.
Definition document_without_fields_form : loc := 4.

(* ================================================================== *)
(** ** Lemmas on association lists and on the store *)
(* ================================================================== *)

Lemma dict_get_set_eq k v es : dict_get k (dict_set k v es) = Some v.
Proof.
  induction es as [|[k' v'] es IH]; simpl.
  - by rewrite decide_True.
  - destruct (decide (k = k')); simpl.
    + by rewrite decide_True.
    + by rewrite decide_False.
Qed.

Lemma dict_get_set_ne k k' v es :
  k ≠ k' → dict_get k' (dict_set k v es) = dict_get k' es.
Proof.
  intros Hne. induction es as [|[k2 v2] es IH]; simpl.
  - by rewrite decide_False.
  - destruct (decide (k = k2)) as [->|]; simpl.
    + by rewrite !decide_False.
    + destruct (decide (k' = k2)); auto.
Qed.

Lemma dict_set_length_absent k v es :
  dict_get k es = None → dict_set k v es = es ++ [(k, v)].
Proof.
  induction es as [|[k2 v2] es IH]; simpl; [done|].
  destruct (decide (k = k2)); [done|]. intros Hn. by rewrite IH.
Qed.

Lemma length_hupd f (h : heap) l : length (hupd f h l) = length h.
Proof. unfold hupd. destruct (h !! l); [apply length_insert | done]. Qed.

Lemma lookup_hupd_eq f (h : heap) l : hupd f h l !! l = f <$> (h !! l).
Proof.
  unfold hupd. destruct (h !! l) eqn:E; simpl; [|done].
  apply list_lookup_insert_eq. by eapply lookup_lt_Some.
Qed.

Lemma lookup_hupd_ne f (h : heap) l l' : l ≠ l' → hupd f h l !! l' = h !! l'.
Proof.
  intros. unfold hupd. destruct (h !! l); [|done].
  by apply list_lookup_insert_ne.
Qed.

Lemma hupd_app_l f (h t : heap) l :
  l < length h → hupd f (h ++ t) l = hupd f h l ++ t.
Proof.
  intros Hl. unfold hupd. rewrite lookup_app_l by done.
  destruct (h !! l); [|done]. rewrite insert_app_l; done.
Qed.

Lemma hupd_app_r f (h t : heap) n i :
  length h = n → hupd f (h ++ t) (n + i) = h ++ hupd f t i.
Proof.
  intros <-. unfold hupd. rewrite lookup_app_r by lia.
  replace (length h + i - length h) with i by lia.
  destruct (t !! i); [|done]. by rewrite insert_app_r.
Qed.

Lemma lookup_app_fresh (h t : heap) n i :
  length h = n → (h ++ t) !! (n + i) = t !! i.
Proof.
  intros <-. rewrite lookup_app_r by lia. f_equal. lia.
Qed.

(** Every reader of the store looks at one cell. *)
Ltac cell_reader :=
  unfold dget, dentries, lget, is_dict, is_list, get_parent.

Ltac updater := unfold dset, lpush, lset, aset.

Lemma length_dset h l k v : length (dset h l k v) = length h.
Proof. apply length_hupd. Qed.
Lemma length_lpush h l v : length (lpush h l v) = length h.
Proof. apply length_hupd. Qed.
Lemma length_lset h l i v : length (lset h l i v) = length h.
Proof. apply length_hupd. Qed.
Lemma length_aset h l f : length (aset h l f) = length h.
Proof. apply length_hupd. Qed.

Lemma is_dict_lt h l : is_dict h l = true → l < length h.
Proof.
  cell_reader. destruct (h !! l) eqn:E; [|done].
  intros _. by eapply lookup_lt_Some.
Qed.

Lemma is_list_lt h l : is_list h l = true → l < length h.
Proof.
  cell_reader. destruct (h !! l) eqn:E; [|done].
  intros _. by eapply lookup_lt_Some.
Qed.

Lemma dget_is_dict h l k v : dget h l k = Some v → is_dict h l = true.
Proof. cell_reader. by destruct (h !! l) as [[]|]. Qed.

Lemma lget_is_list h l xs : lget h l = Some xs → is_list h l = true.
Proof. cell_reader. by destruct (h !! l) as [[]|]. Qed.

Lemma is_list_lget h l : is_list h l = true → ∃ xs, lget h l = Some xs.
Proof. cell_reader. destruct (h !! l) as [[]|]; naive_solver. Qed.

Lemma is_dict_not_list h l : is_dict h l = true → is_list h l = false.
Proof. cell_reader. by destruct (h !! l) as [[]|]. Qed.

Lemma is_dict_dentries h l : is_dict h l = true → ∃ es, dentries h l = Some es.
Proof. cell_reader. destruct (h !! l) as [[]|]; naive_solver. Qed.

(** *** Readers after an update in place *)

Ltac by_cell l l' :=
  cell_reader; updater;
  destruct (decide (l = l')) as [<-|];
  [ rewrite lookup_hupd_eq | rewrite lookup_hupd_ne by done; done ].

Lemma dget_dset_eq h l k v :
  is_dict h l = true → dget (dset h l k v) l k = Some v.
Proof.
  cell_reader; updater. rewrite lookup_hupd_eq.
  destruct (h !! l) as [[]|]; simpl; try done.
  intros _. apply dict_get_set_eq.
Qed.

Lemma dget_dset_ne_key h l l' k k' v :
  k ≠ k' → dget (dset h l k v) l' k' = dget h l' k'.
Proof.
  intros. by_cell l l'.
  destruct (h !! l) as [[]|]; simpl; try done. by apply dict_get_set_ne.
Qed.

Lemma dget_dset_ne h l l' k k' v :
  l ≠ l' → dget (dset h l k v) l' k' = dget h l' k'.
Proof. intros. cell_reader; updater. by rewrite lookup_hupd_ne. Qed.

Lemma dentries_dset_eq h l k v es :
  dentries h l = Some es → dentries (dset h l k v) l = Some (dict_set k v es).
Proof.
  cell_reader; updater. rewrite lookup_hupd_eq.
  destruct (h !! l) as [[]|]; simpl; try done. by intros [= ->].
Qed.

Lemma dentries_dset_ne h l l' k v :
  l ≠ l' → dentries (dset h l k v) l' = dentries h l'.
Proof. intros. cell_reader; updater. by rewrite lookup_hupd_ne. Qed.

Lemma dentries_lpush h l l' v : dentries (lpush h l v) l' = dentries h l'.
Proof. by_cell l l'. by destruct (h !! l) as [[]|]. Qed.

Lemma dentries_lset h l l' i v : dentries (lset h l i v) l' = dentries h l'.
Proof. by_cell l l'. by destruct (h !! l) as [[]|]. Qed.

Lemma dentries_aset h l l' f : dentries (aset h l f) l' = dentries h l'.
Proof. by_cell l l'. by destruct (h !! l) as [[]|]. Qed.

Lemma dget_lpush h l l' k v : dget (lpush h l v) l' k = dget h l' k.
Proof. unfold dget. by rewrite dentries_lpush. Qed.

Lemma dget_lset h l l' k i v : dget (lset h l i v) l' k = dget h l' k.
Proof. unfold dget. by rewrite dentries_lset. Qed.

Lemma dget_aset h l l' k f : dget (aset h l f) l' k = dget h l' k.
Proof. unfold dget. by rewrite dentries_aset. Qed.

Lemma lget_dset h l l' k v : lget (dset h l k v) l' = lget h l'.
Proof. by_cell l l'. by destruct (h !! l) as [[]|]. Qed.

Lemma lget_aset h l l' f : lget (aset h l f) l' = lget h l'.
Proof. by_cell l l'. by destruct (h !! l) as [[]|]. Qed.

Lemma lget_lpush_eq h l v xs :
  lget h l = Some xs → lget (lpush h l v) l = Some (xs ++ [v]).
Proof.
  cell_reader; updater. rewrite lookup_hupd_eq.
  destruct (h !! l) as [[]|]; simpl; try done. by intros [= ->].
Qed.

Lemma lget_lpush_ne h l l' v : l ≠ l' → lget (lpush h l v) l' = lget h l'.
Proof. intros. cell_reader; updater. by rewrite lookup_hupd_ne. Qed.

Lemma lget_lset_eq h l i v xs :
  lget h l = Some xs → lget (lset h l i v) l = Some (<[i := v]> xs).
Proof.
  cell_reader; updater. rewrite lookup_hupd_eq.
  destruct (h !! l) as [[]|]; simpl; try done. by intros [= ->].
Qed.

Lemma lget_lset_ne h l l' i v : l ≠ l' → lget (lset h l i v) l' = lget h l'.
Proof. intros. cell_reader; updater. by rewrite lookup_hupd_ne. Qed.

Lemma is_dict_hupd f h l l' :
  (∀ o, match f o with ODict _ _ _ => true | _ => false end
        = match o with ODict _ _ _ => true | _ => false end) →
  is_dict (hupd f h l) l' = is_dict h l'.
Proof.
  intros Hf. cell_reader. destruct (decide (l = l')) as [<-|].
  - rewrite lookup_hupd_eq. destruct (h !! l) as [o|]; simpl; [|done].
    specialize (Hf o). by destruct (f o), o.
  - by rewrite lookup_hupd_ne.
Qed.

Lemma is_dict_dset h l l' k v : is_dict (dset h l k v) l' = is_dict h l'.
Proof. apply is_dict_hupd. by intros []. Qed.
Lemma is_dict_lpush h l l' v : is_dict (lpush h l v) l' = is_dict h l'.
Proof. apply is_dict_hupd. by intros []. Qed.
Lemma is_dict_lset h l l' i v : is_dict (lset h l i v) l' = is_dict h l'.
Proof. apply is_dict_hupd. by intros []. Qed.
Lemma is_dict_aset h l l' f : is_dict (aset h l f) l' = is_dict h l'.
Proof. apply is_dict_hupd. by intros []. Qed.

Lemma is_list_hupd f h l l' :
  (∀ o, match f o with OList _ _ => true | _ => false end
        = match o with OList _ _ => true | _ => false end) →
  is_list (hupd f h l) l' = is_list h l'.
Proof.
  intros Hf. cell_reader. destruct (decide (l = l')) as [<-|].
  - rewrite lookup_hupd_eq. destruct (h !! l) as [o|]; simpl; [|done].
    specialize (Hf o). by destruct (f o), o.
  - by rewrite lookup_hupd_ne.
Qed.

Lemma is_list_dset h l l' k v : is_list (dset h l k v) l' = is_list h l'.
Proof. apply is_list_hupd. by intros []. Qed.
Lemma is_list_lpush h l l' v : is_list (lpush h l v) l' = is_list h l'.
Proof. apply is_list_hupd. by intros []. Qed.
Lemma is_list_lset h l l' i v : is_list (lset h l i v) l' = is_list h l'.
Proof. apply is_list_hupd. by intros []. Qed.
Lemma is_list_aset h l l' f : is_list (aset h l f) l' = is_list h l'.
Proof. apply is_list_hupd. by intros []. Qed.

Lemma get_parent_hupd f h l l' :
  (∀ o, parent (obj_attrs (f o)) = parent (obj_attrs o)) →
  get_parent (hupd f h l) l' = get_parent h l'.
Proof.
  intros Hf. cell_reader. destruct (decide (l = l')) as [<-|].
  - rewrite lookup_hupd_eq. destruct (h !! l) as [o|]; simpl; [|done].
    by rewrite Hf.
  - by rewrite lookup_hupd_ne.
Qed.

Lemma get_parent_dset h l l' k v : get_parent (dset h l k v) l' = get_parent h l'.
Proof. apply get_parent_hupd. by intros []. Qed.
Lemma get_parent_lpush h l l' v : get_parent (lpush h l v) l' = get_parent h l'.
Proof. apply get_parent_hupd. by intros []. Qed.
Lemma get_parent_lset h l l' i v : get_parent (lset h l i v) l' = get_parent h l'.
Proof. apply get_parent_hupd. by intros []. Qed.

Lemma get_parent_set_is_unique h l l' b :
  get_parent (aset h l (λ a, mkAttrs (parent a) b (is_inline a))) l'
  = get_parent h l'.
Proof. apply get_parent_hupd. by intros []. Qed.

Lemma get_parent_set_is_inline h l l' b :
  get_parent (aset h l (λ a, mkAttrs (parent a) (is_unique a) b)) l'
  = get_parent h l'.
Proof. apply get_parent_hupd. by intros []. Qed.

(** *** Readers after an allocation *)

Lemma dentries_app_l (h t : heap) l :
  l < length h → dentries (h ++ t) l = dentries h l.
Proof. intros. cell_reader. by rewrite lookup_app_l. Qed.

Lemma dget_app_l (h t : heap) l k : l < length h → dget (h ++ t) l k = dget h l k.
Proof. intros. unfold dget. by rewrite dentries_app_l. Qed.

Lemma lget_app_l (h t : heap) l : l < length h → lget (h ++ t) l = lget h l.
Proof. intros. cell_reader. by rewrite lookup_app_l. Qed.

Lemma is_dict_app_l (h t : heap) l :
  l < length h → is_dict (h ++ t) l = is_dict h l.
Proof. intros. cell_reader. by rewrite lookup_app_l. Qed.

Lemma is_list_app_l (h t : heap) l :
  l < length h → is_list (h ++ t) l = is_list h l.
Proof. intros. cell_reader. by rewrite lookup_app_l. Qed.

Lemma get_parent_app_l (h t : heap) l :
  l < length h → get_parent (h ++ t) l = get_parent h l.
Proof. intros. cell_reader. by rewrite lookup_app_l. Qed.

Lemma dentries_new (h : heap) o l :
  length h = l → dentries (h ++ [o]) l = dentries [o] 0.
Proof. intros <-. cell_reader. by rewrite list_lookup_middle. Qed.

Lemma dget_new (h : heap) o l k :
  length h = l → dget (h ++ [o]) l k = dget [o] 0 k.
Proof. intros. unfold dget. by rewrite (dentries_new h o l). Qed.

Lemma lget_new (h : heap) o l : length h = l → lget (h ++ [o]) l = lget [o] 0.
Proof. intros <-. cell_reader. by rewrite list_lookup_middle. Qed.

Lemma is_dict_new (h : heap) o l :
  length h = l → is_dict (h ++ [o]) l = is_dict [o] 0.
Proof. intros <-. cell_reader. by rewrite list_lookup_middle. Qed.

Lemma is_list_new (h : heap) o l :
  length h = l → is_list (h ++ [o]) l = is_list [o] 0.
Proof. intros <-. cell_reader. by rewrite list_lookup_middle. Qed.

Lemma get_parent_new (h : heap) o l :
  length h = l → get_parent (h ++ [o]) l = get_parent [o] 0.
Proof. intros <-. cell_reader. by rewrite list_lookup_middle. Qed.

Lemma length_snoc (h : heap) o : length (h ++ [o]) = length h + 1.
Proof. by rewrite length_app. Qed.

(** Readers beyond the end of the store. *)
Lemma dget_ge (h : heap) l k : length h ≤ l → dget h l k = None.
Proof. intros. cell_reader. by rewrite lookup_ge_None_2. Qed.

Lemma lget_ge (h : heap) l : length h ≤ l → lget h l = None.
Proof. intros. cell_reader. by rewrite lookup_ge_None_2. Qed.

(** *** [get_root] *)

Lemma get_root_fuel_ext (h h' : heap) fuel fuel' l r :
  (∀ l, l < length h → get_parent h' l = get_parent h l) →
  fuel ≤ fuel' →
  get_root_fuel fuel h l = Some r →
  get_root_fuel fuel' h' l = Some r.
Proof.
  intros Hp. revert fuel' l.
  induction fuel as [|fuel IH]; intros fuel' l Hle; simpl; [done|].
  destruct fuel' as [|fuel']; [lia|]. simpl.
  destruct (get_parent h l) as [[p|]|] eqn:E; try done.
  - rewrite Hp, E; [apply IH; lia|].
    revert E. cell_reader. destruct (h !! l) eqn:E'; [|done].
    intros _. by eapply lookup_lt_Some.
  - rewrite Hp, E; [done|].
    revert E. cell_reader. destruct (h !! l) eqn:E'; [|done].
    intros _. by eapply lookup_lt_Some.
Qed.

Lemma get_root_ok h l r :
  get_root_fuel (length h) h l = Some r → get_root l h = Ok r h.
Proof. unfold get_root. by intros ->. Qed.

(** *** Font resource names *)

Lemma pretty_N_go_head (c : Ascii.ascii) x s s' :
  (∀ d, pretty_N_char d ≠ c) →
  s ≠ String c s' → pretty_N_go x s ≠ String c s'.
Proof.
  intros Hc. revert s. induction (N.lt_wf_0 x) as [x _ IH]; intros s ?.
  assert (x = 0 ∨ 0 < x)%N as [->|?] by lia.
  - by rewrite pretty_N_go_0.
  - rewrite pretty_N_go_step by done. apply IH.
    { by apply N.div_lt. }
    intros [= E _]. by apply Hc in E.
Qed.

Lemma pretty_nat_head (c : Ascii.ascii) (n : nat) s' :
  (∀ d, pretty_N_char d ≠ c) → pretty n ≠ String c s'.
Proof.
  intros Hc. unfold pretty, pretty_nat, pretty, pretty_N.
  destruct (decide (N.of_nat n = 0%N)).
  - intros [= E _]. by apply (Hc 0%N).
  - by apply pretty_N_go_head.
Qed.

Lemma font_name_not_Fields n : font_name n ≠ "Fields".
Proof.
  unfold font_name. simpl. intros [= E]. revert E. apply pretty_nat_head.
  intros d. unfold pretty_N_char. by repeat case_match.
Qed.

Lemma font_name_not_Font n : font_name n ≠ "Font".
Proof.
  unfold font_name. simpl. intros [= E]. revert E. apply pretty_nat_head.
  intros d. unfold pretty_N_char. by repeat case_match.
Qed.

(** *** The primitives on a known store *)

Lemma bind_Ok {A B} (m : M A) (f : A → M B) h a h' :
  m h = Ok a h' → bind m f h = f a h'.
Proof. unfold bind. by intros ->. Qed.

Lemma new_dict_ok c h l :
  length h = l → new_dict c h = Ok l (h ++ [ODict c no_attrs []]).
Proof. by intros <-. Qed.

Lemma new_List_ok h l :
  length h = l → new_List h = Ok l (h ++ [OList no_attrs []]).
Proof. by intros <-. Qed.

Lemma py_contains_true h l k v :
  dget h l k = Some v → py_contains k (VRef l) h = Ok true h.
Proof.
  intros Hg. unfold py_contains. rewrite (dget_is_dict _ _ _ _ Hg), Hg.
  by rewrite bool_decide_true.
Qed.

Lemma py_contains_false h l k :
  is_dict h l = true → dget h l k = None → py_contains k (VRef l) h = Ok false h.
Proof.
  intros Hd Hg. unfold py_contains. rewrite Hd, Hg.
  rewrite bool_decide_false; [done|]. by intros [? ?].
Qed.

Lemma py_getitem_ok h l k v :
  dget h l k = Some v → py_getitem (VRef l) k h = Ok v h.
Proof.
  intros Hg. unfold py_getitem. by rewrite (dget_is_dict _ _ _ _ Hg), Hg.
Qed.

Lemma py_setitem_ok h l k v :
  is_dict h l = true → py_setitem (VRef l) k v h = Ok tt (dset h l k v).
Proof. intros Hd. unfold py_setitem. by rewrite Hd. Qed.

Lemma py_append_ok h l v :
  is_list h l = true → py_append (VRef l) v h = Ok tt (lpush h l v).
Proof. intros Hd. unfold py_append. by rewrite Hd. Qed.

Lemma py_setindex_ok h l i v xs :
  lget h l = Some xs → i < length xs →
  py_setindex (VRef l) i v h = Ok tt (lset h l i v).
Proof. intros Hg Hi. unfold py_setindex. rewrite Hg. by rewrite decide_True. Qed.

Lemma py_items_ok h l es :
  dentries h l = Some es → py_items (VRef l) h = Ok es h.
Proof. intros Hg. unfold py_items. by rewrite Hg. Qed.

(* ================================================================== *)
(** ** The same lemmas as transports *)
(* ================================================================== *)

(** Each lemma carries a fact about a store through one operation that
    built it, so that a reader of a long chain of operations is resolved
    by applying one lemma per operation. *)

Section Transport.

Implicit Types (h : heap) (l i : nat) (k : string) (v : value) (o : object).

(** *** Lengths *)

Lemma len_dset h l k v n : length h = n → length (dset h l k v) = n.
Proof. intros <-. apply length_dset. Qed.
Lemma len_lpush h l v n : length h = n → length (lpush h l v) = n.
Proof. intros <-. apply length_lpush. Qed.
Lemma len_lset h l i v n : length h = n → length (lset h l i v) = n.
Proof. intros <-. apply length_lset. Qed.
Lemma len_aset h l f n : length h = n → length (aset h l f) = n.
Proof. intros <-. apply length_aset. Qed.
Lemma len_snoc h o n : length h = n → length (h ++ [o]) = n + 1.
Proof. intros <-. apply length_snoc. Qed.

Lemma lt_len h n l : length h = n → l < n → l < length h.
Proof. by intros <-. Qed.
Lemma le_len h n l : length h = n → l ≤ n → l ≤ length h.
Proof. by intros <-. Qed.
Lemma eq_len h n l : length h = n → n = l → length h = l.
Proof. by intros <- <-. Qed.

(** *** Addresses: old ones are below [n], new ones are [n + i] *)

Lemma lt_add_one l m : l < m → l < m + 1.
Proof. lia. Qed.
Lemma new_ne_old n i l : l < n → n + i ≠ l.
Proof. lia. Qed.
Lemma old_ne_new n i l : l < n → l ≠ n + i.
Proof. lia. Qed.
Lemma base_ne_old n l : l < n → n ≠ l.
Proof. lia. Qed.
Lemma old_ne_base n l : l < n → l ≠ n.
Proof. lia. Qed.
Lemma new_ne_new n i j : i ≠ j → n + i ≠ n + j.
Proof. lia. Qed.
Lemma base_ne_new n j : 0 ≠ j → n ≠ n + j.
Proof. lia. Qed.
Lemma new_ne_base n i : i ≠ 0 → n + i ≠ n.
Proof. lia. Qed.

(** *** [is_dict] and [is_list] *)

Lemma is_dict_dset_t h l l' k v r : is_dict h l' = r → is_dict (dset h l k v) l' = r.
Proof. intros <-. apply is_dict_dset. Qed.
Lemma is_dict_lpush_t h l l' v r : is_dict h l' = r → is_dict (lpush h l v) l' = r.
Proof. intros <-. apply is_dict_lpush. Qed.
Lemma is_dict_lset_t h l l' i v r : is_dict h l' = r → is_dict (lset h l i v) l' = r.
Proof. intros <-. apply is_dict_lset. Qed.
Lemma is_dict_aset_t h l l' f r : is_dict h l' = r → is_dict (aset h l f) l' = r.
Proof. intros <-. apply is_dict_aset. Qed.
Lemma is_dict_app_t h o l r :
  l < length h → is_dict h l = r → is_dict (h ++ [o]) l = r.
Proof. intros ? <-. by apply is_dict_app_l. Qed.
Lemma is_dict_new_dict h c a es l :
  length h = l → is_dict (h ++ [ODict c a es]) l = true.
Proof. intros. by rewrite (is_dict_new h _ l). Qed.
Lemma is_dict_new_list h a xs l :
  length h = l → is_dict (h ++ [OList a xs]) l = false.
Proof. intros. by rewrite (is_dict_new h _ l). Qed.

Lemma is_list_dset_t h l l' k v r : is_list h l' = r → is_list (dset h l k v) l' = r.
Proof. intros <-. apply is_list_dset. Qed.
Lemma is_list_lpush_t h l l' v r : is_list h l' = r → is_list (lpush h l v) l' = r.
Proof. intros <-. apply is_list_lpush. Qed.
Lemma is_list_lset_t h l l' i v r : is_list h l' = r → is_list (lset h l i v) l' = r.
Proof. intros <-. apply is_list_lset. Qed.
Lemma is_list_aset_t h l l' f r : is_list h l' = r → is_list (aset h l f) l' = r.
Proof. intros <-. apply is_list_aset. Qed.
Lemma is_list_app_t h o l r :
  l < length h → is_list h l = r → is_list (h ++ [o]) l = r.
Proof. intros ? <-. by apply is_list_app_l. Qed.
Lemma is_list_new_list h a xs l :
  length h = l → is_list (h ++ [OList a xs]) l = true.
Proof. intros. by rewrite (is_list_new h _ l). Qed.
Lemma is_list_new_dict h c a es l :
  length h = l → is_list (h ++ [ODict c a es]) l = false.
Proof. intros. by rewrite (is_list_new h _ l). Qed.

(** *** [get_parent] *)

Lemma get_parent_dset_t h l l' k v r :
  get_parent h l' = r → get_parent (dset h l k v) l' = r.
Proof. intros <-. apply get_parent_dset. Qed.
Lemma get_parent_lpush_t h l l' v r :
  get_parent h l' = r → get_parent (lpush h l v) l' = r.
Proof. intros <-. apply get_parent_lpush. Qed.
Lemma get_parent_lset_t h l l' i v r :
  get_parent h l' = r → get_parent (lset h l i v) l' = r.
Proof. intros <-. apply get_parent_lset. Qed.
Lemma get_parent_unique_t h l l' b r :
  get_parent h l' = r →
  get_parent (aset h l (λ a, mkAttrs (parent a) b (is_inline a))) l' = r.
Proof. intros <-. apply get_parent_set_is_unique. Qed.
Lemma get_parent_inline_t h l l' b r :
  get_parent h l' = r →
  get_parent (aset h l (λ a, mkAttrs (parent a) (is_unique a) b)) l' = r.
Proof. intros <-. apply get_parent_set_is_inline. Qed.
Lemma get_parent_app_t h o l r :
  l < length h → get_parent h l = r → get_parent (h ++ [o]) l = r.
Proof. intros ? <-. by apply get_parent_app_l. Qed.

(** *** [dentries] and [dget] *)

Lemma dentries_dset_ne_t h l l' k v r :
  l ≠ l' → dentries h l' = r → dentries (dset h l k v) l' = r.
Proof. intros ? <-. by apply dentries_dset_ne. Qed.
Lemma dentries_lpush_t h l l' v r :
  dentries h l' = r → dentries (lpush h l v) l' = r.
Proof. intros <-. apply dentries_lpush. Qed.
Lemma dentries_lset_t h l l' i v r :
  dentries h l' = r → dentries (lset h l i v) l' = r.
Proof. intros <-. apply dentries_lset. Qed.
Lemma dentries_aset_t h l l' f r :
  dentries h l' = r → dentries (aset h l f) l' = r.
Proof. intros <-. apply dentries_aset. Qed.
Lemma dentries_app_t h o l r :
  l < length h → dentries h l = r → dentries (h ++ [o]) l = r.
Proof. intros ? <-. by apply dentries_app_l. Qed.
Lemma dentries_new_dict h c a es l :
  length h = l → dentries (h ++ [ODict c a es]) l = Some es.
Proof. intros. by rewrite (dentries_new h _ l). Qed.

Lemma dget_dset_ne_key_t h l l' k k' v r :
  k ≠ k' → dget h l' k' = r → dget (dset h l k v) l' k' = r.
Proof. intros ? <-. by apply dget_dset_ne_key. Qed.
Lemma dget_dset_ne_t h l l' k k' v r :
  l ≠ l' → dget h l' k' = r → dget (dset h l k v) l' k' = r.
Proof. intros ? <-. by apply dget_dset_ne. Qed.
Lemma dget_lpush_t h l l' k v r : dget h l' k = r → dget (lpush h l v) l' k = r.
Proof. intros <-. apply dget_lpush. Qed.
Lemma dget_lset_t h l l' k i v r : dget h l' k = r → dget (lset h l i v) l' k = r.
Proof. intros <-. apply dget_lset. Qed.
Lemma dget_aset_t h l l' k f r : dget h l' k = r → dget (aset h l f) l' k = r.
Proof. intros <-. apply dget_aset. Qed.
Lemma dget_app_t h o l k r :
  l < length h → dget h l k = r → dget (h ++ [o]) l k = r.
Proof. intros ? <-. by apply dget_app_l. Qed.
Lemma dget_new_empty h c a l k :
  length h = l → dget (h ++ [ODict c a []]) l k = None.
Proof. intros. by rewrite (dget_new h _ l). Qed.

(** *** [lget] *)

Lemma lget_dset_t h l l' k v r : lget h l' = r → lget (dset h l k v) l' = r.
Proof. intros <-. apply lget_dset. Qed.
Lemma lget_aset_t h l l' f r : lget h l' = r → lget (aset h l f) l' = r.
Proof. intros <-. apply lget_aset. Qed.
Lemma lget_lpush_ne_t h l l' v r :
  l ≠ l' → lget h l' = r → lget (lpush h l v) l' = r.
Proof. intros ? <-. by apply lget_lpush_ne. Qed.
Lemma lget_lset_ne_t h l l' i v r :
  l ≠ l' → lget h l' = r → lget (lset h l i v) l' = r.
Proof. intros ? <-. by apply lget_lset_ne. Qed.
Lemma lget_app_t h o l r :
  l < length h → lget h l = r → lget (h ++ [o]) l = r.
Proof. intros ? <-. by apply lget_app_l. Qed.
Lemma lget_new_list h a xs l :
  length h = l → lget (h ++ [OList a xs]) l = Some xs.
Proof. intros. by rewrite (lget_new h _ l). Qed.

(** *** Whole objects *)

Lemma lookup_dset_ne_t h l l' k v r : l ≠ l' → h !! l' = r → dset h l k v !! l' = r.
Proof. intros ? <-. by apply lookup_hupd_ne. Qed.
Lemma lookup_lpush_ne_t h l l' v r : l ≠ l' → h !! l' = r → lpush h l v !! l' = r.
Proof. intros ? <-. by apply lookup_hupd_ne. Qed.
Lemma lookup_lset_ne_t h l l' i v r : l ≠ l' → h !! l' = r → lset h l i v !! l' = r.
Proof. intros ? <-. by apply lookup_hupd_ne. Qed.
Lemma lookup_aset_ne_t h l l' f r : l ≠ l' → h !! l' = r → aset h l f !! l' = r.
Proof. intros ? <-. by apply lookup_hupd_ne. Qed.

Lemma lookup_dset_eq_t h l k v o :
  h !! l = Some o → dset h l k v !! l = Some (obj_dset k v o).
Proof. intros Ho. unfold dset. by rewrite lookup_hupd_eq, Ho. Qed.
Lemma lookup_lpush_eq_t h l v o :
  h !! l = Some o → lpush h l v !! l = Some (obj_lpush v o).
Proof. intros Ho. unfold lpush. by rewrite lookup_hupd_eq, Ho. Qed.
Lemma lookup_lset_eq_t h l i v o :
  h !! l = Some o → lset h l i v !! l = Some (obj_lset i v o).
Proof. intros Ho. unfold lset. by rewrite lookup_hupd_eq, Ho. Qed.
Lemma lookup_aset_eq_t h l f o :
  h !! l = Some o → aset h l f !! l = Some (obj_set_attrs f o).
Proof. intros Ho. unfold aset. by rewrite lookup_hupd_eq, Ho. Qed.

Lemma lookup_app_t h o l r : l < length h → h !! l = r → (h ++ [o]) !! l = r.
Proof. intros ? <-. by apply lookup_app_l. Qed.
Lemma lookup_new_t h o l : length h = l → (h ++ [o]) !! l = Some o.
Proof. intros <-. by apply list_lookup_middle. Qed.

End Transport.

(* ================================================================== *)
(** ** Dictionaries that only grow *)
(* ================================================================== *)

Lemma dict_get_app_Some k v es ex :
  dict_get k es = Some v → dict_get k (es ++ ex) = Some v.
Proof.
  induction es as [|[k' v'] es IH]; simpl; [done|].
  destruct (decide (k = k')); auto.
Qed.

Lemma find_app_Some {A} (P : A → bool) (xs ys : list A) a :
  find P xs = Some a → find P (xs ++ ys) = Some a.
Proof.
  induction xs as [|x xs IH]; simpl; [done|]. destruct (P x); auto.
Qed.

Lemma dprefix_refl h l es : dentries h l = Some es → dprefix h l es.
Proof. intros He. exists []. by rewrite app_nil_r. Qed.

Lemma dprefix_dget h l es k v :
  dprefix h l es → dict_get k es = Some v → dget h l k = Some v.
Proof.
  intros [ex He] Hk. unfold dget. rewrite He. by apply dict_get_app_Some.
Qed.

Lemma dprefix_trans h h' l es es' :
  dprefix h l es → dentries h l = Some es' →
  dprefix h' l es' → dprefix h' l es.
Proof.
  intros [ex He] He' [ex' He'']. rewrite He in He'. injection He' as <-.
  exists (ex ++ ex'). by rewrite app_assoc.
Qed.

Lemma dprefix_dset_ne h l l' k v es :
  l ≠ l' → dprefix h l' es → dprefix (dset h l k v) l' es.
Proof. intros ? [ex He]. exists ex. by rewrite dentries_dset_ne. Qed.

(** Writing under an absent key appends an entry. *)
Lemma dprefix_dset_absent h l l' k v es :
  dget h l k = None → dprefix h l' es → dprefix (dset h l k v) l' es.
Proof.
  intros Hn [ex He]. destruct (decide (l = l')) as [->|].
  - exists (ex ++ [(k, v)]). erewrite dentries_dset_eq by done.
    unfold dget in Hn. rewrite He in Hn.
    by rewrite dict_set_length_absent, app_assoc.
  - exists ex. by rewrite dentries_dset_ne.
Qed.

Lemma dprefix_lpush h l l' v es : dprefix h l' es → dprefix (lpush h l v) l' es.
Proof. intros [ex He]. exists ex. by rewrite dentries_lpush. Qed.

Lemma dprefix_lset h l l' i v es : dprefix h l' es → dprefix (lset h l i v) l' es.
Proof. intros [ex He]. exists ex. by rewrite dentries_lset. Qed.

Lemma dprefix_aset h l l' f es : dprefix h l' es → dprefix (aset h l f) l' es.
Proof. intros [ex He]. exists ex. by rewrite dentries_aset. Qed.

Lemma dprefix_app (h : heap) o l es : dprefix h l es → dprefix (h ++ [o]) l es.
Proof.
  intros [ex He]. exists ex. rewrite dentries_app_l; [done|].
  revert He. cell_reader. destruct (h !! l) eqn:E; [|done].
  intros _. by eapply lookup_lt_Some.
Qed.

Lemma grows_refl h : grows h h.
Proof. intros l es. apply dprefix_refl. Qed.

Lemma grows_trans h1 h2 h3 : grows h1 h2 → grows h2 h3 → grows h1 h3.
Proof.
  intros H12 H23 l es He. destruct (H12 l es He) as [ex He2].
  eapply dprefix_trans; [by exists ex | exact He2 | by apply H23].
Qed.

Lemma grows_dget h h' l k v : grows h h' → dget h l k = Some v → dget h' l k = Some v.
Proof.
  intros Hg. unfold dget at 1. destruct (dentries h l) as [es|] eqn:He; [|done].
  intros Hk. eapply dprefix_dget; [by apply Hg | done].
Qed.

Lemma grows_is_dict h h' l : grows h h' → is_dict h l = true → is_dict h' l = true.
Proof.
  intros Hg Hd. destruct (is_dict_dentries _ _ Hd) as [es He].
  destruct (Hg l es He) as [ex He']. revert He'. cell_reader.
  by destruct (h' !! l) as [[]|].
Qed.

Lemma grows_registered_font_name h h' page font name :
  grows h h' →
  registered_font_name h page font = Some name →
  registered_font_name h' page font = Some name.
Proof.
  intros Hg. unfold registered_font_name, fonts_of.
  destruct (dget h page "Resources") as [[| | | | | |rs]|] eqn:Hr; try done.
  destruct (dget h rs "Font") as [[| | | | | |fd]|] eqn:Hf; try done.
  destruct (dentries h fd) as [es|] eqn:Hes; try done.
  rewrite (grows_dget _ _ _ _ _ Hg Hr), (grows_dget _ _ _ _ _ Hg Hf).
  destruct (Hg fd es Hes) as [ex ->].
  destruct (find _ es) as [kv|] eqn:Hfind; [|done].
  by rewrite (find_app_Some _ _ _ _ Hfind).
Qed.

(* ================================================================== *)
(** ** Running the embedding on a store that is partly known *)
(* ================================================================== *)

Lemma bind_run {A B} (m : M A) (f : A → M B) h a h' r :
  m h = Ok a h' → f a h' = r → bind m f h = r.
Proof. unfold bind. by intros -> <-. Qed.

Lemma fresh_font_name_is_font_name es : ∃ n, fresh_font_name es = font_name n.
Proof. unfold fresh_font_name. case_match; eauto. Qed.

(** Two keys differ. *)
Ltac key_ne :=
  first [ discriminate
        | apply font_name_not_Font
        | apply font_name_not_Fields
        | (unfold font_name; simpl; discriminate)
        | congruence
        | (intros E;
           match goal with
           | H : not_a_font_key _ |- _ =>
               destruct H as (? & ? & Hn);
               first [ congruence | (eapply Hn; symmetry; exact E)
                     | (eapply Hn; exact E) ]
           end) ].

(** The length of a store built by updates and allocations. *)
Ltac len :=
  lazymatch goal with
  | |- length (dset _ _ _ _) = _ => apply len_dset; len
  | |- length (lpush _ _ _) = _ => apply len_lpush; len
  | |- length (lset _ _ _ _) = _ => apply len_lset; len
  | |- length (aset _ _ _) = _ => apply len_aset; len
  | |- length (_ ++ [_]) = _ => eapply len_snoc; len
  | |- length _ = _ => reflexivity
  end.

(** Two addresses differ: an old one and a new one, two new ones, or two
    old ones the context tells apart. *)
Ltac addr_ne :=
  first [ (apply new_ne_new; discriminate)
        | (apply new_ne_old; assumption)
        | (apply old_ne_new; assumption)
        | (apply base_ne_new; discriminate)
        | (apply new_ne_base; discriminate)
        | (apply base_ne_old; assumption)
        | (apply old_ne_base; assumption)
        | assumption
        | lia ].

(** Side conditions on addresses. *)
Ltac hlt :=
  eapply lt_len; [ len | first [ (repeat apply lt_add_one; assumption) | lia ] ].
Ltac hle := eapply le_len; [ len | lia ].
Ltac hleneq := eapply eq_len; [ len | first [ reflexivity | lia ] ].
Ltac hlia := first [ lia | hlt | hle | hleneq ].

(** The address of the next object, in the form [length h + n]. *)
Ltac haddr :=
  eapply eq_len; [ len | rewrite <- ?Nat.add_assoc; cbn [Nat.add]; reflexivity ].

(** Carry the reader at the head of the goal through one operation of the
    store. *)
Ltac hpeel :=
  lazymatch goal with
  | |- is_dict (dset _ _ _ _) _ = _ => apply is_dict_dset_t
  | |- is_dict (lpush _ _ _) _ = _ => apply is_dict_lpush_t
  | |- is_dict (lset _ _ _ _) _ = _ => apply is_dict_lset_t
  | |- is_dict (aset _ _ _) _ = _ => apply is_dict_aset_t
  | |- is_dict (_ ++ [_]) _ = _ =>
      first [ apply is_dict_app_t; [hlt|]
            | apply is_dict_new_dict; hleneq
            | apply is_dict_new_list; hleneq ]
  | |- is_list (dset _ _ _ _) _ = _ => apply is_list_dset_t
  | |- is_list (lpush _ _ _) _ = _ => apply is_list_lpush_t
  | |- is_list (lset _ _ _ _) _ = _ => apply is_list_lset_t
  | |- is_list (aset _ _ _) _ = _ => apply is_list_aset_t
  | |- is_list (_ ++ [_]) _ = _ =>
      first [ apply is_list_app_t; [hlt|]
            | apply is_list_new_list; hleneq
            | apply is_list_new_dict; hleneq ]
  | |- get_parent (dset _ _ _ _) _ = _ => apply get_parent_dset_t
  | |- get_parent (lpush _ _ _) _ = _ => apply get_parent_lpush_t
  | |- get_parent (lset _ _ _ _) _ = _ => apply get_parent_lset_t
  | |- get_parent (aset _ _ _) _ = _ =>
      first [ apply get_parent_unique_t | apply get_parent_inline_t ]
  | |- get_parent (_ ++ [_]) _ = _ => apply get_parent_app_t; [hlt|]
  | |- dentries (dset _ ?l _ _) ?l = _ => eapply dentries_dset_eq
  | |- dentries (dset _ _ _ _) _ = _ => apply dentries_dset_ne_t; [addr_ne|]
  | |- dentries (lpush _ _ _) _ = _ => apply dentries_lpush_t
  | |- dentries (lset _ _ _ _) _ = _ => apply dentries_lset_t
  | |- dentries (aset _ _ _) _ = _ => apply dentries_aset_t
  | |- dentries (_ ++ [_]) _ = _ =>
      first [ apply dentries_app_t; [hlt|] | apply dentries_new_dict; hleneq ]
  | |- dget (dset _ ?l ?k _) ?l ?k = _ => apply dget_dset_eq
  | |- dget (dset _ _ _ _) _ _ = _ =>
      first [ apply dget_dset_ne_key_t; [discriminate|]
            | apply dget_dset_ne_t; [addr_ne|]
            | apply dget_dset_ne_key_t; [key_ne|] ]
  | |- dget (lpush _ _ _) _ _ = _ => apply dget_lpush_t
  | |- dget (lset _ _ _ _) _ _ = _ => apply dget_lset_t
  | |- dget (aset _ _ _) _ _ = _ => apply dget_aset_t
  | |- dget (_ ++ [_]) _ _ = _ =>
      first [ apply dget_app_t; [hlt|] | apply dget_new_empty; hleneq ]
  | |- lget (dset _ _ _ _) _ = _ => apply lget_dset_t
  | |- lget (aset _ _ _) _ = _ => apply lget_aset_t
  | |- lget (lpush _ ?l _) ?l = _ => eapply lget_lpush_eq
  | |- lget (lpush _ _ _) _ = _ => apply lget_lpush_ne_t; [addr_ne|]
  | |- lget (lset _ ?l _ _) ?l = _ => eapply lget_lset_eq
  | |- lget (lset _ _ _ _) _ = _ => apply lget_lset_ne_t; [addr_ne|]
  | |- lget (_ ++ [_]) _ = _ =>
      first [ apply lget_app_t; [hlt|] | apply lget_new_list; hleneq ]
  | |- dset _ ?l _ _ !! ?l = _ => eapply lookup_dset_eq_t
  | |- dset _ _ _ _ !! _ = _ => apply lookup_dset_ne_t; [addr_ne|]
  | |- lpush _ ?l _ !! ?l = _ => eapply lookup_lpush_eq_t
  | |- lpush _ _ _ !! _ = _ => apply lookup_lpush_ne_t; [addr_ne|]
  | |- lset _ ?l _ _ !! ?l = _ => eapply lookup_lset_eq_t
  | |- lset _ _ _ _ !! _ = _ => apply lookup_lset_ne_t; [addr_ne|]
  | |- aset _ ?l _ !! ?l = _ => eapply lookup_aset_eq_t
  | |- aset _ _ _ !! _ = _ => apply lookup_aset_ne_t; [addr_ne|]
  | |- (_ ++ [_]) !! _ = _ =>
      first [ apply lookup_app_t; [hlt|] | apply lookup_new_t; hleneq ]
  end.

(** Read the store: carry the reader down to a fact of the context. *)
Ltac hsolve :=
  repeat hpeel; first [ eassumption | reflexivity | solve [eauto with lia] ].

(** The same when the right-hand side is given: read, then compare. *)
Ltac hread := etrans; [ hsolve | first [ reflexivity | eassumption | idtac ] ].

Ltac solve_get_root :=
  first [ eassumption
        | eapply get_root_fuel_ext; [ | | eassumption ];
          [ intros; hsolve | hle ] ].

(** Run a computation of the monad on a store described by the context. *)
Ltac mrun :=
  cbv beta iota zeta;
  lazymatch goal with
  | |- ret _ _ = _ => reflexivity
  | |- bind _ _ _ = _ => eapply bind_run; [ mrun | mrun ]
  | |- new_Dictionary _ = _ => apply new_dict_ok; haddr
  | |- new_Stream _ = _ => apply new_dict_ok; haddr
  | |- new_List _ = _ => apply new_List_ok; haddr
  | |- set_is_unique _ _ _ = _ => reflexivity
  | |- set_is_inline _ _ _ = _ => reflexivity
  | |- py_contains _ (VRef _) _ = _ =>
      first [ eapply py_contains_true; hsolve
            | apply py_contains_false; hsolve ]
  | |- py_getitem (VRef _) _ _ = _ => eapply py_getitem_ok; hsolve
  | |- py_setitem (VRef _) _ _ _ = _ => apply py_setitem_ok; hsolve
  | |- py_append (VRef _) _ _ = _ => apply py_append_ok; hsolve
  | |- py_items (VRef _) _ = _ => eapply py_items_ok; hsolve
  | |- py_setindex (VRef _) _ _ _ = _ =>
      eapply py_setindex_ok; [ hsolve | rewrite ?length_insert; lia ]
  | |- get_root _ _ = _ => apply get_root_ok; solve_get_root
  | |- field_name_or_auto _ _ _ = _ => reflexivity
  end.

Ltac mruns := repeat (eapply bind_run; [mrun|]); cbv beta iota zeta.

(* ================================================================== *)
(** ** The font registrar *)
(* ================================================================== *)

Lemma font_name_inj a b : font_name a = font_name b → a = b.
Proof.
  unfold font_name. simpl. intros [= E]. apply (inj (@pretty nat _)). exact E.
Qed.

Lemma dict_get_keys k es : is_Some (dict_get k es) → k ∈ es.*1.
Proof.
  induction es as [|[k' v'] es IH]; simpl.
  - by intros [? ?].
  - destruct (decide (k = k')) as [->|]; intros Hs.
    + apply list_elem_of_here.
    + apply list_elem_of_further. auto.
Qed.

(** The name the registrar allocates is not yet a key. *)
Lemma fresh_font_name_fresh es : dict_get (fresh_font_name es) es = None.
Proof.
  unfold fresh_font_name.
  destruct (find _ _) as [k|] eqn:E.
  - apply find_some in E as [_ E]. apply negb_true_iff in E.
    unfold has_key in E. apply bool_decide_eq_false in E.
    destruct (dict_get (font_name k) es); [|done]. destruct E. eauto.
  - exfalso.
    assert (font_name <$> seq 1 (S (length es)) ⊆+ es.*1) as Hsub.
    { apply NoDup_submseteq.
      - apply NoDup_fmap_2; [intros a b; apply font_name_inj | apply NoDup_seq].
      - intros k' Hin. apply list_elem_of_fmap in Hin as (k & -> & Hk).
        apply dict_get_keys.
        apply list_elem_of_In in Hk.
        pose proof (find_none _ _ E k Hk) as Hf. simpl in Hf.
        apply negb_false_iff in Hf. unfold has_key in Hf.
        by apply bool_decide_eq_true in Hf. }
    apply submseteq_length in Hsub.
    rewrite !length_fmap, length_seq in Hsub. lia.
Qed.

Lemma find_dict_set_first (P : string * value → bool) k v es :
  P (k, v) = true → find P es = None → find P (dict_set k v es) = Some (k, v).
Proof.
  intros HP. induction es as [|[k' v'] es IH]; simpl.
  - by rewrite HP.
  - destruct (P (k', v')) eqn:E; [done|]. intros Hn.
    destruct (decide (k = k')); simpl.
    + by rewrite HP.
    + rewrite E. auto.
Qed.

(** Writing under a key that is absent keeps every entry. *)
Lemma dget_dset_mono h l0 k0 v0 l k v :
  dget h l0 k0 = None → dget h l k = Some v →
  dget (dset h l0 k0 v0) l k = Some v.
Proof.
  intros Hn Hv. destruct (decide (k0 = k)) as [->|].
  - destruct (decide (l0 = l)) as [->|]; [congruence|].
    by rewrite dget_dset_ne.
  - by rewrite dget_dset_ne_key.
Qed.

Lemma dget_app_mono (h t : heap) l k v :
  dget h l k = Some v → dget (h ++ t) l k = Some v.
Proof.
  intros Hv. rewrite dget_app_l; [done|].
  eapply is_dict_lt, dget_is_dict, Hv.
Qed.

Lemma preserves_refl keep h : preserves keep h h.
Proof. unfold preserves. naive_solver. Qed.

(** The registrar on a page whose resources are well-typed (spec 4.2):
    it returns, the font is then registered under the returned name, and
    the objects that were there keep their parents, their kind, their
    items and their entries. *)
Lemma get_font_resource_name_spec h page font :
  is_dict h page = true → resources_typed h page = true →
  ∃ name h' rs fd,
    _get_font_resource_name font page h = Ok name h' ∧
    dget h' page "Resources" = Some (VRef rs) ∧
    dget h' rs "Font" = Some (VRef fd) ∧
    is_dict h' fd = true ∧
    registered_font_name h' page font = Some name ∧
    preserves not_a_font_key h h' ∧
    grows h h' ∧
    (dget h page "Resources" = None →
     length h < fd ∧ dentries h' fd = Some [(font_name 1, VFont font)]).
Proof.
  intros Hp Ht. pose proof (is_dict_lt _ _ Hp) as Hlt.
  unfold resources_typed in Ht. unfold _get_font_resource_name.
  set (P := λ kv : string * value, bool_decide (kv.2 = VFont font)).
  assert (∀ k, P (k, VFont font) = true) as HP.
  { intros k. unfold P. by apply bool_decide_eq_true. }
  destruct (dget h page "Resources") as [[| | | | | |rs]|] eqn:Hr; try done.
  - apply andb_true_iff in Ht as [Hrs Ht]. pose proof (is_dict_lt _ _ Hrs).
    destruct (dget h rs "Font") as [[| | | | | |fd]|] eqn:Hf; try done.
    + pose proof (is_dict_lt _ _ Ht).
      destruct (is_dict_dentries _ _ Ht) as [es Hes].
      destruct (find P es) as [[k v]|] eqn:Hfind.
      * eexists k, h, rs, fd. split.
        { mruns. rewrite Hfind. reflexivity. }
        split_and!; try done; try apply preserves_refl; try apply grows_refl.
        unfold registered_font_name, fonts_of. rewrite Hr, Hf, Hes.
        fold P. by rewrite Hfind.
      * pose proof (fresh_font_name_fresh es) as Hfresh.
        destruct (fresh_font_name_is_font_name es) as [n0 Hn0].
        eexists _, _, rs, fd. split.
        { mruns. rewrite Hfind. mrun. }
        rewrite Hn0 in *.
        assert (dget h fd (font_name n0) = None) as Hnone.
        { unfold dget. by rewrite Hes. }
        match goal with |- dget ?H' _ _ = _ ∧ _ => set (h' := H') end.
        assert (dget h' page "Resources" = Some (VRef rs)) as Hr'
          by (subst h'; by apply dget_dset_mono).
        assert (dget h' rs "Font" = Some (VRef fd)) as Hf'
          by (subst h'; by apply dget_dset_mono).
        assert (dentries h' fd = Some (dict_set (font_name n0) (VFont font) es))
          as He' by (subst h'; by apply dentries_dset_eq).
        split_and!; try done.
        -- subst h'. hsolve.
        -- unfold registered_font_name, fonts_of. rewrite Hr', Hf', He'.
           fold P. by rewrite find_dict_set_first.
        -- subst h'. unfold preserves.
           split_and!; intros; first [hle | hsolve].
        -- intros l es' He''. subst h'.
           apply dprefix_dset_absent; [done|]. by apply dprefix_refl.
    + pose proof (fresh_font_name_fresh []) as Hfresh.
      destruct (fresh_font_name_is_font_name []) as [n0 Hn0].
      eexists _, _, rs, _. split.
      { mruns. change (find _ []) with (@None (string * value)). mrun. }
      rewrite Hn0 in *.
      match goal with |- dget ?H' _ _ = _ ∧ _ => set (h' := H') end.
      assert (dget h' page "Resources" = Some (VRef rs)) as Hr' by (subst h'; hsolve).
      assert (dget h' rs "Font" = Some (VRef (length h))) as Hf' by (subst h'; hsolve).
      assert (dentries h' (length h) = Some [(font_name n0, VFont font)]) as He'.
      { subst h'. hread. }
      split_and!; try done.
      * subst h'. hsolve.
      * unfold registered_font_name, fonts_of. rewrite Hr', Hf', He'.
        change [(font_name n0, VFont font)]
          with (dict_set (font_name n0) (VFont font) []).
        fold P. by rewrite find_dict_set_first.
      * subst h'. unfold preserves. split_and!; intros; first [hle | hsolve].
      * intros l es' He''. subst h'.
        apply dprefix_dset_absent; [hsolve|].
        apply dprefix_dset_absent; [hsolve|].
        apply dprefix_app. by apply dprefix_refl.
  - pose proof (fresh_font_name_fresh []) as Hfresh.
    eexists _, _, _, _. split.
    { mruns. change (find _ []) with (@None (string * value)). mrun. }
    assert (fresh_font_name [] = font_name 1) as -> by done.
    match goal with |- dget ?H' _ _ = _ ∧ _ => set (h' := H') end.
    assert (dget h' page "Resources" = Some (VRef (length h))) as Hr'
      by (subst h'; hsolve).
    assert (dget h' (length h) "Font" = Some (VRef (length h + 1))) as Hf'
      by (subst h'; hsolve).
    assert (dentries h' (length h + 1) = Some [(font_name 1, VFont font)]) as He'.
    { subst h'. hread. }
    split_and!; try done; try (split; [lia | done]).
    + subst h'. hsolve.
    + unfold registered_font_name, fonts_of. rewrite Hr', Hf', He'.
      change [(font_name 1, VFont font)]
        with (dict_set (font_name 1) (VFont font) []).
      fold P. by rewrite find_dict_set_first.
    + subst h'. unfold preserves. split_and!; intros; first [hle | hsolve].
    + intros l es' He''. subst h'.
      apply dprefix_dset_absent; [hsolve|].
      apply dprefix_dset_absent; [hsolve|].
      apply dprefix_app.
      apply dprefix_dset_absent; [hsolve|].
      apply dprefix_app. by apply dprefix_refl.
Qed.

(** A font that is registered is found again: the registrar returns its
    name and leaves the store as it is. *)
Lemma get_font_resource_name_registered h page font name :
  registered_font_name h page font = Some name →
  _get_font_resource_name font page h = Ok name h.
Proof.
  unfold registered_font_name, fonts_of.
  destruct (dget h page "Resources") as [[| | | | | |rs]|] eqn:Hr; try done.
  destruct (dget h rs "Font") as [[| | | | | |fd]|] eqn:Hf; try done.
  destruct (dentries h fd) as [es|] eqn:Hes; try done.
  destruct (find _ es) as [[k v]|] eqn:Hfind; try done.
  simpl. intros [= ->]. unfold _get_font_resource_name.
  mruns. rewrite Hfind. reflexivity.
Qed.

(* ================================================================== *)
(** ** The synthesis of a widget *)
(* ================================================================== *)

(** Bounds of the addresses the context knows to be allocated. *)
Ltac old_bounds :=
  repeat match goal with
    | H : dget ?h ?l _ = Some _ |- _ =>
        lazymatch goal with
        | _ : l < length h |- _ => fail
        | _ => pose proof (is_dict_lt _ _ (dget_is_dict _ _ _ _ H))
        end
    | H : is_dict ?h ?l = true |- _ =>
        lazymatch goal with
        | _ : l < length h |- _ => fail
        | _ => pose proof (is_dict_lt _ _ H)
        end
    | H : is_list ?h ?l = true |- _ =>
        lazymatch goal with
        | _ : l < length h |- _ => fail
        | _ => pose proof (is_list_lt _ _ H)
        end
    | H : lget ?h ?l = Some _ |- _ =>
        lazymatch goal with
        | _ : l < length h |- _ => fail
        | _ => pose proof (is_list_lt _ _ (lget_is_list _ _ _ H))
        end
    | H : dentries ?h ?l = Some _ |- _ =>
        lazymatch goal with
        | _ : l < length h |- _ => fail
        | _ =>
            let Hd := fresh in
            assert (is_dict h l = true) as Hd
              by (revert H; cell_reader; by destruct (h !! l) as [[]|]);
            pose proof (is_dict_lt _ _ Hd); clear Hd
        end
    end.

(** The entries of an old dictionary are a prefix of its entries in a
    store built on top. *)
Ltac hgrow :=
  repeat first
    [ apply dprefix_lpush
    | apply dprefix_aset
    | apply dprefix_lset
    | apply dprefix_app
    | (apply dprefix_dset_ne; [addr_ne|])
    | (apply dprefix_dset_absent; [hsolve|]) ];
  by apply dprefix_refl.

Section Synthesis.

Context `{Collaborators}.

Ltac new_objects_tac :=
  unfold new_objects; split_and!; (etrans; [hsolve | reflexivity]).

Ltac kept_tac :=
  unfold kept; split_and!;
  [ hle
  | intros; hsolve
  | intros ? ? ?; old_bounds; hgrow
  | intros ? ? ? ? ?; old_bounds; hsolve ].

(** The synthesis proper, from the store [h_a] the font registrar left. *)
Lemma synthesis_run self page box h h_a fname root xr tr cat rs fd vx :
  _widget_dictionary self = None →
  get_root_fuel (length h) h page = Some root →
  dget h root "XRef" = Some vx →
  _get_font_resource_name (StandardType1Font "Helvetica") page h = Ok fname h_a →
  length h ≤ length h_a →
  (∀ l, l < length h → get_parent h_a l = get_parent h l) →
  dget h_a page "Resources" = Some (VRef rs) →
  dget h_a rs "Font" = Some (VRef fd) →
  dget h_a root "XRef" = Some (VRef xr) →
  dget h_a xr "Trailer" = Some (VRef tr) →
  dget h_a tr "Root" = Some (VRef cat) →
  is_dict h_a cat = true →
  is_dict h_a page = true →
  annots_typed h_a page = true →
  acroform_typed h_a cat = true →
  annots_fields_apart h_a page cat = true →
  ∃ h' tname al af fl,
    _init_widget_dictionary self page box h
    = Ok (set_widget_dictionary self (length h_a + 4)) h' ∧
    length h_a + 6 ≤ length h' ∧
    new_objects self box cat fd tname fname (length h_a) h' ∧
    registered h_a h' page cat (length h_a + 4) (length h_a) al af fl ∧
    kept h_a h' al fl ∧
    (is_Some (dget h_a page "Annots") → is_Some (dget h_a cat "AcroForm") →
     ∀ l, l < length h_a → dentries h' l = dentries h_a l) ∧
    (∀ l, l < length h_a → l ≠ page → l ≠ cat → dentries h' l = dentries h_a l).
Proof.
  intros Hw Hroot Hx Hreg Hlen Hpar Hrs Hfd Hax Hat Hac Hcat Hpage Hann Hacro Hapart.
  unfold annots_typed in Hann. unfold acroform_typed in Hacro.
  unfold annots_fields_apart, annots_of, fields_of, acroform_of in Hapart.
  unfold registered, annots_of, fields_of, acroform_of.
  destruct (dget h_a page "Annots") as [[| | | | | |al]|] eqn:Ha; try done;
  destruct (dget h_a cat "AcroForm") as [[| | | | | |af]|] eqn:Hf; try done;
  try (destruct (dget h_a af "Fields") as [[| | | | | |fl]|] eqn:Hfl; try done;
       destruct (is_list_lget _ _ Hacro) as [fs Hfs]);
  try destruct (is_list_lget _ _ Hann) as [xs Hxs];
  try (apply bool_decide_eq_true in Hapart);
  old_bounds;
  (eexists _, _, _, _, _; split;
   [ unfold _init_widget_dictionary; rewrite Hw;
     eapply bind_run; [mrun|];
     eapply bind_run; [mrun|]; cbv beta iota zeta; simpl negb; cbv iota;
     eapply bind_run; [exact Hreg|];
     mruns; simpl negb; cbv iota;
     mruns; simpl negb; cbv iota;
     mruns; reflexivity
   | split; [hle|];
     split; [new_objects_tac|];
     split;
     [ simpl items_of; rewrite ?Hxs, ?Hfs; simpl default;
       split_and!; try hread; try addr_ne; intros; first [done | split; hread]
     | split; [kept_tac|];
       split;
       [ first [ by intros [? ?] | by intros _ [? ?]
               | intros _ _ l Hl; hsolve ]
       | intros l Hl Hlp Hlc; hsolve ] ] ]).
Qed.

End Synthesis.

(* ================================================================== *)
(** ** Attaching a field to an attachable page *)
(* ================================================================== *)

Lemma not_a_font_key_const k :
  k ∈ ["Annots"; "AcroForm"; "Fields"; "XRef"; "Trailer"; "Root"] →
  not_a_font_key k.
Proof.
  intros Hk. unfold not_a_font_key.
  repeat (apply elem_of_cons in Hk as [->|Hk]);
    try (by apply elem_of_nil in Hk);
    (split_and!; [discriminate | discriminate | intros n E; symmetry in E; revert E]);
    first [ apply font_name_not_Fields | (unfold font_name; simpl; discriminate) ].
Qed.

Ltac key_const :=
  apply not_a_font_key_const;
  repeat first [ apply list_elem_of_here | apply list_elem_of_further ].

Lemma preserves_dget keep h h' l k :
  preserves keep h h' → l < length h → keep k → dget h' l k = dget h l k.
Proof. intros (_ & _ & _ & _ & Hk). apply Hk. Qed.

Lemma preserves_lget keep h h' l :
  preserves keep h h' → l < length h → lget h' l = lget h l.
Proof. intros (_ & _ & _ & Hl & _). apply Hl. Qed.

Lemma preserves_is_list keep h h' l :
  preserves keep h h' → is_list h l = true → is_list h' l = true.
Proof.
  intros Hp Hl. destruct (is_list_lget _ _ Hl) as [xs Hxs].
  eapply lget_is_list. rewrite (preserves_lget _ _ _ _ Hp); [done|].
  by apply is_list_lt.
Qed.

Lemma preserves_items_of keep h h' l :
  preserves keep h h' → is_list h l = true →
  items_of h' (Some l) = items_of h (Some l).
Proof.
  intros Hp Hl. simpl. rewrite (preserves_lget _ _ _ _ Hp); [done|].
  by apply is_list_lt.
Qed.

(** The catalog path of an attachable page, spelled out. *)
Lemma catalog_of_Some h page cat :
  catalog_of h page = Some cat →
  ∃ root xr tr,
    get_root_fuel (length h) h page = Some root ∧
    dget h root "XRef" = Some (VRef xr) ∧
    dget h xr "Trailer" = Some (VRef tr) ∧
    dget h tr "Root" = Some (VRef cat) ∧
    is_dict h cat = true.
Proof.
  unfold catalog_of.
  destruct (get_root_fuel _ h page) as [root|]; [|done].
  destruct (dget h root "XRef") as [[| | | | | |xr]|] eqn:Hx; try done.
  destruct (dget h xr "Trailer") as [[| | | | | |tr]|] eqn:Ht; try done.
  destruct (dget h tr "Root") as [[| | | | | |c]|] eqn:Hc; try done.
  destruct (is_dict h c) eqn:Hd; [|done].
  intros [= ->]. by exists root, xr, tr.
Qed.

Lemma catalog_of_intro h page cat root xr tr :
  get_root_fuel (length h) h page = Some root →
  dget h root "XRef" = Some (VRef xr) →
  dget h xr "Trailer" = Some (VRef tr) →
  dget h tr "Root" = Some (VRef cat) →
  is_dict h cat = true →
  catalog_of h page = Some cat.
Proof. unfold catalog_of. by intros -> -> -> -> ->. Qed.

Section Attach.

Context `{Collaborators}.

(** On an attachable page a field without a widget gets one: the call
    returns, and the store is as [synthesized] describes. *)
Lemma synthesis self page box h cat :
  _widget_dictionary self = None →
  attachable h page = true →
  catalog_of h page = Some cat →
  ∃ w h',
    _init_widget_dictionary self page box h = Ok (set_widget_dictionary self w) h' ∧
    synthesized self page cat box h h' w.
Proof.
  intros Hw Hatt Hcat. unfold attachable in Hatt. rewrite Hcat in Hatt.
  rewrite !andb_true_iff in Hatt.
  destruct Hatt as [[[Hpage Hres] Hann] [Hacro Hapart]].
  destruct (catalog_of_Some _ _ _ Hcat) as (root & xr & tr & Hroot & Hx & Ht & Hc & Hcd).
  destruct (get_font_resource_name_spec h page (StandardType1Font "Helvetica") Hpage Hres)
    as (fname & h_a & rs & fd & Hreg & Hrs & Hfd & Hfdd & Hregname & Hpres & Hgrow & Hnew1).
  pose proof Hpres as (Hlen & Hpar & _ & _ & _).
  pose proof (is_dict_lt _ _ Hpage) as Hpl. pose proof (is_dict_lt _ _ Hcd) as Hcl.
  assert (dget h_a page "Annots" = dget h page "Annots") as HkA.
  { apply (preserves_dget _ _ _ _ _ Hpres); [done|].
    key_const. }
  assert (dget h_a cat "AcroForm" = dget h cat "AcroForm") as HkF.
  { apply (preserves_dget _ _ _ _ _ Hpres); [done|].
    key_const. }
  assert (annots_of h_a page = annots_of h page) as HeA.
  { unfold annots_of. by rewrite HkA. }
  assert (acroform_of h_a cat = acroform_of h cat) as HeC.
  { unfold acroform_of. by rewrite HkF. }
  assert (∀ af v, dget h cat "AcroForm" = Some (VRef af) →
          dget h af "Fields" = Some v → dget h_a af "Fields" = Some v) as HkFl.
  { intros af v _ Hv. rewrite (preserves_dget _ _ _ _ _ Hpres); [done | |].
    - eapply is_dict_lt, dget_is_dict, Hv.
    - key_const. }
  assert (fields_of h_a cat = fields_of h cat) as HeF.
  { unfold fields_of. rewrite HeC. unfold acroform_of, acroform_typed in *.
    destruct (dget h cat "AcroForm") as [[| | | | | |af]|] eqn:E; try done.
    destruct (dget h af "Fields") as [v|] eqn:E'; [|done].
    by rewrite (HkFl af v). }
  assert (annots_typed h_a page = true) as Hann_a.
  { unfold annots_typed in *. rewrite HkA.
    destruct (dget h page "Annots") as [[| | | | | |al]|]; try done.
    by eapply preserves_is_list. }
  assert (acroform_typed h_a cat = true) as Hacro_a.
  { unfold acroform_typed in *. rewrite HkF.
    destruct (dget h cat "AcroForm") as [[| | | | | |af]|] eqn:E; try done.
    destruct (dget h af "Fields") as [v|] eqn:E'; [|done].
    rewrite (HkFl af v) by done.
    destruct v; try done. by eapply preserves_is_list. }
  assert (annots_fields_apart h_a page cat = true) as Hapart_a.
  { unfold annots_fields_apart. by rewrite HeA, HeF. }
  assert (items_of h_a (annots_of h page) = items_of h (annots_of h page)) as HiA.
  { unfold annots_of, annots_typed in *.
    destruct (dget h page "Annots") as [[| | | | | |al]|]; try done.
    by eapply preserves_items_of. }
  assert (items_of h_a (fields_of h cat) = items_of h (fields_of h cat)) as HiF.
  { unfold fields_of, acroform_of, acroform_typed in *.
    destruct (dget h cat "AcroForm") as [[| | | | | |af]|]; try done.
    destruct (dget h af "Fields") as [[| | | | | |fl]|]; try done.
    by eapply preserves_items_of. }
  destruct (synthesis_run self page box h h_a fname root xr tr cat rs fd (VRef xr))
    as (h' & tname & al & af & fl & Hrun & Hlen' & Hnew & Hregd & Hkept & Hsame & Hsame');
    try done; try (by eapply grows_dget); try (by eapply grows_is_dict).
  exists (length h_a + 4), h'. split; [done|].
  pose proof Hkept as (Hk1 & Hk2 & Hk3 & Hk4).
  exists h_a, fname, tname, fd, al, af, fl. split_and!; try done.
  - unfold fonts_of.
    by rewrite (grows_dget _ _ _ _ _ Hk3 Hrs), (grows_dget _ _ _ _ _ Hk3 Hfd).
  - by eapply grows_registered_font_name.
  - unfold registered in *. by rewrite <- HiA, <- HiF, <- HeA, <- HeF, <- HeC.
  - unfold kept. split_and!.
    + lia.
    + intros l Hl. rewrite Hk2 by lia. by apply Hpar.
    + by eapply grows_trans.
    + intros l xs Hl Hna Hnf. apply Hk4; [|done|done].
      rewrite (preserves_lget _ _ _ _ Hpres); [done|].
      eapply is_list_lt, lget_is_list, Hl.
Qed.

End Attach.

(* ================================================================== *)
(** ** Consequences of a synthesis *)
(* ================================================================== *)

Lemma dget_of_lookup (h : heap) l c a es k :
  h !! l = Some (ODict c a es) → dget h l k = dict_get k es.
Proof. intros Hl. cell_reader. by rewrite Hl. Qed.

Lemma dentries_of_lookup (h : heap) l c a es :
  h !! l = Some (ODict c a es) → dentries h l = Some es.
Proof. intros Hl. cell_reader. by rewrite Hl. Qed.

Lemma lget_of_lookup (h : heap) l a xs :
  h !! l = Some (OList a xs) → lget h l = Some xs.
Proof. intros Hl. cell_reader. by rewrite Hl. Qed.

Lemma is_dict_of_lookup (h : heap) l c a es :
  h !! l = Some (ODict c a es) → is_dict h l = true.
Proof. intros Hl. cell_reader. by rewrite Hl. Qed.

Lemma is_list_of_lookup (h : heap) l a xs :
  h !! l = Some (OList a xs) → is_list h l = true.
Proof. intros Hl. cell_reader. by rewrite Hl. Qed.

Lemma dentries_is_dict h l es : dentries h l = Some es → is_dict h l = true.
Proof. cell_reader. by destruct (h !! l) as [[]|]. Qed.

Lemma Ok_inj {A} (a b : A) (h h' : heap) : Ok a h = Ok b h' → a = b ∧ h = h'.
Proof. by intros [= -> ->]. Qed.

Section Consequences.

Context `{Collaborators}.

(** A field that has its widget dictionary is left alone, whatever the
    page and the box (lines 72-73). *)
Lemma init_widget_dictionary_initialized self page box h w :
  _widget_dictionary self = Some w →
  _init_widget_dictionary self page box h = Ok self h.
Proof. intros Hw. unfold _init_widget_dictionary. by rewrite Hw. Qed.

(** [k in root] is false on a root that lacks the key. *)
Lemma py_contains_lacks_XRef h root :
  lacks_XRef h root = true → py_contains "XRef" (VRef root) h = Ok false h.
Proof.
  unfold lacks_XRef, py_contains. destruct (is_dict h root).
  - intros Hn. apply bool_decide_eq_true in Hn. rewrite Hn.
    rewrite bool_decide_false; [done|]. by intros [? ?].
  - destruct (lget h root) as [xs|]; [|done]. intros Hn.
    apply bool_decide_eq_true in Hn. by rewrite bool_decide_false.
Qed.

(** On a page of no document nothing happens (lines 75-76). *)
Lemma init_widget_dictionary_detached self page box h :
  detached h page = true →
  _init_widget_dictionary self page box h = Ok self h.
Proof.
  unfold detached. intros Hd. unfold _init_widget_dictionary.
  destruct (_widget_dictionary self); [done|].
  destruct (get_root_fuel (length h) h page) as [root|] eqn:Hroot; [|done].
  eapply bind_run; [by apply get_root_ok|]. cbv beta.
  eapply bind_run; [by apply py_contains_lacks_XRef|]. done.
Qed.

Lemma set_widget_dictionary_widget self w :
  _widget_dictionary (set_widget_dictionary self w) = Some w.
Proof. done. Qed.

(** *** Reading the new objects *)

Section NewObjects.

Variables (self : TextField) (box : Rectangle) (cat fd : loc)
          (tname fname : string) (r : loc) (h' : heap).
Hypothesis Hnew : new_objects self box cat fd tname fname r h'.

Lemma new_widget_entries :
  dentries h' (r + 4)
  = Some (widget_entries self (r + 5) cat r (r + 3) tname fname).
Proof. destruct Hnew as (_ & _ & _ & _ & Hw & _). by eapply dentries_of_lookup. Qed.

Lemma new_widget_dget k :
  dget h' (r + 4) k
  = dict_get k (widget_entries self (r + 5) cat r (r + 3) tname fname).
Proof. unfold dget. by rewrite new_widget_entries. Qed.

Lemma new_stream_dget k :
  dget h' (r + 1) k = dict_get k (stream_entries (r + 2) r).
Proof. destruct Hnew as (_ & Hs & _). by eapply dget_of_lookup. Qed.

Lemma new_resources_dget k :
  dget h' r k = dict_get k [("Font", VRef fd)].
Proof. destruct Hnew as (Hr & _). by eapply dget_of_lookup. Qed.

Lemma new_appearance_of : appearance_of h' (r + 4) = Some (r + 1).
Proof.
  destruct Hnew as (_ & _ & _ & Hap & _).
  unfold appearance_of. rewrite new_widget_dget. simpl.
  by rewrite (dget_of_lookup _ _ _ _ _ _ Hap).
Qed.

Lemma new_bbox_items : lget h' (r + 2) = Some (bbox_items self box).
Proof. destruct Hnew as (_ & _ & Hb & _). by eapply lget_of_lookup. Qed.

Lemma new_rect_items : lget h' (r + 5) = Some (rect_items self box).
Proof. destruct Hnew as (_ & _ & _ & _ & _ & Hrc). by eapply lget_of_lookup. Qed.

Lemma new_widget_shape : widget_shape h' (r + 4) (r + 2) (r + 5) = true.
Proof.
  unfold widget_shape. rewrite new_appearance_of.
  unfold array_of, items_of.
  rewrite new_stream_dget, new_widget_dget, new_bbox_items, new_rect_items.
  simpl.
  rewrite (lget_is_list _ _ _ new_bbox_items), (lget_is_list _ _ _ new_rect_items).
  rewrite !andb_true_iff.
  split_and!; first [ done | apply bool_decide_eq_true; first [ done | lia ] ].
Qed.

End NewObjects.

(** After a synthesis the page is still attachable, with the same
    catalog: further fields can be attached. *)
Lemma synthesized_attachable self page cat box h h' w :
  attachable h page = true →
  catalog_of h page = Some cat →
  synthesized self page cat box h h' w →
  attachable h' page = true ∧ catalog_of h' page = Some cat.
Proof.
  intros Hatt Hcat
    (h_a & fname & tname & fd & al & af & fl & Hreg & Hlen & -> & Hlen'
     & Hnew & Hfonts & Hregname & Hregd & Hkept & _).
  destruct Hkept as (Hk1 & Hk2 & Hk3 & Hk4).
  destruct Hregd as (HA & HAl & HF & HFl & HFll & _ & Hne).
  unfold attachable in Hatt. rewrite Hcat in Hatt.
  rewrite !andb_true_iff in Hatt.
  destruct Hatt as [[[Hpage Hres] Hann] [Hacro Hapart]].
  destruct (catalog_of_Some _ _ _ Hcat) as (root & xr & tr & Hroot & Hx & Ht & Hc & Hcd).
  assert (catalog_of h' page = Some cat) as Hcat'.
  { eapply catalog_of_intro; try (by eapply grows_dget); [|by eapply grows_is_dict].
    eapply get_root_fuel_ext; [ | | exact Hroot ]; [exact Hk2 | lia]. }
  split; [|done]. unfold attachable. rewrite Hcat'.
  rewrite !andb_true_iff. split_and!.
  - by eapply grows_is_dict.
  - unfold resources_typed. unfold fonts_of in Hfonts.
    destruct (dget h' page "Resources") as [[| | | | | |rs]|] eqn:Hr; try done.
    destruct (dget h' rs "Font") as [[| | | | | |fd']|] eqn:Hf; try done.
    injection Hfonts as ->. rewrite (dget_is_dict _ _ _ _ Hf). simpl.
    unfold registered_font_name, fonts_of in Hregname. rewrite Hr, Hf in Hregname.
    destruct (dentries h' fd) as [es|] eqn:He; [|done].
    by eapply dentries_is_dict.
  - unfold annots_typed. rewrite HA. by eapply lget_is_list.
  - unfold acroform_typed. rewrite HF, HFl. by eapply lget_is_list.
  - unfold annots_fields_apart, annots_of, fields_of, acroform_of.
    rewrite HA, HF, HFl. by apply bool_decide_eq_true.
Qed.

End Consequences.

(* ================================================================== *)
(** ** The geometry update *)
(* ================================================================== *)

Lemma widget_shape_elim h w bbox rect :
  widget_shape h w bbox rect = true →
  ∃ ap s bs rs,
    dget h w "AP" = Some (VRef ap) ∧ dget h ap "N" = Some (VRef s) ∧
    dget h s "BBox" = Some (VRef bbox) ∧ dget h w "Rect" = Some (VRef rect) ∧
    lget h bbox = Some bs ∧ lget h rect = Some rs ∧
    length bs = 4 ∧ length rs = 4 ∧ bbox ≠ rect.
Proof.
  unfold widget_shape, appearance_of, array_of, items_of.
  destruct (dget h w "AP") as [[| | | | | |ap]|] eqn:Hap; try done.
  destruct (dget h ap "N") as [[| | | | | |s]|] eqn:Hn; try done.
  rewrite !andb_true_iff, !bool_decide_eq_true.
  intros [[[[Hb Hr] Hlb] Hlr] Hne].
  destruct (dget h s "BBox") as [[| | | | | |b]|] eqn:Hbb; try done.
  destruct (is_list h b) eqn:Hbl; [|done]. injection Hb as ->.
  destruct (dget h w "Rect") as [[| | | | | |rc]|] eqn:Hrc; try done.
  destruct (is_list h rc) eqn:Hrl; [|done]. injection Hr as ->.
  destruct (is_list_lget _ _ Hbl) as [bs Hbs].
  destruct (is_list_lget _ _ Hrl) as [rs Hrs].
  rewrite Hbs in Hlb. rewrite Hrs in Hlr. simpl in *.
  by exists ap, s, bs, rs.
Qed.

(** An update of an array leaves the dictionaries as they are. *)
Lemma lookup_lset_dict h a i v l :
  is_dict h l = true → lset h a i v !! l = h !! l.
Proof.
  intros Hd. unfold lset. destruct (decide (a = l)) as [->|].
  - rewrite lookup_hupd_eq. unfold is_dict in Hd.
    by destruct (h !! l) as [[]|].
  - by apply lookup_hupd_ne.
Qed.

Section Relayout.

Context `{Collaborators}.

(** The update of an existing widget returns, and the store is
    [relayout]. *)
Lemma set_location_spec self cbox h w bbox rect :
  _widget_dictionary self = Some w →
  widget_shape h w bbox rect = true →
  set_location self cbox h = Ok tt (relayout self cbox bbox rect h).
Proof.
  intros Hw Hs.
  destruct (widget_shape_elim _ _ _ _ Hs)
    as (ap & s & bs & rs & Hap & Hn & Hbb & Hrc & Hbs & Hrs & Hlb & Hlr & Hne).
  unfold set_location, relayout. rewrite Hw.
  mruns. mrun.
Qed.

(** Without a widget the update does nothing. *)
Lemma set_location_None self cbox h :
  _widget_dictionary self = None → set_location self cbox h = Ok tt h.
Proof. intros Hw. unfold set_location. by rewrite Hw. Qed.

Lemma relayout_length self cbox bbox rect h :
  length (relayout self cbox bbox rect h) = length h.
Proof. unfold relayout. by rewrite !length_lset. Qed.

(** Every object other than the two arrays is what it was. *)
Lemma relayout_other self cbox bbox rect h l :
  l ≠ bbox → l ≠ rect → relayout self cbox bbox rect h !! l = h !! l.
Proof.
  intros. unfold relayout, lset. by rewrite !lookup_hupd_ne.
Qed.

(** No dictionary changes. *)
Lemma relayout_dentries self cbox bbox rect h l :
  dentries (relayout self cbox bbox rect h) l = dentries h l.
Proof. unfold relayout. by rewrite !dentries_lset. Qed.

Lemma relayout_dget self cbox bbox rect h l k :
  dget (relayout self cbox bbox rect h) l k = dget h l k.
Proof. unfold dget. by rewrite relayout_dentries. Qed.

Lemma relayout_is_dict self cbox bbox rect h l :
  is_dict (relayout self cbox bbox rect h) l = is_dict h l.
Proof. unfold relayout. by rewrite !is_dict_lset. Qed.

Lemma relayout_dict_object self cbox bbox rect h l :
  is_dict h l = true → relayout self cbox bbox rect h !! l = h !! l.
Proof.
  intros Hd. unfold relayout.
  rewrite !lookup_lset_dict; rewrite ?is_dict_lset; done.
Qed.

(** Only the items 2 and 3 of [/BBox] change. *)
Lemma relayout_bbox self cbox bbox rect h bs :
  bbox ≠ rect → lget h bbox = Some bs →
  lget (relayout self cbox bbox rect h) bbox
  = Some (<[3 := VDecimal (_font_size self)]> (<[2 := VDecimal (width cbox)]> bs)).
Proof.
  intros Hne Hbs. unfold relayout.
  rewrite !(lget_lset_ne _ rect bbox) by done.
  erewrite lget_lset_eq; [done|]. by erewrite lget_lset_eq.
Qed.

(** The four items of [/Rect] are the corners of the box. *)
Lemma relayout_rect_items self cbox bbox rect h rs :
  bbox ≠ rect → lget h rect = Some rs → length rs = 4 →
  lget (relayout self cbox bbox rect h) rect = Some (relayout_rect cbox).
Proof.
  intros Hne Hrs Hl. unfold relayout.
  erewrite lget_lset_eq; [|erewrite lget_lset_eq;
    [|erewrite lget_lset_eq; [|erewrite lget_lset_eq;
      [|by rewrite !(lget_lset_ne _ bbox rect)]]]]; try done.
  destruct rs as [|a [|b [|c [|d [|]]]]]; done.
Qed.

(** Arrays other than the two are what they were. *)
Lemma relayout_lget self cbox bbox rect h l :
  l ≠ bbox → l ≠ rect → lget (relayout self cbox bbox rect h) l = lget h l.
Proof. intros. unfold lget. by rewrite relayout_other. Qed.

(** [_paint_content_box] on a field that has its widget: the page is not
    looked at, the field is returned as it is, and the store is
    [relayout] for the content box. *)
Lemma paint_content_box_initialized self page space h w bbox rect :
  _widget_dictionary self = Some w →
  widget_shape h w bbox rect = true →
  _paint_content_box self page space h
  = Ok self (relayout self (_get_content_box self space) bbox rect h).
Proof.
  intros Hw Hs. unfold _paint_content_box.
  eapply bind_run; [by eapply init_widget_dictionary_initialized|]. cbv beta.
  eapply bind_run; [by eapply set_location_spec|]. done.
Qed.

(** [_paint_content_box] on a page of no document does nothing. *)
Lemma paint_content_box_detached self page space h :
  _widget_dictionary self = None →
  detached h page = true →
  _paint_content_box self page space h = Ok self h.
Proof.
  intros Hw Hd. unfold _paint_content_box.
  eapply bind_run; [by eapply init_widget_dictionary_detached|]. cbv beta.
  eapply bind_run; [by eapply set_location_None|]. done.
Qed.

End Relayout.

(* ================================================================== *)
(** ** The content box (C3, C4) *)
(* ================================================================== *)

Open Scope Z_scope.

(** The numerator of [Decimal_1_2] is the double nearest to 6/5: it is a
    53-bit significand, and its distance to 6/5 is below half a unit in
    the last place, [2 ^ -53]. *)
Lemma float_1_2_is_nearest_double :
  2 ^ 52 ≤ float_1_2_numerator < 2 ^ 53 ∧
  2 * Z.abs (5 * float_1_2_numerator - 6 * 2 ^ float_1_2_log2_denominator) < 5.
Proof. vm_compute. split; [split|]; congruence. Qed.

(** [Decimal(1.2)] is the 53-digit expansion of that double, below 1.2. *)
Lemma Decimal_1_2_value :
  Decimal_1_2
  = mkDecimal 11999999999999999555910790149937383830547332763671875 (-52) ∧
  Decimal_cmp Decimal_1_2 (mkDecimal 12 (-1)) = Lt.
Proof. by vm_compute. Qed.

Lemma Decimal_cmp_antisym a b : Decimal_cmp b a = CompOpp (Decimal_cmp a b).
Proof.
  unfold Decimal_cmp. rewrite (Z.min_comm (expo b)). apply Z.compare_antisym.
Qed.

Section ContentBox.

Context `{Collaborators}.

(** The corner [x] and the width of the content box: the corner of the
    available space, and its width unless 64 is greater. *)
Lemma get_content_box_x_width self space :
  x (_get_content_box self space) = x space ∧
  width (_get_content_box self space) = py_max (width space) (Decimal_of_int 64).
Proof. done. Qed.

(** The height of the content box is the line height, the rounded
    product of the font size and [Decimal(1.2)], and [y] is the top of
    the available space less the line height. *)
Lemma get_content_box_y_height self space :
  let line_height := Decimal_mul (_font_size self) Decimal_1_2 in
  height (_get_content_box self space) = line_height ∧
  y (_get_content_box self space)
  = Decimal_sub (Decimal_add (y space) (height space)) line_height.
Proof. done. Qed.

(** The width of the content box is never below 64. *)
Lemma get_content_box_width_floor self space :
  Decimal_geb (width (_get_content_box self space)) (Decimal_of_int 64) = true.
Proof.
  simpl. unfold py_max, Decimal_gtb, Decimal_geb.
  destruct (Decimal_cmp (Decimal_of_int 64) (width space)) eqn:E.
  - by rewrite (Decimal_cmp_antisym (Decimal_of_int 64)), E.
  - by rewrite (Decimal_cmp_antisym (Decimal_of_int 64)), E.
  - unfold Decimal_cmp. by rewrite Z.compare_refl.
Qed.

End ContentBox.

(** An available width of 10 gives a content box of width 64. *)
Lemma get_content_box_narrow :
  width (_get_content_box example_field narrow_space) = Decimal_of_int 64.
Proof. by vm_compute. Qed.

(** C3 (the code departs from the claim): for font size 12 and the
    available space (0, 0, 200, 50) the content box has [x = 0] and
    width 200, but its height is 14.39999999999999946709294818, below
    the 14.4 the claim gives as 1.2 times the font size, and its [y] is
    35.60000000000000053290705182, above 35.6: line 163 multiplies by
    [Decimal(1.2)], the binary double nearest to 1.2, not by 1.2. *)
Theorem C3_content_box_font_12 :
  let cbox := _get_content_box example_field example_space in
  x cbox = Decimal_of_int 0 ∧
  width cbox = Decimal_of_int 200 ∧
  height cbox = mkDecimal 1439999999999999946709294818 (-26) ∧
  y cbox = mkDecimal 3560000000000000053290705182 (-26) ∧
  Decimal_cmp (height cbox) dec_14_4 = Lt ∧
  Decimal_cmp (y cbox) dec_35_6 = Gt.
Proof. by vm_compute. Qed.

(** C4 (the code departs from the claim, by the defect of C3): painting
    the field of font size 12 into (0, 0, 200, 50) on the first page of the example document
    leaves [/BBox] = [0, 0, 200, 12] as claimed, but [/Rect] =
    [0, 35.60000000000000053290705182, 200, 50.00000000000000000000000000]:
    its second item is above the 35.6 of the claim (the fourth is 50 in
    value), the content box being that of C3. *)
Theorem C4_paint_font_12 :
  ∃ h',
    _paint_content_box example_field example_page example_space example_document
    = Ok (set_widget_dictionary example_field example_widget) h' ∧
    appearance_of h' example_widget = Some example_stream ∧
    array_of h' example_stream "BBox" = Some example_bbox ∧
    array_of h' example_widget "Rect" = Some example_rect ∧
    lget h' example_bbox
    = Some [VDecimal (Decimal_of_int 0); VDecimal (Decimal_of_int 0);
            VDecimal (Decimal_of_int 200); VDecimal (Decimal_of_int 12)] ∧
    lget h' example_rect
    = Some [VDecimal (Decimal_of_int 0);
            VDecimal (mkDecimal 3560000000000000053290705182 (-26));
            VDecimal (Decimal_of_int 200);
            VDecimal (mkDecimal 5000000000000000000000000000 (-26))] ∧
    Decimal_cmp (mkDecimal 3560000000000000053290705182 (-26)) dec_35_6 = Gt ∧
    Decimal_cmp (mkDecimal 5000000000000000000000000000 (-26)) (Decimal_of_int 50) = Eq.
Proof.
  eexists. split; [by vm_compute|]. by vm_compute.
Qed.

Close Scope Z_scope.

(* ================================================================== *)
(** ** Attaching a field (C1, C2, C5, C7, C9) *)
(* ================================================================== *)

Section AttachClaims.

Context `{Collaborators}.

(** The widget of a synthesis is a new object, and a dictionary. *)
Lemma synthesized_widget_new self page cat box h h' w :
  synthesized self page cat box h h' w →
  length h ≤ w ∧ w < length h' ∧ is_dict h' w = true.
Proof.
  intros (h_a & fname & tname & fd & al & af & fl & _ & Hlen & -> & Hlen'
          & Hnew & _).
  destruct Hnew as (_ & _ & _ & _ & Hw & _).
  split_and!; [lia | lia | by eapply is_dict_of_lookup].
Qed.

(** The widget has been appended, once, to the annotation array of the
    page and to the field list of the catalog. *)
Lemma synthesized_registered self page cat box h h' w :
  synthesized self page cat box h h' w →
  ∃ al fl,
    annots_of h' page = Some al ∧
    lget h' al = Some (items_of h (annots_of h page) ++ [VRef w]) ∧
    fields_of h' cat = Some fl ∧
    lget h' fl = Some (items_of h (fields_of h cat) ++ [VRef w]) ∧
    al ≠ fl.
Proof.
  intros (h_a & fname & tname & fd & al & af & fl & _ & _ & _ & _ & _ & _ & _
          & Hregd & _).
  destruct Hregd as (HA & HAl & HF & HFl & HFll & _ & Hne).
  exists al, fl. unfold annots_of, fields_of, acroform_of.
  by rewrite HA, HF, HFl.
Qed.

(** The [/P] entry of the widget refers to the catalog (line 126). *)
Lemma synthesized_P self page cat box h h' w :
  synthesized self page cat box h h' w → dget h' w "P" = Some (VRef cat).
Proof.
  intros (h_a & fname & tname & fd & al & af & fl & _ & _ & -> & _ & Hnew & _).
  by rewrite (new_widget_dget _ _ _ _ _ _ _ _ Hnew).
Qed.

(** The resources dictionary [r] of the widget: the appearance stream
    and the widget refer to it, its [/Font] is the font dictionary of
    the page, and it is the [/DR] of a form registry created by this
    synthesis. *)
Lemma synthesized_resources self page cat box h h' w :
  synthesized self page cat box h h' w →
  ∃ s r fd,
    length h ≤ r ∧ r < w ∧
    appearance_of h' w = Some s ∧
    dget h' s "Resources" = Some (VRef r) ∧
    dget h' w "DR" = Some (VRef r) ∧
    dget h' r "Font" = Some (VRef fd) ∧
    fonts_of h' page = Some fd ∧
    (acroform_of h cat = None →
     ∃ af, acroform_of h' cat = Some af ∧ dget h' af "DR" = Some (VRef r)).
Proof.
  intros (h_a & fname & tname & fd & al & af & fl & _ & Hlen & -> & _ & Hnew
          & Hfonts & _ & Hregd & _).
  destruct Hregd as (_ & _ & HF & _ & _ & Hdr & _).
  exists (length h_a + 1), (length h_a), fd. split_and!; try done; try lia.
  - by eapply new_appearance_of.
  - by rewrite (new_stream_dget _ _ _ _ _ _ _ _ Hnew).
  - by rewrite (new_widget_dget _ _ _ _ _ _ _ _ Hnew).
  - by rewrite (new_resources_dget _ _ _ _ _ _ _ _ Hnew).
  - intros Hn. exists af. unfold acroform_of. rewrite HF. split; [done|].
    by apply Hdr.
Qed.

(** The appearance stream: its decoded bytes, its bytes and its length. *)
Lemma synthesized_stream self page cat box h h' w :
  synthesized self page cat box h h' w →
  ∃ s,
    appearance_of h' w = Some s ∧
    dget h' s "DecodedBytes" = Some (VBytes Tx_BMC_EMC) ∧
    dget h' s "Bytes" = Some (VBytes (zlib_compress Tx_BMC_EMC 9)) ∧
    dget h' s "Filter" = Some (VName "FlateDecode") ∧
    dget h' s "Length"
    = Some (VDecimal (Decimal_of_int
                        (Z.of_nat (length (zlib_compress Tx_BMC_EMC 9))))).
Proof.
  intros (h_a & fname & tname & fd & al & af & fl & _ & Hlen & -> & _ & Hnew & _).
  exists (length h_a + 1). split; [by eapply new_appearance_of|].
  by rewrite !(new_stream_dget _ _ _ _ _ _ _ _ Hnew).
Qed.

(** The widget has the shape the geometry update expects. *)
Lemma synthesized_widget_shape self page cat box h h' w :
  synthesized self page cat box h h' w →
  ∃ bbox rect,
    length h ≤ bbox ∧ length h ≤ rect ∧
    widget_shape h' w bbox rect = true ∧
    lget h' bbox = Some (bbox_items self box) ∧
    lget h' rect = Some (rect_items self box).
Proof.
  intros (h_a & fname & tname & fd & al & af & fl & _ & Hlen & -> & _ & Hnew & _).
  exists (length h_a + 2), (length h_a + 5). split_and!; try lia.
  - by eapply new_widget_shape.
  - by eapply new_bbox_items.
  - by eapply new_rect_items.
Qed.

(** C1: on an attachable page, attaching a field that has no widget
    returns with a widget dictionary [w] that is a new node, and a second
    attach of the same field (with any box) is a no-op: the two calls in
    sequence end in the store of the first.  In that store the page's
    annotation array is what it was followed by the one entry [w], and
    so is the catalog's field list. *)
Theorem C1_attach_is_idempotent self page box box' h cat :
  _widget_dictionary self = None →
  attachable h page = true →
  catalog_of h page = Some cat →
  ∃ w h1 al fl,
    _init_widget_dictionary self page box h
    = Ok (set_widget_dictionary self w) h1 ∧
    _init_widget_dictionary (set_widget_dictionary self w) page box' h1
    = Ok (set_widget_dictionary self w) h1 ∧
    (let* self1 := _init_widget_dictionary self page box in
     _init_widget_dictionary self1 page box') h
    = Ok (set_widget_dictionary self w) h1 ∧
    length h ≤ w ∧ w < length h1 ∧ is_dict h1 w = true ∧
    annots_of h1 page = Some al ∧
    lget h1 al = Some (items_of h (annots_of h page) ++ [VRef w]) ∧
    fields_of h1 cat = Some fl ∧
    lget h1 fl = Some (items_of h (fields_of h cat) ++ [VRef w]).
Proof.
  intros Hw Hatt Hcat.
  destruct (synthesis self page box h cat Hw Hatt Hcat) as (w & h1 & Hrun & Hs).
  destruct (synthesized_widget_new _ _ _ _ _ _ _ Hs) as (? & ? & ?).
  destruct (synthesized_registered _ _ _ _ _ _ _ Hs) as (al & fl & ? & ? & ? & ? & _).
  assert (_init_widget_dictionary (set_widget_dictionary self w) page box' h1
          = Ok (set_widget_dictionary self w) h1) as Hagain.
  { by eapply init_widget_dictionary_initialized. }
  exists w, h1, al, fl. split_and!; try done.
  eapply bind_run; [exact Hrun | exact Hagain].
Qed.

(** C2: on a page of no document (its root has no [XRef]) attaching
    returns without an error, with the field and the store as they were:
    no node is created and the widget dictionary stays absent, and a
    layout pass does as little.  When later the page is attachable, in a
    store [h2], attaching succeeds, synthesizes the widget, and from then
    on every attach of the field, on any page, is a no-op. *)
Theorem C2_detached_then_attached self page box space box2 h h2 cat :
  _widget_dictionary self = None →
  detached h page = true →
  attachable h2 page = true →
  catalog_of h2 page = Some cat →
  _init_widget_dictionary self page box h = Ok self h ∧
  _paint_content_box self page space h = Ok self h ∧
  ∃ w h2',
    _init_widget_dictionary self page box2 h2
    = Ok (set_widget_dictionary self w) h2' ∧
    synthesized self page cat box2 h2 h2' w ∧
    length h2 ≤ w ∧ is_dict h2' w = true ∧
    ∀ page3 box3,
      _init_widget_dictionary (set_widget_dictionary self w) page3 box3 h2'
      = Ok (set_widget_dictionary self w) h2'.
Proof.
  intros Hw Hd Hatt Hcat. split; [by apply init_widget_dictionary_detached|].
  split; [by apply paint_content_box_detached|].
  destruct (synthesis self page box2 h2 cat Hw Hatt Hcat) as (w & h2' & Hrun & Hs).
  destruct (synthesized_widget_new _ _ _ _ _ _ _ Hs) as (? & ? & ?).
  exists w, h2'.
  split_and!; first [ done | intros; by eapply init_widget_dictionary_initialized ].
Qed.

(** C7: for the first field attached in a document (the catalog has no
    form registry yet), the [/Resources] of the appearance stream, the
    [/DR] of the widget and the [/DR] of the new form registry are
    references to one and the same dictionary [r]: an entry written
    through one of them is read through the other two. *)
Theorem C7_resources_are_shared self page box h cat :
  _widget_dictionary self = None →
  attachable h page = true →
  catalog_of h page = Some cat →
  acroform_of h cat = None →
  ∃ w h' s af r,
    _init_widget_dictionary self page box h
    = Ok (set_widget_dictionary self w) h' ∧
    appearance_of h' w = Some s ∧
    acroform_of h' cat = Some af ∧
    dget h' s "Resources" = Some (VRef r) ∧
    dget h' w "DR" = Some (VRef r) ∧
    dget h' af "DR" = Some (VRef r) ∧
    ∀ v_stream v_widget v_form k v,
      dget h' s "Resources" = Some v_stream →
      dget h' w "DR" = Some v_widget →
      dget h' af "DR" = Some v_form →
      ∃ h'',
        py_setitem v_form k v h' = Ok tt h'' ∧
        py_getitem v_stream k h'' = Ok v h'' ∧
        py_getitem v_widget k h'' = Ok v h''.
Proof.
  intros Hw Hatt Hcat Hfirst.
  destruct (synthesis self page box h cat Hw Hatt Hcat) as (w & h' & Hrun & Hs).
  destruct (synthesized_resources _ _ _ _ _ _ _ Hs)
    as (s & r & fd & _ & _ & Hap & Hsr & Hdr & Hfont & _ & Hform).
  destruct (Hform Hfirst) as (af & Haf & Hafdr).
  exists w, h', s, af, r. split_and!; try done.
  intros v_stream v_widget v_form k v. rewrite Hsr, Hdr, Hafdr.
  intros [= <-] [= <-] [= <-].
  pose proof (dget_is_dict _ _ _ _ Hfont) as Hrd.
  exists (dset h' r k v). split_and!.
  - by apply py_setitem_ok.
  - apply py_getitem_ok. by apply dget_dset_eq.
  - apply py_getitem_ok. by apply dget_dset_eq.
Qed.

(** C9: for a codec whose decompression undoes [zlib.compress] at level
    9, the appearance stream of a synthesized widget declares as
    [/Length] the number of its stored bytes, and decompressing these
    bytes gives its decoded bytes, the fixed payload [/Tx BMC EMC]. *)
Theorem C9_appearance_stream_compression self page box h cat
    (decompress : list Byte.byte → option (list Byte.byte)) :
  (∀ bs, decompress (zlib_compress bs 9) = Some bs) →
  _widget_dictionary self = None →
  attachable h page = true →
  catalog_of h page = Some cat →
  ∃ w h' s bytes,
    _init_widget_dictionary self page box h
    = Ok (set_widget_dictionary self w) h' ∧
    appearance_of h' w = Some s ∧
    dget h' s "Bytes" = Some (VBytes bytes) ∧
    dget h' s "Length"
    = Some (VDecimal (Decimal_of_int (Z.of_nat (length bytes)))) ∧
    dget h' s "DecodedBytes"
    = Some (VBytes (String.list_byte_of_string "/Tx BMC EMC")) ∧
    dget h' s "Filter" = Some (VName "FlateDecode") ∧
    decompress bytes = Some (String.list_byte_of_string "/Tx BMC EMC").
Proof.
  intros Hcodec Hw Hatt Hcat.
  destruct (synthesis self page box h cat Hw Hatt Hcat) as (w & h' & Hrun & Hs).
  destruct (synthesized_stream _ _ _ _ _ _ _ Hs) as (s & Hap & Hd & Hb & Hf & Hl).
  exists w, h', s, (zlib_compress Tx_BMC_EMC 9).
  split_and!; first [ done | apply Hcodec ].
Qed.

End AttachClaims.

(** C5 (the code departs from the claim): the [/P] entry of the widget
    synthesized for the first page of the example document (the object
    6) refers to the catalog of the document (the object 3), not to the
    page: line 126 stores [catalog]. *)
Theorem C5_P_entry_is_the_catalog :
  ∃ h',
    _init_widget_dictionary example_field example_page
      (_get_content_box example_field example_space) example_document
    = Ok (set_widget_dictionary example_field example_widget) h' ∧
    dget h' example_widget "P" = Some (VRef example_catalog) ∧
    dget h' example_widget "P" ≠ Some (VRef example_page) ∧
    dget h' example_page "Type" = Some (VName "Page") ∧
    dget h' example_catalog "Type" = Some (VName "Catalog").
Proof.
  eexists. split; [by vm_compute|]. by vm_compute.
Qed.

(* ================================================================== *)
(** ** Laying a field out again (C8, C10) *)
(* ================================================================== *)

Section RelayoutClaims.

Context `{Collaborators}.

(** The geometry update keeps the shape of the widget, so that it can be
    repeated. *)
Lemma relayout_widget_shape self cbox bbox rect h w :
  widget_shape h w bbox rect = true →
  widget_shape (relayout self cbox bbox rect h) w bbox rect = true.
Proof.
  intros Hs.
  destruct (widget_shape_elim _ _ _ _ Hs)
    as (ap & s & bs & rs & Hap & Hn & Hbb & Hrc & Hbs & Hrs & Hlb & Hlr & Hne).
  pose proof (relayout_bbox self cbox bbox rect h bs Hne Hbs) as Hb'.
  pose proof (relayout_rect_items self cbox bbox rect h rs Hne Hrs Hlr) as Hr'.
  unfold widget_shape, appearance_of, array_of, items_of.
  rewrite relayout_dget, Hap. cbv beta iota.
  rewrite relayout_dget, Hn. cbv beta iota.
  rewrite !relayout_dget, Hbb, Hrc, Hb', Hr'.
  rewrite (lget_is_list _ _ _ Hb'), (lget_is_list _ _ _ Hr').
  rewrite !andb_true_iff, !bool_decide_eq_true. simpl.
  split_and!; try done. by rewrite !length_insert.
Qed.

(** The annotation array of a page and the field list of a catalog are
    found through dictionaries only: the update does not move them. *)
Lemma relayout_annots_of self cbox bbox rect h page :
  annots_of (relayout self cbox bbox rect h) page = annots_of h page.
Proof. unfold annots_of. by rewrite relayout_dget. Qed.

Lemma relayout_fields_of self cbox bbox rect h cat :
  fields_of (relayout self cbox bbox rect h) cat = fields_of h cat.
Proof.
  unfold fields_of, acroform_of. rewrite relayout_dget.
  destruct (dget h cat "AcroForm") as [[]|]; try done.
  by rewrite relayout_dget.
Qed.

(** C8: for a field whose widget [w] exists, with its [/BBox] array at
    [bbox] and its [/Rect] array at [rect], the layout pass and its
    geometry update return, and the store they leave has as many objects
    as before; every object other than the two arrays, and every
    dictionary, is what it was; of [/BBox] only the items 2 and 3 are
    overwritten, with the width of the box and the font size; the four
    items of [/Rect] are the corners of the box; the entries [V], [DV],
    [T] and [DR] of the widget are what they were.  For a field without
    a widget the geometry update leaves the store as it is. *)
Theorem C8_relayout_frame self page space h w bbox rect :
  _widget_dictionary self = Some w →
  widget_shape h w bbox rect = true →
  let cbox := _get_content_box self space in
  let h' := relayout self cbox bbox rect h in
  _paint_content_box self page space h = Ok self h' ∧
  set_location self cbox h = Ok tt h' ∧
  length h' = length h ∧
  (∀ l, l ≠ bbox → l ≠ rect → h' !! l = h !! l) ∧
  (∀ l, is_dict h l = true → h' !! l = h !! l) ∧
  lget h' bbox
  = Some (<[3 := VDecimal (_font_size self)]>
            (<[2 := VDecimal (width cbox)]> (items_of h (Some bbox)))) ∧
  lget h' rect
  = Some [VDecimal (x cbox); VDecimal (y cbox);
          VDecimal (Decimal_add (x cbox) (width cbox));
          VDecimal (Decimal_add (y cbox) (height cbox))] ∧
  dget h' w "V" = dget h w "V" ∧
  dget h' w "DV" = dget h w "DV" ∧
  dget h' w "T" = dget h w "T" ∧
  dget h' w "DR" = dget h w "DR" ∧
  (∀ self0 : TextField,
     _widget_dictionary self0 = None → set_location self0 cbox h = Ok tt h).
Proof.
  intros Hw Hs cbox h'.
  destruct (widget_shape_elim _ _ _ _ Hs)
    as (ap & s & bs & rs & Hap & Hn & Hbb & Hrc & Hbs & Hrs & Hlb & Hlr & Hne).
  subst h'. split_and!.
  - by eapply paint_content_box_initialized.
  - by eapply set_location_spec.
  - apply relayout_length.
  - intros. by apply relayout_other.
  - intros. by apply relayout_dict_object.
  - unfold items_of. rewrite Hbs. simpl. by apply relayout_bbox.
  - by eapply relayout_rect_items.
  - apply relayout_dget.
  - apply relayout_dget.
  - apply relayout_dget.
  - apply relayout_dget.
  - intros. by apply set_location_None.
Qed.

(** C10: once the widget [w] of a field exists, a layout pass of the
    field on any page [page'] returns the field as it is and ends in the
    store of the geometry update, whatever the page: the pass on
    [page'] is the pass on any other page [page].  In that store every
    page has the annotation array it had and every catalog the field
    list it had, with the items they had; the [/P] entry of the widget is
    what it was; the objects other than the two arrays of the widget are
    what they were, and the widget still has its shape. *)
Theorem C10_repaint_on_any_page self page page' space h w bbox rect :
  _widget_dictionary self = Some w →
  widget_shape h w bbox rect = true →
  let h' := relayout self (_get_content_box self space) bbox rect h in
  _paint_content_box self page' space h = Ok self h' ∧
  _paint_content_box self page' space h = _paint_content_box self page space h ∧
  (∀ p, annots_of h' p = annots_of h p) ∧
  (∀ c, fields_of h' c = fields_of h c) ∧
  (∀ l, l ≠ bbox → l ≠ rect → lget h' l = lget h l) ∧
  (∀ l, l ≠ bbox → l ≠ rect → h' !! l = h !! l) ∧
  length h' = length h ∧
  dget h' w "P" = dget h w "P" ∧
  widget_shape h' w bbox rect = true.
Proof.
  intros Hw Hs h'. subst h'. split_and!.
  - by eapply paint_content_box_initialized.
  - by rewrite !(paint_content_box_initialized _ _ _ _ _ _ _ Hw Hs).
  - intros. apply relayout_annots_of.
  - intros. apply relayout_fields_of.
  - intros. by apply relayout_lget.
  - intros. by apply relayout_other.
  - apply relayout_length.
  - apply relayout_dget.
  - by apply relayout_widget_shape.
Qed.



End RelayoutClaims.

(* ================================================================== *)
(** ** Two fields on one page (C6) *)
(* ================================================================== *)

Section ReuseClaims.

Context `{Collaborators}.

Lemma grows_fonts_of h h' page fd :
  grows h h' → fonts_of h page = Some fd → fonts_of h' page = Some fd.
Proof.
  intros Hg. unfold fonts_of.
  destruct (dget h page "Resources") as [[| | | | | |rs]|] eqn:Hr; try done.
  destruct (dget h rs "Font") as [[| | | | | |fd']|] eqn:Hf; try done.
  intros [= ->].
  by rewrite (grows_dget _ _ _ _ _ Hg Hr), (grows_dget _ _ _ _ _ Hg Hf).
Qed.

Lemma grows_appearance_of h h' w s :
  grows h h' → appearance_of h w = Some s → appearance_of h' w = Some s.
Proof.
  intros Hg. unfold appearance_of.
  destruct (dget h w "AP") as [[| | | | | |ap]|] eqn:Hap; try done.
  destruct (dget h ap "N") as [[| | | | | |s']|] eqn:Hn; try done.
  intros [= ->].
  by rewrite (grows_dget _ _ _ _ _ Hg Hap), (grows_dget _ _ _ _ _ Hg Hn).
Qed.

(** A synthesis on a page that already holds the font, an annotation
    array and a form registry adds no entry to any dictionary that was
    there, and appends the widget to the two arrays. *)
Lemma synthesized_again self page cat box h h' w name :
  synthesized self page cat box h h' w →
  registered_font_name h page (StandardType1Font "Helvetica") = Some name →
  is_Some (dget h page "Annots") →
  is_Some (dget h cat "AcroForm") →
  grows h h' ∧
  (∀ l, l < length h → dentries h' l = dentries h l) ∧
  registered_font_name h' page (StandardType1Font "Helvetica") = Some name.
Proof.
  intros (h_a & fname & tname & fd & al & af & fl & Hreg & Hlen & -> & Hlen'
          & Hnew & Hfonts & Hregname & Hregd & Hkept & Hsame & _) Hname HA HF.
  rewrite (get_font_resource_name_registered _ _ _ _ Hname) in Hreg.
  apply Ok_inj in Hreg as [<- <-].
  destruct Hkept as (_ & _ & Hg & _).
  split_and!; [done | by apply Hsame | done].
Qed.

(** C6 (as the code has it): two fields without a widget attached one
    after the other to an attachable page.  Both calls return.  The font
    dictionary [fd] of the page after the second call has the entries it
    had after the first, among them the name of Helvetica; on a page that
    had no [/Resources] this is the one entry [F1].  The field list of
    the catalog is what it was followed by the two widgets.  The two
    appearance streams have their own resources dictionaries, [r1] and
    [r2], two different objects, and the [/Font] of both is the one font
    dictionary of the page. *)
Theorem C6_two_fields_one_font self1 self2 page box1 box2 h cat :
  _widget_dictionary self1 = None →
  _widget_dictionary self2 = None →
  attachable h page = true →
  catalog_of h page = Some cat →
  ∃ w1 h1 w2 h2 fd fl s1 s2 r1 r2 name,
    _init_widget_dictionary self1 page box1 h
    = Ok (set_widget_dictionary self1 w1) h1 ∧
    _init_widget_dictionary self2 page box2 h1
    = Ok (set_widget_dictionary self2 w2) h2 ∧
    fonts_of h1 page = Some fd ∧
    fonts_of h2 page = Some fd ∧
    dentries h2 fd = dentries h1 fd ∧
    registered_font_name h1 page (StandardType1Font "Helvetica") = Some name ∧
    registered_font_name h2 page (StandardType1Font "Helvetica") = Some name ∧
    (dget h page "Resources" = None →
     dentries h2 fd
     = Some [(font_name 1, VFont (StandardType1Font "Helvetica"))]) ∧
    fields_of h2 cat = Some fl ∧
    lget h2 fl = Some (items_of h (fields_of h cat) ++ [VRef w1; VRef w2]) ∧
    w1 ≠ w2 ∧
    appearance_of h2 w1 = Some s1 ∧
    appearance_of h2 w2 = Some s2 ∧
    dget h2 s1 "Resources" = Some (VRef r1) ∧
    dget h2 s2 "Resources" = Some (VRef r2) ∧
    r1 ≠ r2 ∧
    dget h2 r1 "Font" = Some (VRef fd) ∧
    dget h2 r2 "Font" = Some (VRef fd).
Proof.
  intros Hw1 Hw2 Hatt Hcat.
  destruct (synthesis self1 page box1 h cat Hw1 Hatt Hcat)
    as (w1 & h1 & Hrun1 & Hs1).
  destruct (synthesized_attachable _ _ _ _ _ _ _ Hatt Hcat Hs1) as [Hatt1 Hcat1].
  destruct (synthesis self2 page box2 h1 cat Hw2 Hatt1 Hcat1)
    as (w2 & h2 & Hrun2 & Hs2).
  destruct (synthesized_widget_new _ _ _ _ _ _ _ Hs1) as (_ & Hw1lt & _).
  destruct (synthesized_widget_new _ _ _ _ _ _ _ Hs2) as (Hw2ge & _ & _).
  destruct (synthesized_resources _ _ _ _ _ _ _ Hs1)
    as (s1 & r1 & fd & _ & Hr1 & Hap1 & Hsr1 & _ & Hrf1 & Hfonts1 & _).
  destruct (synthesized_resources _ _ _ _ _ _ _ Hs2)
    as (s2 & r2 & fd2 & Hr2 & _ & Hap2 & Hsr2 & _ & Hrf2 & Hfonts2 & _).
  destruct (synthesized_registered _ _ _ _ _ _ _ Hs2)
    as (al2 & fl2 & _ & _ & Hfl2 & Hfll2 & _).
  pose proof Hs1 as (h_a & fname & tname & fd' & al & af & fl & _ & Hlen_a & _
                     & Hlen1 & _ & Hfonts1' & Hname1 & Hregd1 & _ & _ & Hother
                     & Hfresh).
  rewrite Hfonts1 in Hfonts1'. injection Hfonts1' as <-.
  destruct Hregd1 as (HA1 & _ & HF1 & HFl1 & HFll1 & _ & _).
  destruct (synthesized_again _ _ _ _ _ _ _ _ Hs2 Hname1)
    as (Hg & Hsame & Hname2); [by eexists | by eexists |].
  rewrite (grows_fonts_of _ _ _ _ Hg Hfonts1) in Hfonts2.
  injection Hfonts2 as <-.
  assert (fd < length h1) as Hfd.
  { pose proof Hname1 as Hn. unfold registered_font_name in Hn.
    rewrite Hfonts1 in Hn. destruct (dentries h1 fd) eqn:Hes; [|done].
    apply is_dict_lt. by eapply dentries_is_dict. }
  assert (page < length h) as Hpage.
  { apply is_dict_lt. unfold attachable in Hatt.
    rewrite !andb_true_iff in Hatt. by destruct Hatt as [[[? _] _] _]. }
  assert (cat < length h) as Hcatlt.
  { destruct (catalog_of_Some _ _ _ Hcat) as (? & ? & ? & _ & _ & _ & _ & Hd).
    by apply is_dict_lt. }
  exists w1, h1, w2, h2, fd, fl2, s1, s2, r1, r2, fname.
  split_and!; try done.
  - by apply grows_fonts_of with h1.
  - by apply Hsame.
  - intros Hnone. destruct (Hfresh Hnone) as [Hnew Hes].
    rewrite Hsame by done. rewrite <- Hes. apply Hother.
    + apply is_dict_lt. by eapply dentries_is_dict.
    + lia.
    + lia.
  - rewrite Hfll2. f_equal. unfold fields_of at 1, acroform_of.
    rewrite HF1, HFl1. unfold items_of at 1. rewrite HFll1. simpl.
    by rewrite <- app_assoc.
  - lia.
  - by apply grows_appearance_of with h1.
  - by apply grows_dget with h1.
  - lia.
  - by apply grows_dget with h1.
Qed.

End ReuseClaims.

(** C6 (the claim as stated fails): on the first page of the example
    document, after [example_field] and then [example_field2] have been
    attached, the appearance streams of the two widgets refer to two
    resources dictionaries, the objects 10 and 19, not to one. *)
Lemma C6_resources_are_not_shared :
  ∃ h1 h2,
    _init_widget_dictionary example_field example_page example_space
      example_document
    = Ok (set_widget_dictionary example_field example_widget) h1 ∧
    _init_widget_dictionary example_field2 example_page example_space h1
    = Ok (set_widget_dictionary example_field2 example_widget2) h2 ∧
    appearance_of h2 example_widget = Some example_stream ∧
    appearance_of h2 example_widget2 = Some example_stream2 ∧
    dget h2 example_stream "Resources" = Some (VRef example_resources) ∧
    dget h2 example_stream2 "Resources" = Some (VRef example_resources2) ∧
    example_resources ≠ example_resources2 ∧
    ¬ same_resources h2 example_widget example_widget2.
Proof.
  eexists. eexists. split; [by vm_compute|]. split; [by vm_compute|].
  split_and!; try by vm_compute.
  intros (s1 & s2 & r & H1 & H2 & H3 & H4).
  vm_compute in H1. vm_compute in H2.
  injection H1 as <-. injection H2 as <-.
  vm_compute in H3. vm_compute in H4. congruence.
Qed.

(* ================================================================== *)
(** ** The theorems at the example document *)
(* ================================================================== *)

(** The first page of the example document is attachable, its catalog is
    the object 3, and the painted field has its widget with the shape of
    a synthesis. *)
Lemma example_attachable :
  attachable example_document example_page = true ∧
  catalog_of example_document example_page = Some example_catalog.
Proof. split; by vm_compute. Qed.

Lemma example_painted_shape :
  widget_shape example_painted example_widget example_bbox example_rect = true.
Proof. by vm_compute. Qed.

(** C1 at the example: [example_field] attached twice to the first
    page, the second time with another box. *)
Lemma C1_attach_is_idempotent_witness :
  attachable example_document example_page = true ∧
  ∃ w h1,
    _init_widget_dictionary example_field example_page example_space
      example_document
    = Ok (set_widget_dictionary example_field w) h1 ∧
    _init_widget_dictionary (set_widget_dictionary example_field w)
      example_page narrow_space h1
    = Ok (set_widget_dictionary example_field w) h1.
Proof.
  split; [by vm_compute|].
  destruct (C1_attach_is_idempotent example_field example_page example_space
              narrow_space example_document example_catalog)
    as (w & h1 & al & fl & H1 & H2 & _);
    [reflexivity | by vm_compute | by vm_compute |].
  exists w, h1. split; assumption.
Defined.

(** C2 at the example: the page before and after it is added to the
    document. *)
Lemma C2_detached_then_attached_witness :
  detached example_document_before example_page = true ∧
  attachable example_document example_page = true ∧
  _init_widget_dictionary example_field example_page example_space
    example_document_before
  = Ok example_field example_document_before ∧
  ∃ w h2',
    _init_widget_dictionary example_field example_page example_space
      example_document
    = Ok (set_widget_dictionary example_field w) h2'.
Proof.
  split; [by vm_compute|]. split; [by vm_compute|].
  destruct (C2_detached_then_attached example_field example_page example_space
              example_space example_space example_document_before
              example_document example_catalog)
    as (H1 & _ & w & h2' & H2 & _);
    [reflexivity | by vm_compute | by vm_compute | by vm_compute |].
  split; [exact H1|]. exists w, h2'. exact H2.
Defined.

(** C6 at the example: [example_field] and [example_field2] on the
    first page. *)
Lemma C6_two_fields_one_font_witness :
  attachable example_document example_page = true ∧
  ∃ w1 h1 w2 h2 fd r1 r2,
    _init_widget_dictionary example_field example_page example_space
      example_document
    = Ok (set_widget_dictionary example_field w1) h1 ∧
    _init_widget_dictionary example_field2 example_page narrow_space h1
    = Ok (set_widget_dictionary example_field2 w2) h2 ∧
    dentries h2 fd = dentries h1 fd ∧
    r1 ≠ r2 ∧
    dget h2 r1 "Font" = Some (VRef fd) ∧
    dget h2 r2 "Font" = Some (VRef fd).
Proof.
  split; [by vm_compute|].
  destruct (C6_two_fields_one_font example_field example_field2 example_page
              example_space narrow_space example_document example_catalog)
    as (w1 & h1 & w2 & h2 & fd & fl & s1 & s2 & r1 & r2 & name & H1 & H2 & _
        & _ & H3 & _ & _ & _ & _ & _ & _ & _ & _ & _ & _ & H4 & H5 & H6);
    [reflexivity | reflexivity | by vm_compute | by vm_compute |].
  exists w1, h1, w2, h2, fd, r1, r2. by split_and!.
Defined.

(** C7 at the example: the first field of the example document. *)
Lemma C7_resources_are_shared_witness :
  acroform_of example_document example_catalog = None ∧
  ∃ w h' s af r,
    _init_widget_dictionary example_field example_page example_space
      example_document
    = Ok (set_widget_dictionary example_field w) h' ∧
    dget h' s "Resources" = Some (VRef r) ∧
    dget h' w "DR" = Some (VRef r) ∧
    dget h' af "DR" = Some (VRef r).
Proof.
  split; [by vm_compute|].
  destruct (C7_resources_are_shared example_field example_page example_space
              example_document example_catalog)
    as (w & h' & s & af & r & H1 & _ & _ & H2 & H3 & H4 & _);
    [reflexivity | by vm_compute | by vm_compute | by vm_compute |].
  exists w, h', s, af, r. by split_and!.
Defined.

(** C8 at the example: the painted field laid out again in a narrower
    space. *)
Lemma C8_relayout_frame_witness :
  _widget_dictionary example_painted_field = Some example_widget ∧
  widget_shape example_painted example_widget example_bbox example_rect = true ∧
  _paint_content_box example_painted_field example_page narrow_space
    example_painted
  = Ok example_painted_field
       (relayout example_painted_field
          (_get_content_box example_painted_field narrow_space)
          example_bbox example_rect example_painted) ∧
  dget (relayout example_painted_field
          (_get_content_box example_painted_field narrow_space)
          example_bbox example_rect example_painted) example_widget "V"
  = dget example_painted example_widget "V".
Proof.
  split; [reflexivity|]. split; [by vm_compute|].
  destruct (C8_relayout_frame example_painted_field example_page narrow_space
              example_painted example_widget example_bbox example_rect)
    as (H1 & _ & _ & _ & _ & _ & _ & H2 & _);
    [reflexivity | by vm_compute |].
  split; [exact H1 | exact H2].
Defined.

(** C9 at the example: the stored codec of the examples. *)
Lemma C9_appearance_stream_compression_witness :
  (∀ bs, stored_decompress (stored_compress bs 9) = Some bs) ∧
  ∃ w h' s bytes,
    _init_widget_dictionary example_field example_page example_space
      example_document
    = Ok (set_widget_dictionary example_field w) h' ∧
    dget h' s "Bytes" = Some (VBytes bytes) ∧
    stored_decompress bytes
    = Some (String.list_byte_of_string "/Tx BMC EMC").
Proof.
  split; [reflexivity|].
  destruct (@C9_appearance_stream_compression example_collaborators
              example_field example_page example_space example_document
              example_catalog stored_decompress)
    as (w & h' & s & bytes & H1 & _ & H2 & _ & _ & _ & H3);
    [reflexivity | reflexivity | by vm_compute | by vm_compute |].
  exists w, h', s, bytes. by split_and!.
Defined.

(** C10 at the example: the painted field, attached on the first page,
    laid out on the second. *)
Lemma C10_repaint_on_any_page_witness :
  _widget_dictionary example_painted_field = Some example_widget ∧
  widget_shape example_painted example_widget example_bbox example_rect = true ∧
  example_page ≠ second_page ∧
  _paint_content_box example_painted_field second_page example_space
    example_painted
  = _paint_content_box example_painted_field example_page example_space
      example_painted ∧
  annots_of
    (relayout example_painted_field
       (_get_content_box example_painted_field example_space)
       example_bbox example_rect example_painted) second_page
  = annots_of example_painted second_page.
Proof.
  split; [reflexivity|]. split; [by vm_compute|]. split; [by vm_compute|].
  destruct (C10_repaint_on_any_page example_painted_field example_page
              second_page example_space example_painted example_widget
              example_bbox example_rect)
    as (_ & H1 & H2 & _);
    [reflexivity | by vm_compute |].
  split; [exact H1 | apply H2].
Defined.

(* ================================================================== *)
(** ** Rounding to the precision of the context *)
(* ================================================================== *)

Open Scope Z_scope.

(** A positive coefficient of [n] digits is at least [10 ^ (n - 1)]. *)
Lemma ndigits_fuel_lower fuel c :
  1 ≤ c → 1 ≤ ndigits_fuel fuel c ∧ 10 ^ (ndigits_fuel fuel c - 1) ≤ c.
Proof.
  revert c. induction fuel as [|f IH]; intros c Hc; simpl.
  - split; [lia|]. simpl. lia.
  - destruct (c <? 10) eqn:E.
    + split; [lia|]. simpl. lia.
    + apply Z.ltb_ge in E.
      assert (1 ≤ c / 10) as H1 by (apply Z.div_le_lower_bound; lia).
      destruct (IH (c / 10) H1) as [Hn Hp]. split; [lia|].
      replace (1 + ndigits_fuel f (c / 10) - 1)
        with (Z.succ (ndigits_fuel f (c / 10) - 1)) by lia.
      rewrite Z.pow_succ_r by lia.
      pose proof (Z.mul_div_le c 10). lia.
Qed.

Lemma ndigits_lower c : 1 ≤ c → 10 ^ (ndigits c - 1) ≤ c.
Proof.
  intros Hc. unfold ndigits. rewrite Z.abs_eq by lia.
  by apply ndigits_fuel_lower.
Qed.

(** Dropping [k] digits half-even: the quotient or its successor, and at
    most half a unit of the digit kept away from the number. *)
Lemma round_half_even_bound c k :
  0 ≤ c → 0 ≤ k →
  c / 10 ^ k ≤ round_half_even c k ∧
  2 * (round_half_even c k * 10 ^ k) ≤ 2 * c + 10 ^ k ∧
  2 * c ≤ 2 * (round_half_even c k * 10 ^ k) + 10 ^ k.
Proof.
  intros Hc Hk. unfold round_half_even.
  assert (0 < 10 ^ k) as Hp by (apply Z.pow_pos_nonneg; lia).
  pose proof (Z.div_mod c (10 ^ k) ltac:(lia)) as Hdm.
  pose proof (Z.mod_pos_bound c (10 ^ k) Hp) as Hm.
  assert (0 ≤ c / 10 ^ k) as Hq by (apply Z.div_pos; lia).
  set (q := c / 10 ^ k) in *. set (r := c mod 10 ^ k) in *.
  set (p := 10 ^ k) in *.
  destruct ((2 * r >? p) || ((2 * r =? p) && Z.odd q)) eqn:E.
  - assert (p ≤ 2 * r) as Hr.
    { apply orb_true_iff in E as [E|E].
      - apply Z.gtb_lt in E. lia.
      - apply andb_true_iff in E as [E _]. apply Z.eqb_eq in E. lia. }
    split; [lia|]. split; nia.
  - assert (2 * r ≤ p) as Hr.
    { apply orb_false_iff in E as [E _]. rewrite Z.gtb_ltb in E.
      apply Z.ltb_ge in E. lia. }
    split; [lia|]. split; nia.
Qed.


(** Rounding a positive number to the precision keeps it positive, does
    not lower its exponent, and moves its value by at most one part in
    [2 * 10 ^ 27]. *)
Lemma Decimal_fix_bound c e :
  0 < c →
  let d := Decimal_fix (mkDecimal c e) in
  e ≤ expo d ∧ 0 < coef d ∧
  2 * 10 ^ 27 * scaled d e ≤ (2 * 10 ^ 27 + 1) * c ∧
  (2 * 10 ^ 27 - 1) * c ≤ 2 * 10 ^ 27 * scaled d e.
Proof.
  intros Hc. unfold Decimal_fix. simpl coef. simpl expo.
  destruct (c =? 0) eqn:E0; [apply Z.eqb_eq in E0; lia|]. simpl orb.
  destruct (ndigits c <=? prec) eqn:En.
  - unfold scaled. simpl. rewrite Z.sub_diag. simpl. split_and!; lia.
  - apply Z.leb_gt in En. unfold prec in *.
    set (n := ndigits c) in *. set (k := n - 28).
    assert (0 < k) as Hk by (unfold k; lia).
    rewrite (Z.abs_eq c) by lia. rewrite Z.sgn_pos by lia.
    destruct (round_half_even_bound c k ltac:(lia) ltac:(lia))
      as (Hq0 & Hq & Hq').
    pose proof (ndigits_lower c ltac:(lia)) as Hlow. fold n in Hlow.
    assert (10 ^ (n - 1) = 10 ^ k * 10 ^ 27) as Hsplit.
    { rewrite <- Z.pow_add_r by lia. f_equal. unfold k. lia. }
    assert (0 < 10 ^ k) as Hp by (apply Z.pow_pos_nonneg; lia).
    set (q := round_half_even c k) in *.
    destruct (q =? 10 ^ 28) eqn:Eq.
    + apply Z.eqb_eq in Eq. unfold scaled. simpl coef. simpl expo.
      replace (e + k + 1 - e) with (k + 1) by lia.
      rewrite Z.pow_add_r by lia.
      rewrite Eq in Hq, Hq'. change (10 ^ (28 - 1)) with (10 ^ 27).
      change (10 ^ 28) with (10 * 10 ^ 27) in Hq, Hq'.
      set (p := 10 ^ k) in *. set (t := 10 ^ 27) in *.
      assert (0 < t) by (unfold t; lia).
      change (10 ^ 1) with 10. rewrite Hsplit in Hlow. fold p t in Hlow.
      assert (2 * (10 * t * p) * t ≤ (2 * c + p) * t) as Hmul
        by (apply Z.mul_le_mono_nonneg_r; lia).
      assert (2 * c * t ≤ (2 * (10 * t * p) + p) * t) as Hmul'
        by (apply Z.mul_le_mono_nonneg_r; lia).
      split_and!; lia.
    + apply Z.eqb_neq in Eq. unfold scaled. simpl coef. simpl expo.
      replace (e + k - e) with k by lia.
      rewrite Hsplit in Hlow.
      assert (10 ^ 27 ≤ c / 10 ^ k) as Hdiv
        by (apply Z.div_le_lower_bound; lia).
      set (p := 10 ^ k) in *. set (t := 10 ^ 27) in *.
      assert (0 < t) by (unfold t; lia).
      assert (2 * (q * p) * t ≤ (2 * c + p) * t) as Hmul
        by (apply Z.mul_le_mono_nonneg_r; lia).
      assert (2 * c * t ≤ (2 * (q * p) + p) * t) as Hmul'
        by (apply Z.mul_le_mono_nonneg_r; lia).
      split_and!; lia.
Qed.

Lemma Decimal_cmp_refl a : Decimal_cmp a a = Eq.
Proof. unfold Decimal_cmp. apply Z.compare_refl. Qed.

(** [d >= 0] holds exactly when the coefficient is not negative. *)
Lemma Decimal_geb_zero d : Decimal_geb d (Decimal_of_int 0) = true ↔ 0 ≤ coef d.
Proof.
  unfold Decimal_geb, Decimal_cmp. simpl. rewrite Z.mul_0_l.
  assert (0 < 10 ^ (expo d - Z.min (expo d) 0)) as Hp
    by (apply Z.pow_pos_nonneg; lia).
  set (p := 10 ^ (expo d - Z.min (expo d) 0)) in *.
  destruct (Z.lt_ge_cases (coef d) 0) as [Hn|Hn].
  - assert (coef d * p < 0) as Hlt by (apply Z.mul_neg_pos; lia).
    apply Z.compare_lt_iff in Hlt. rewrite Hlt. split; [done|lia].
  - assert (0 ≤ coef d * p) as Hge by (apply Z.mul_nonneg_nonneg; lia).
    apply Z.compare_ge_iff in Hge.
    destruct (coef d * p ?= 0); done.
Qed.

Close Scope Z_scope.

(* ================================================================== *)
(** ** More about a synthesis *)
(* ================================================================== *)

Lemma bind_raise {A B} (m : M A) (f : A → M B) h e :
  m h = Raise e → bind m f h = Raise e.
Proof. unfold bind. by intros ->. Qed.

(** [recv[k]] on a dictionary without the key. *)
Lemma py_getitem_missing h l k :
  is_dict h l = true → dget h l k = None → py_getitem (VRef l) k h = Raise KeyError.
Proof. intros Hd Hn. unfold py_getitem. by rewrite Hd, Hn. Qed.

Lemma lget_lookup (h : heap) l xs :
  lget h l = Some xs → ∃ a, h !! l = Some (OList a xs).
Proof.
  unfold lget. destruct (h !! l) as [[|a ys]|]; try done.
  intros [= ->]. by exists a.
Qed.


Lemma flags_of_lookup (h : heap) l o :
  h !! l = Some o →
  flags_of h l = Some (is_unique (obj_attrs o), is_inline (obj_attrs o)).
Proof. intros Hl. unfold flags_of. by rewrite Hl. Qed.

Lemma class_of_lookup (h : heap) l c a es :
  h !! l = Some (ODict c a es) → class_of h l = Some c.
Proof. intros Hl. unfold class_of. by rewrite Hl. Qed.

Section SynthesisMore.

Context `{Collaborators}.

Lemma set_widget_dictionary_inj (self : TextField) w w' :
  set_widget_dictionary self w = set_widget_dictionary self w' → w = w'.
Proof. by intros [= ->]. Qed.

(** The synthesis once more, for what [synthesized] leaves open: the
    field name, which is computed in a store [hT] that has the six new
    objects and the old ones as the font registrar left them, and the
    annotation array and the form registry when the synthesis creates
    them. *)
Lemma synthesis_run_more self page box h h_a fname root xr tr cat rs fd vx :
  _widget_dictionary self = None →
  get_root_fuel (length h) h page = Some root →
  dget h root "XRef" = Some vx →
  _get_font_resource_name (StandardType1Font "Helvetica") page h = Ok fname h_a →
  length h ≤ length h_a →
  (∀ l, l < length h → get_parent h_a l = get_parent h l) →
  dget h_a page "Resources" = Some (VRef rs) →
  dget h_a rs "Font" = Some (VRef fd) →
  dget h_a root "XRef" = Some (VRef xr) →
  dget h_a xr "Trailer" = Some (VRef tr) →
  dget h_a tr "Root" = Some (VRef cat) →
  is_dict h_a cat = true →
  is_dict h_a page = true →
  annots_typed h_a page = true →
  acroform_typed h_a cat = true →
  annots_fields_apart h_a page cat = true →
  ∃ h' tname hT al af,
    _init_widget_dictionary self page box h
    = Ok (set_widget_dictionary self (length h_a + 4)) h' ∧
    dget h' (length h_a + 4) "T" = Some (VString tname) ∧
    field_name_or_auto (set_widget_dictionary self (length h_a + 4)) page hT
    = Ok tname hT ∧
    length hT = length h_a + 6 ∧
    (∀ l, l < length h_a → dentries hT l = dentries h_a l) ∧
    (∀ l, l < length h_a → lget hT l = lget h_a l) ∧
    dget h' page "Annots" = Some (VRef al) ∧
    (dget h_a page "Annots" = None →
     length h_a ≤ al ∧
     h' !! al = Some (OList no_attrs [VRef (length h_a + 4)])) ∧
    dget h' cat "AcroForm" = Some (VRef af) ∧
    (dget h_a cat "AcroForm" = None →
     length h_a ≤ af ∧
     ∃ fl, length h_a ≤ fl ∧
       h' !! af = Some (ODict ClsDictionary no_attrs
                          [("Fields", VRef fl); ("DR", VRef (length h_a));
                           ("NeedAppearances", VBoolean true)]) ∧
       h' !! fl = Some (OList no_attrs [VRef (length h_a + 4)])) ∧
    length h'
    = length h_a + 6
      + (match dget h_a page "Annots" with Some _ => 0 | None => 1 end)
      + (match dget h_a cat "AcroForm" with Some _ => 0 | None => 2 end).
Proof.
  intros Hw Hroot Hx Hreg Hlen Hpar Hrs Hfd Hax Hat Hac Hcat Hpage Hann Hacro Hapart.
  unfold annots_typed in Hann. unfold acroform_typed in Hacro.
  unfold annots_fields_apart, annots_of, fields_of, acroform_of in Hapart.
  destruct (dget h_a page "Annots") as [[| | | | | |al]|] eqn:Ha; try done;
  destruct (dget h_a cat "AcroForm") as [[| | | | | |af]|] eqn:Hf; try done;
  try (destruct (dget h_a af "Fields") as [[| | | | | |fl]|] eqn:Hfl; try done;
       destruct (is_list_lget _ _ Hacro) as [fs Hfs]);
  try destruct (is_list_lget _ _ Hann) as [xs Hxs];
  try (apply bool_decide_eq_true in Hapart);
  old_bounds;
  (eexists _, _, _, _, _; split;
   [ unfold _init_widget_dictionary; rewrite Hw;
     eapply bind_run; [mrun|];
     eapply bind_run; [mrun|]; cbv beta iota zeta; simpl negb; cbv iota;
     eapply bind_run; [exact Hreg|];
     mruns; simpl negb; cbv iota;
     mruns; simpl negb; cbv iota;
     mruns; reflexivity
   | split; [hread|];
     split; [reflexivity|];
     split; [hleneq|];
     split; [intros; hsolve|];
     split; [intros; hsolve|];
     split; [hread|];
     split; [first [ by intros [=] | intros _; split; [lia | hread] ]|];
     split; [hread|];
     split;
     [ first [ by intros [=]
             | intros _; split; [lia|]; eexists; split; [|split; hread]; lia ]
     | cbv beta iota; hleneq ] ]).
Qed.


(** The same for an attachable page, in terms of the store before the
    call. *)
Lemma synthesis_more self page box h cat :
  _widget_dictionary self = None →
  attachable h page = true →
  catalog_of h page = Some cat →
  ∃ w h' tname hT al af,
    _init_widget_dictionary self page box h
    = Ok (set_widget_dictionary self w) h' ∧
    length h + 4 ≤ w ∧
    dget h' w "T" = Some (VString tname) ∧
    field_name_or_auto (set_widget_dictionary self w) page hT = Ok tname hT ∧
    length h ≤ length hT ∧
    (∀ l, l < length h → lget hT l = lget h l) ∧
    (∀ l k, l < length h → not_a_font_key k → dget hT l k = dget h l k) ∧
    dget h' page "Annots" = Some (VRef al) ∧
    (dget h page "Annots" = None →
     length h ≤ al ∧ h' !! al = Some (OList no_attrs [VRef w])) ∧
    dget h' cat "AcroForm" = Some (VRef af) ∧
    (dget h cat "AcroForm" = None →
     length h ≤ af ∧
     ∃ fl, length h ≤ fl ∧
       h' !! af = Some (ODict ClsDictionary no_attrs
                          [("Fields", VRef fl); ("DR", VRef (w - 4));
                           ("NeedAppearances", VBoolean true)]) ∧
       h' !! fl = Some (OList no_attrs [VRef w])) ∧
    ∃ h_a fname,
      _get_font_resource_name (StandardType1Font "Helvetica") page h
      = Ok fname h_a ∧
      w = length h_a + 4 ∧
      length h'
      = length h_a + 6
        + (match dget h page "Annots" with Some _ => 0 | None => 1 end)
        + (match dget h cat "AcroForm" with Some _ => 0 | None => 2 end).
Proof.
  intros Hw Hatt Hcat. unfold attachable in Hatt. rewrite Hcat in Hatt.
  rewrite !andb_true_iff in Hatt.
  destruct Hatt as [[[Hpage Hres] Hann] [Hacro Hapart]].
  destruct (catalog_of_Some _ _ _ Hcat) as (root & xr & tr & Hroot & Hx & Ht & Hc & Hcd).
  destruct (get_font_resource_name_spec h page (StandardType1Font "Helvetica") Hpage Hres)
    as (fname & h_a & rs & fd & Hreg & Hrs & Hfd & Hfdd & Hregname & Hpres & Hgrow & Hnew1).
  pose proof Hpres as (Hlen & Hpar & _ & Hlists & Hkeys).
  pose proof (is_dict_lt _ _ Hpage) as Hpl. pose proof (is_dict_lt _ _ Hcd) as Hcl.
  assert (dget h_a page "Annots" = dget h page "Annots") as HkA.
  { apply (preserves_dget _ _ _ _ _ Hpres); [done|]. key_const. }
  assert (dget h_a cat "AcroForm" = dget h cat "AcroForm") as HkF.
  { apply (preserves_dget _ _ _ _ _ Hpres); [done|]. key_const. }
  assert (annots_of h_a page = annots_of h page) as HeA.
  { unfold annots_of. by rewrite HkA. }
  assert (acroform_of h_a cat = acroform_of h cat) as HeC.
  { unfold acroform_of. by rewrite HkF. }
  assert (∀ af v, dget h cat "AcroForm" = Some (VRef af) →
          dget h af "Fields" = Some v → dget h_a af "Fields" = Some v) as HkFl.
  { intros af v _ Hv. rewrite (preserves_dget _ _ _ _ _ Hpres); [done | |].
    - eapply is_dict_lt, dget_is_dict, Hv.
    - key_const. }
  assert (fields_of h_a cat = fields_of h cat) as HeF.
  { unfold fields_of. rewrite HeC. unfold acroform_of, acroform_typed in *.
    destruct (dget h cat "AcroForm") as [[| | | | | |af]|] eqn:E; try done.
    destruct (dget h af "Fields") as [v|] eqn:E'; [|done].
    by rewrite (HkFl af v). }
  assert (annots_typed h_a page = true) as Hann_a.
  { unfold annots_typed in *. rewrite HkA.
    destruct (dget h page "Annots") as [[| | | | | |al]|]; try done.
    by eapply preserves_is_list. }
  assert (acroform_typed h_a cat = true) as Hacro_a.
  { unfold acroform_typed in *. rewrite HkF.
    destruct (dget h cat "AcroForm") as [[| | | | | |af]|] eqn:E; try done.
    destruct (dget h af "Fields") as [v|] eqn:E'; [|done].
    rewrite (HkFl af v) by done.
    destruct v; try done. by eapply preserves_is_list. }
  assert (annots_fields_apart h_a page cat = true) as Hapart_a.
  { unfold annots_fields_apart. by rewrite HeA, HeF. }
  destruct (synthesis_run_more self page box h h_a fname root xr tr cat rs fd (VRef xr))
    as (h' & tname & hT & al & af & Hrun & HT & Hname & HlenT & HTd & HTl & HA
        & HAnew & HF & HFnew & Hcount);
    try done; try (by eapply grows_dget); try (by eapply grows_is_dict).
  exists (length h_a + 4), h', tname, hT, al, af.
  split_and!; try done; try lia.
  - intros l Hl. rewrite HTl by lia. by apply Hlists.
  - intros l k Hl Hk. unfold dget at 1. rewrite HTd by lia.
    by apply Hkeys.
  - intros Hn. rewrite <- HkA in Hn. destruct (HAnew Hn). split; [lia|done].
  - intros Hn. rewrite <- HkF in Hn. destruct (HFnew Hn) as (? & fl & ? & ? & ?).
    split; [lia|]. exists fl. split; [lia|].
    by replace (length h_a + 4 - 4) with (length h_a) by lia.
  - exists h_a, fname. by rewrite <- HkA, <- HkF.
Qed.



(** Everything known about a synthesis on an attachable page. *)
Lemma synthesis_full self page box h cat :
  _widget_dictionary self = None →
  attachable h page = true →
  catalog_of h page = Some cat →
  ∃ w h' tname hT al af,
    _init_widget_dictionary self page box h
    = Ok (set_widget_dictionary self w) h' ∧
    synthesized self page cat box h h' w ∧
    dget h' w "T" = Some (VString tname) ∧
    field_name_or_auto (set_widget_dictionary self w) page hT = Ok tname hT ∧
    length h ≤ length hT ∧
    (∀ l, l < length h → lget hT l = lget h l) ∧
    (∀ l k, l < length h → not_a_font_key k → dget hT l k = dget h l k) ∧
    dget h' page "Annots" = Some (VRef al) ∧
    (dget h page "Annots" = None →
     length h ≤ al ∧ h' !! al = Some (OList no_attrs [VRef w])) ∧
    dget h' cat "AcroForm" = Some (VRef af) ∧
    (dget h cat "AcroForm" = None →
     length h ≤ af ∧
     ∃ fl, length h ≤ fl ∧
       h' !! af = Some (ODict ClsDictionary no_attrs
                          [("Fields", VRef fl); ("DR", VRef (w - 4));
                           ("NeedAppearances", VBoolean true)]) ∧
       h' !! fl = Some (OList no_attrs [VRef w])) ∧
    ∃ h_a fname,
      _get_font_resource_name (StandardType1Font "Helvetica") page h
      = Ok fname h_a ∧
      w = length h_a + 4 ∧
      length h'
      = length h_a + 6
        + (match dget h page "Annots" with Some _ => 0 | None => 1 end)
        + (match dget h cat "AcroForm" with Some _ => 0 | None => 2 end).
Proof.
  intros Hw Hatt Hcat.
  destruct (synthesis self page box h cat Hw Hatt Hcat) as (w & h' & Hrun & Hs).
  destruct (synthesis_more self page box h cat Hw Hatt Hcat)
    as (w' & h'' & tname & hT & al & af & Hrun' & Hmore).
  rewrite Hrun in Hrun'. apply Ok_inj in Hrun' as [Hw' <-].
  apply set_widget_dictionary_inj in Hw' as <-.
  destruct Hmore as (_ & Hmore).
  exists w, h', tname, hT, al, af. split; [done|]. split; [done|]. exact Hmore.
Qed.


(** The annotation array and the field list after a synthesis are the
    arrays that were there, or new ones. *)
Lemma synthesis_arrays self page box h cat :
  _widget_dictionary self = None →
  attachable h page = true →
  catalog_of h page = Some cat →
  ∃ w h' al fl,
    _init_widget_dictionary self page box h
    = Ok (set_widget_dictionary self w) h' ∧
    synthesized self page cat box h h' w ∧
    annots_of h' page = Some al ∧
    fields_of h' cat = Some fl ∧
    lget h' al = Some (items_of h (annots_of h page) ++ [VRef w]) ∧
    lget h' fl = Some (items_of h (fields_of h cat) ++ [VRef w]) ∧
    (∀ l xs, lget h l = Some xs → l ≠ al → l ≠ fl → lget h' l = Some xs) ∧
    (annots_of h page = Some al ∨ annots_of h page = None ∧ length h ≤ al) ∧
    (fields_of h cat = Some fl ∨ fields_of h cat = None ∧ length h ≤ fl).
Proof.
  intros Hw Hatt Hcat.
  destruct (synthesis_full self page box h cat Hw Hatt Hcat)
    as (w & h' & tname' & hT & al & af & Hrun & Hs & _ & _ & _ & _ & _ & HA
        & HAnew & HF & HFnew & _).
  pose proof Hs as (h_a & fname & tname & fd & al' & af' & fl & _ & _ & _ & _
                    & _ & _ & _ & Hregd & Hkept & _).
  destruct Hregd as (HA' & HAl & HF' & HFl & HFll & _ & Hne).
  rewrite HA in HA'. injection HA' as <-.
  rewrite HF in HF'. injection HF' as <-.
  destruct Hkept as (_ & _ & Hg & Hlists).
  unfold attachable in Hatt. rewrite Hcat in Hatt.
  rewrite !andb_true_iff in Hatt.
  destruct Hatt as [[[Hpage Hres] Hann] [Hacro Hapart]].
  exists w, h', al, fl. split_and!; try done.
  - unfold annots_of. by rewrite HA.
  - unfold fields_of, acroform_of. by rewrite HF, HFl.
  - unfold annots_of, annots_typed in *.
    destruct (dget h page "Annots") as [[| | | | | |a0]|] eqn:E; try done.
    + left. rewrite (grows_dget _ _ _ _ _ Hg E) in HA. by injection HA as ->.
    + right. split; [done|]. by destruct (HAnew eq_refl).
  - unfold fields_of, acroform_of, acroform_typed in *.
    destruct (dget h cat "AcroForm") as [[| | | | | |a0]|] eqn:E; try done.
    + rewrite (grows_dget _ _ _ _ _ Hg E) in HF. injection HF as ->.
      destruct (dget h af "Fields") as [[| | | | | |f0]|] eqn:E'; try done.
      left. rewrite (grows_dget _ _ _ _ _ Hg E') in HFl. by injection HFl as ->.
    + right. split; [done|]. destruct (HFnew eq_refl) as (_ & fl' & ? & Haf & _).
      rewrite (dget_of_lookup _ _ _ _ _ _ Haf) in HFl. simpl in HFl.
      by injection HFl as <-.
Qed.


(** The font registrar leaves the entries under other keys, the arrays
    and the kinds of the objects as they are. *)
Lemma synthesized_registrar self page cat box h h' w :
  attachable h page = true →
  synthesized self page cat box h h' w →
  ∃ h_a fname,
    _get_font_resource_name (StandardType1Font "Helvetica") page h = Ok fname h_a ∧
    preserves not_a_font_key h h_a ∧
    (∀ l, l < length h_a → l ≠ page → l ≠ cat → dentries h' l = dentries h_a l).
Proof.
  intros Hatt (h_a & fname & tname & fd & al & af & fl & Hreg & _ & _ & _ & _ & _
               & _ & _ & _ & _ & Hother & _).
  unfold attachable in Hatt. rewrite !andb_true_iff in Hatt.
  destruct Hatt as [[[Hpage Hres] _] _].
  destruct (get_font_resource_name_spec h page (StandardType1Font "Helvetica") Hpage Hres)
    as (fname' & h_a' & rs & fd' & Hreg' & _ & _ & _ & _ & Hpres & _).
  rewrite Hreg in Hreg'. apply Ok_inj in Hreg' as [<- <-].
  by exists h_a, fname.
Qed.


End SynthesisMore.

(* ================================================================== *)
(** ** More about the geometry update *)
(* ================================================================== *)

Section RelayoutMore.

Context `{Collaborators}.

(** The two arrays after the geometry update, as objects. *)
Lemma relayout_lookup_bbox self cbox bbox rect h a bs :
  bbox ≠ rect → h !! bbox = Some (OList a bs) →
  relayout self cbox bbox rect h !! bbox
  = Some (OList a (<[3 := VDecimal (_font_size self)]>
                     (<[2 := VDecimal (width cbox)]> bs))).
Proof.
  intros Hne Hb. assert (rect ≠ bbox) by done. unfold relayout.
  etrans; [hsolve|]. done.
Qed.

Lemma relayout_lookup_rect self cbox bbox rect h a rs :
  bbox ≠ rect → h !! rect = Some (OList a rs) →
  relayout self cbox bbox rect h !! rect
  = Some (OList a
            (<[3 := VDecimal (Decimal_add (y cbox) (height cbox))]>
               (<[2 := VDecimal (Decimal_add (x cbox) (width cbox))]>
                  (<[1 := VDecimal (y cbox)]>
                     (<[0 := VDecimal (x cbox)]> rs))))).
Proof.
  intros Hne Hb. assert (rect ≠ bbox) by done. unfold relayout.
  etrans; [hsolve|]. done.
Qed.


(** A second update overwrites the first. *)
Lemma relayout_relayout self c1 c2 bbox rect h bs rs :
  bbox ≠ rect → lget h bbox = Some bs → lget h rect = Some rs →
  length bs = 4 → length rs = 4 →
  relayout self c2 bbox rect (relayout self c1 bbox rect h)
  = relayout self c2 bbox rect h.
Proof.
  intros Hne Hbs Hrs Hlb Hlr.
  destruct (lget_lookup _ _ _ Hbs) as [ab Hb].
  destruct (lget_lookup _ _ _ Hrs) as [ar Hr].
  apply list_eq. intros l.
  destruct (decide (l = bbox)) as [->|Hnb];
    [|destruct (decide (l = rect)) as [->|Hnr]].
  - rewrite (relayout_lookup_bbox _ _ _ _ _ _ _ Hne
               (relayout_lookup_bbox _ c1 _ _ _ _ _ Hne Hb)).
    rewrite (relayout_lookup_bbox _ _ _ _ _ _ _ Hne Hb).
    by destruct bs as [|? [|? [|? [|? [|]]]]].
  - rewrite (relayout_lookup_rect _ _ _ _ _ _ _ Hne
               (relayout_lookup_rect _ c1 _ _ _ _ _ Hne Hr)).
    rewrite (relayout_lookup_rect _ _ _ _ _ _ _ Hne Hr).
    by destruct rs as [|? [|? [|? [|? [|]]]]].
  - by rewrite !relayout_other.
Qed.

End RelayoutMore.

(* ================================================================== *)
(** ** The constructor and the content box, for every field *)
(* ================================================================== *)

Open Scope Z_scope.

Section GeometryExtras.

Context `{Collaborators}.

(** X1: [TextField.__init__] (its base-class initialiser having
    returned) fails its assertion exactly for a font size whose
    coefficient is negative, whatever the exponent; for any other font
    size, zero included, it returns a field that has no widget
    dictionary and holds the arguments as given, and the content box of
    such a field never has a negative height. *)
Theorem X1_init_accepts_nonnegative_font_size
    (default_value : string) (field_name : option string) (font_color : Color)
    (font_size : Decimal) (value : string) :
  (coef font_size < 0 ∧
   TextField__init__ default_value field_name font_color font_size value = None)
  ∨
  (0 ≤ coef font_size ∧
   ∃ self,
     TextField__init__ default_value field_name font_color font_size value
     = Some self ∧
     _widget_dictionary self = None ∧
     _font_size self = font_size ∧ _font_color self = font_color ∧
     _value self = value ∧ _default_value self = default_value ∧
     _field_name self = field_name ∧
     ∀ space,
       Decimal_geb (height (_get_content_box self space)) (Decimal_of_int 0)
       = true).
Proof.
  unfold TextField__init__.
  destruct (Decimal_geb font_size (Decimal_of_int 0)) eqn:E.
  - apply Decimal_geb_zero in E. right. split; [done|].
    eexists. split; [done|]. split_and!; try done.
    intros space. apply Decimal_geb_zero. simpl. unfold Decimal_mul.
    destruct (decide (coef font_size = 0)) as [E0|E0].
    + rewrite E0. by simpl.
    + destruct Decimal_1_2_value as [-> _]. simpl coef. simpl expo.
      destruct (Decimal_fix_bound
                  (coef font_size
                   * 11999999999999999555910790149937383830547332763671875)
                  (expo font_size + -52) ltac:(lia)) as (_ & Hpos & _).
      lia.
  - left. split; [|done].
    destruct (Z.lt_ge_cases (coef font_size) 0) as [|Hge]; [done|].
    apply Decimal_geb_zero in Hge. congruence.
Qed.

(** X2: for every field and every available space the content box
    starts at the [x] of the space, and its width is [max(width, 64)] as
    Python computes it: at least 64 and at least the available width;
    the available width itself (the same decimal) when that is 64 or
    more, and [Decimal(64)] when it is less. *)
Theorem X2_content_box_width_is_max (self : TextField) (space : Rectangle) :
  let cbox := _get_content_box self space in
  x cbox = x space ∧
  Decimal_geb (width cbox) (Decimal_of_int 64) = true ∧
  Decimal_geb (width cbox) (width space) = true ∧
  (Decimal_geb (width space) (Decimal_of_int 64) = true →
   width cbox = width space) ∧
  (Decimal_geb (width space) (Decimal_of_int 64) = false →
   width cbox = Decimal_of_int 64).
Proof.
  simpl. unfold py_max, Decimal_gtb, Decimal_geb.
  pose proof (Decimal_cmp_antisym (width space) (Decimal_of_int 64)) as Ha.
  destruct (Decimal_cmp (width space) (Decimal_of_int 64)) eqn:E;
    rewrite Ha; simpl; rewrite ?Decimal_cmp_refl, ?E, ?Ha; simpl;
    split_and!; done.
Qed.


End GeometryExtras.

Close Scope Z_scope.

(* ================================================================== *)
(** ** What a synthesis writes, for every field and page *)
(* ================================================================== *)

Section AttachExtras.

Context `{Collaborators}.

(** X4: the widget dictionary of a synthesis is a plain dictionary with
    exactly these twelve entries, in this order: [Type = Annot],
    [Subtype = Widget], [F = 4], [Rect], [FT = Tx], [P], [T], [V] (the
    value of the field), [DV] (its default value), [DR], [DA] (built from
    the colour, the font resource name and the font size) and [AP]; the
    appearance dictionary has the one entry [N], a stream, and the
    resources dictionary the one entry [Font], the font dictionary of
    the page. *)
Theorem X4_attach_widget_entries self page box h cat :
  _widget_dictionary self = None →
  attachable h page = true →
  catalog_of h page = Some cat →
  ∃ w h' rect r ap s fd tname fname,
    _init_widget_dictionary self page box h
    = Ok (set_widget_dictionary self w) h' ∧
    dentries h' w
    = Some [("Type", VName "Annot"); ("Subtype", VName "Widget");
            ("F", VDecimal (Decimal_of_int 4)); ("Rect", VRef rect);
            ("FT", VName "Tx"); ("P", VRef cat); ("T", VString tname);
            ("V", VString (_value self));
            ("DV", VString (_default_value self));
            ("DR", VRef r);
            ("DA", VString (format_DA (_font_color self) fname
                                      (_font_size self)));
            ("AP", VRef ap)] ∧
    dentries h' ap = Some [("N", VRef s)] ∧
    dentries h' r = Some [("Font", VRef fd)] ∧
    fonts_of h' page = Some fd ∧
    is_list h' rect = true ∧
    class_of h' w = Some ClsDictionary ∧
    class_of h' s = Some ClsStream.
Proof.
  intros Hw Hatt Hcat.
  destruct (synthesis self page box h cat Hw Hatt Hcat) as (w & h' & Hrun & Hs).
  destruct Hs as (h_a & fname & tname & fd & al & af & fl & _ & _ & -> & _
                  & Hnew & Hfonts & _).
  destruct Hnew as (Hr & Hst & Hbb & Hap & Hwd & Hrc).
  exists (length h_a + 4), h', (length h_a + 5), (length h_a), (length h_a + 3),
    (length h_a + 1), fd, tname, fname.
  split_and!; try done.
  - by rewrite (dentries_of_lookup _ _ _ _ _ Hwd).
  - by rewrite (dentries_of_lookup _ _ _ _ _ Hap).
  - by rewrite (dentries_of_lookup _ _ _ _ _ Hr).
  - by eapply is_list_of_lookup.
  - by eapply class_of_lookup.
  - by eapply class_of_lookup.
Qed.

(** X5: the [T] entry of the widget is the field name when the field
    has a non-empty one; when the name is [None] or the empty string
    (Python's [or]) it is the generated name, computed in a store [hT]
    in which the arrays that existed, and every entry under a key the
    font registrar does not write, are as before the call: the widget is
    not yet in any annotation array or field list when the name is
    generated. *)
Theorem X5_attach_field_name self page box h cat :
  _widget_dictionary self = None →
  attachable h page = true →
  catalog_of h page = Some cat →
  ∃ w h' hT,
    _init_widget_dictionary self page box h
    = Ok (set_widget_dictionary self w) h' ∧
    (∀ name, _field_name self = Some name → name ≠ "" →
             dget h' w "T" = Some (VString name)) ∧
    (_field_name self = None ∨ _field_name self = Some "" →
     dget h' w "T"
     = Some (VString (_get_auto_generated_field_name hT page))) ∧
    length h ≤ length hT ∧
    (∀ l, l < length h → lget hT l = lget h l) ∧
    (∀ l k, l < length h → not_a_font_key k → dget hT l k = dget h l k).
Proof.
  intros Hw Hatt Hcat.
  destruct (synthesis_full self page box h cat Hw Hatt Hcat)
    as (w & h' & tname & hT & al & af & Hrun & _ & HT & Hname & HlenT & HTl
        & HTd & _).
  exists w, h', hT. unfold field_name_or_auto in Hname. simpl in Hname.
  injection Hname as Hname. rewrite HT, <- Hname.
  split_and!; try done.
  - intros name -> Hne. by destruct name.
  - by intros [->| ->].
Qed.

(** X6: the geometry a synthesis alone writes (before any geometry
    update): the appearance stream is a form XObject whose [/BBox] is
    [0, 0, box.width, font_size], and the [/Rect] of the widget is
    [x, y + height - font_size, x + width, y + height]: a strip of the
    height of the font size at the top of the layout box.  The two are
    different arrays. *)
Theorem X6_attach_geometry self page box h cat :
  _widget_dictionary self = None →
  attachable h page = true →
  catalog_of h page = Some cat →
  ∃ w h' s bbox rect,
    _init_widget_dictionary self page box h
    = Ok (set_widget_dictionary self w) h' ∧
    appearance_of h' w = Some s ∧
    dget h' s "Type" = Some (VName "XObject") ∧
    dget h' s "Subtype" = Some (VName "Form") ∧
    array_of h' s "BBox" = Some bbox ∧
    array_of h' w "Rect" = Some rect ∧
    bbox ≠ rect ∧
    lget h' bbox
    = Some [VDecimal (Decimal_of_int 0); VDecimal (Decimal_of_int 0);
            VDecimal (width box); VDecimal (_font_size self)] ∧
    lget h' rect
    = Some [VDecimal (x box);
            VDecimal (Decimal_sub (Decimal_add (y box) (height box))
                                  (_font_size self));
            VDecimal (Decimal_add (x box) (width box));
            VDecimal (Decimal_add (y box) (height box))].
Proof.
  intros Hw Hatt Hcat.
  destruct (synthesis self page box h cat Hw Hatt Hcat) as (w & h' & Hrun & Hs).
  destruct (synthesized_widget_shape _ _ _ _ _ _ _ Hs)
    as (bbox & rect & _ & _ & Hshape & Hbs & Hrs).
  destruct (synthesized_stream _ _ _ _ _ _ _ Hs) as (s & Hap & _).
  pose proof Hshape as Hshape'.
  unfold widget_shape in Hshape'. rewrite Hap in Hshape'.
  rewrite !andb_true_iff, !bool_decide_eq_true in Hshape'.
  destruct Hshape' as [[[[Hb Hr] _] _] Hne].
  destruct Hs as (h_a & fname & tname & fd & al & af & fl & _ & _ & -> & _
                  & Hnew & _).
  pose proof (new_appearance_of _ _ _ _ _ _ _ _ Hnew) as Hap'.
  rewrite Hap in Hap'. injection Hap' as ->.
  exists (length h_a + 4), h', (length h_a + 1), bbox, rect.
  split_and!; try done.
  - by rewrite (new_stream_dget _ _ _ _ _ _ _ _ Hnew).
  - by rewrite (new_stream_dget _ _ _ _ _ _ _ _ Hnew).
Qed.

(** X7: the serialisation markers of the objects a synthesis creates:
    the resources dictionary, the appearance stream, the appearance
    dictionary and the widget dictionary are marked unique and not
    inline; the arrays [/BBox] and [/Rect] are marked inline and not
    unique; an annotation array or a form registry with its field list
    that the synthesis has to create carries neither mark. *)
Theorem X7_attach_marks_new_objects self page box h cat :
  _widget_dictionary self = None →
  attachable h page = true →
  catalog_of h page = Some cat →
  ∃ w h' r s ap bbox rect,
    _init_widget_dictionary self page box h
    = Ok (set_widget_dictionary self w) h' ∧
    dget h' w "DR" = Some (VRef r) ∧
    dget h' w "AP" = Some (VRef ap) ∧
    dget h' ap "N" = Some (VRef s) ∧
    dget h' s "BBox" = Some (VRef bbox) ∧
    dget h' w "Rect" = Some (VRef rect) ∧
    flags_of h' r = Some (true, false) ∧
    flags_of h' s = Some (true, false) ∧
    flags_of h' ap = Some (true, false) ∧
    flags_of h' w = Some (true, false) ∧
    flags_of h' bbox = Some (false, true) ∧
    flags_of h' rect = Some (false, true) ∧
    (dget h page "Annots" = None →
     ∃ al, dget h' page "Annots" = Some (VRef al) ∧
           flags_of h' al = Some (false, false)) ∧
    (dget h cat "AcroForm" = None →
     ∃ af fl, dget h' cat "AcroForm" = Some (VRef af) ∧
              dget h' af "Fields" = Some (VRef fl) ∧
              flags_of h' af = Some (false, false) ∧
              flags_of h' fl = Some (false, false)).
Proof.
  intros Hw Hatt Hcat.
  destruct (synthesis_full self page box h cat Hw Hatt Hcat)
    as (w & h' & tname' & hT & al & af & Hrun & Hs & _ & _ & _ & _ & _ & HA
        & HAnew & HF & HFnew & _).
  destruct Hs as (h_a & fname & tname & fd & al' & af' & fl & _ & _ & -> & _
                  & Hnew & _).
  pose proof Hnew as (Hr & Hst & Hbb & Hap & Hwd & Hrc).
  exists (length h_a + 4), h', (length h_a), (length h_a + 1), (length h_a + 3),
    (length h_a + 2), (length h_a + 5).
  split_and!; try done;
    try (by rewrite (new_widget_dget _ _ _ _ _ _ _ _ Hnew));
    try (by rewrite (new_stream_dget _ _ _ _ _ _ _ _ Hnew)).
  - by rewrite (dget_of_lookup _ _ _ _ _ _ Hap).
  - by rewrite (flags_of_lookup _ _ _ Hr).
  - by rewrite (flags_of_lookup _ _ _ Hst).
  - by rewrite (flags_of_lookup _ _ _ Hap).
  - by rewrite (flags_of_lookup _ _ _ Hwd).
  - by rewrite (flags_of_lookup _ _ _ Hbb).
  - by rewrite (flags_of_lookup _ _ _ Hrc).
  - intros Hn. destruct (HAnew Hn) as [_ Hal]. exists al. split; [done|].
    by rewrite (flags_of_lookup _ _ _ Hal).
  - intros Hn. destruct (HFnew Hn) as (_ & fl' & _ & Haf & Hfl).
    exists af, fl'. split_and!; try done.
    + by rewrite (dget_of_lookup _ _ _ _ _ _ Haf).
    + by rewrite (flags_of_lookup _ _ _ Haf).
    + by rewrite (flags_of_lookup _ _ _ Hfl).
Qed.

(** X8: the font the default appearance string [DA] names is
    available to the widget: [DA] is formatted with a resource name
    under which the font dictionary reached through the widget's own
    [DR] (and through the page's resources) holds Helvetica. *)
Theorem X8_default_appearance_names_registered_font self page box h cat :
  _widget_dictionary self = None →
  attachable h page = true →
  catalog_of h page = Some cat →
  ∃ w h' r fd fname es,
    _init_widget_dictionary self page box h
    = Ok (set_widget_dictionary self w) h' ∧
    dget h' w "DA"
    = Some (VString (format_DA (_font_color self) fname (_font_size self))) ∧
    dget h' w "DR" = Some (VRef r) ∧
    dget h' r "Font" = Some (VRef fd) ∧
    fonts_of h' page = Some fd ∧
    dentries h' fd = Some es ∧
    (fname, VFont (StandardType1Font "Helvetica")) ∈ es.
Proof.
  intros Hw Hatt Hcat.
  destruct (synthesis self page box h cat Hw Hatt Hcat) as (w & h' & Hrun & Hs).
  destruct Hs as (h_a & fname & tname & fd & al & af & fl & _ & _ & -> & _
                  & Hnew & Hfonts & Hname & _).
  unfold registered_font_name in Hname. rewrite Hfonts in Hname.
  destruct (dentries h' fd) as [es|] eqn:Hes; [|done].
  destruct (find _ es) as [[k v]|] eqn:Hfind; [|done].
  simpl in Hname. injection Hname as ->.
  apply find_some in Hfind as [Hin Hv]. apply bool_decide_eq_true in Hv.
  simpl in Hv. subst v.
  exists (length h_a + 4), h', (length h_a), fd, fname, es.
  split_and!; try done.
  - by rewrite (new_widget_dget _ _ _ _ _ _ _ _ Hnew).
  - by rewrite (new_widget_dget _ _ _ _ _ _ _ _ Hnew).
  - by rewrite (new_resources_dget _ _ _ _ _ _ _ _ Hnew).
  - by apply list_elem_of_In.
Qed.

(** X9: what a synthesis creates on first use.  On a page without
    [/Annots] the annotation array is a new object holding the widget
    alone.  On a catalog without [/AcroForm] the form registry is a new
    dictionary with exactly the entries [Fields], [DR] (the resources
    dictionary of this widget) and [NeedAppearances = true], in this
    order, and its field list is a new array holding the widget alone. *)
Theorem X9_attach_creates_registries self page box h cat :
  _widget_dictionary self = None →
  attachable h page = true →
  catalog_of h page = Some cat →
  ∃ w h' r,
    _init_widget_dictionary self page box h
    = Ok (set_widget_dictionary self w) h' ∧
    dget h' w "DR" = Some (VRef r) ∧
    (dget h page "Annots" = None →
     ∃ al, length h ≤ al ∧ annots_of h' page = Some al ∧
           lget h' al = Some [VRef w]) ∧
    (dget h cat "AcroForm" = None →
     ∃ af fl, length h ≤ af ∧ length h ≤ fl ∧
       acroform_of h' cat = Some af ∧
       dentries h' af
       = Some [("Fields", VRef fl); ("DR", VRef r);
               ("NeedAppearances", VBoolean true)] ∧
       lget h' fl = Some [VRef w]).
Proof.
  intros Hw Hatt Hcat.
  destruct (synthesis_full self page box h cat Hw Hatt Hcat)
    as (w & h' & tname' & hT & al & af & Hrun & Hs & _ & _ & _ & _ & _ & HA
        & HAnew & HF & HFnew & _).
  destruct Hs as (h_a & fname & tname & fd & al' & af' & fl & _ & _ & -> & _
                  & Hnew & _).
  exists (length h_a + 4), h', (length h_a). split_and!; try done.
  - by rewrite (new_widget_dget _ _ _ _ _ _ _ _ Hnew).
  - intros Hn. destruct (HAnew Hn) as [Hge Hal]. exists al.
    split_and!; [done | |].
    + unfold annots_of. by rewrite HA.
    + by eapply lget_of_lookup.
  - intros Hn. destruct (HFnew Hn) as (Hge & fl' & Hge' & Haf & Hfl).
    exists af, fl'. split_and!; try done.
    + unfold acroform_of. by rewrite HF.
    + rewrite (dentries_of_lookup _ _ _ _ _ Haf).
      by replace (length h_a + 4 - 4) with (length h_a) by lia.
    + by eapply lget_of_lookup.
Qed.


(** X11: a synthesis on one page leaves the other pages alone: for
    every object [p] that existed, other than the page and the catalog,
    the entries under keys the font registrar does not write are
    unchanged, in particular its [/Annots]; and the annotation array of
    [p] keeps its items unless it is the very array of the page or the
    field list. *)
Theorem X11_attach_leaves_other_pages self page box h cat :
  _widget_dictionary self = None →
  attachable h page = true →
  catalog_of h page = Some cat →
  ∃ w h',
    _init_widget_dictionary self page box h
    = Ok (set_widget_dictionary self w) h' ∧
    ∀ p, p < length h → p ≠ page → p ≠ cat →
      (∀ k, not_a_font_key k → dget h' p k = dget h p k) ∧
      annots_of h' p = annots_of h p ∧
      (∀ a xs, annots_of h p = Some a → lget h a = Some xs →
               annots_of h page ≠ Some a → fields_of h cat ≠ Some a →
               lget h' a = Some xs).
Proof.
  intros Hw Hatt Hcat.
  destruct (synthesis_arrays self page box h cat Hw Hatt Hcat)
    as (w & h' & al & fl & Hrun & Hs & HA & HF & HAl & HFl & Hlists & Hal & Hfl).
  destruct (synthesized_registrar _ _ _ _ _ _ _ Hatt Hs)
    as (h_a & fname & _ & Hpres & Hother).
  pose proof Hpres as (Hlen & _ & _ & _ & Hkeys).
  exists w, h'. split; [done|]. intros p Hp Hnp Hnc.
  assert (∀ k, not_a_font_key k → dget h' p k = dget h p k) as Hk.
  { intros k Hk. unfold dget at 1. rewrite Hother by (done || lia).
    by apply Hkeys. }
  split_and!; [done | |].
  - unfold annots_of. rewrite Hk; [done|]. key_const.
  - intros a xs _ Hxs Hna Hnf.
    pose proof (is_list_lt _ _ (lget_is_list _ _ _ Hxs)).
    apply Hlists; [done| |].
    + destruct Hal as [E|[_ ?]]; [congruence|lia].
    + destruct Hfl as [E|[_ ?]]; [congruence|lia].
Qed.

(** X12: the document-wide defaults come from the first field only.
    When two fields are attached to a page of a document that had no
    form registry, the second synthesis leaves the entries of the
    registry as the first made them: its [DR] is the resources
    dictionary of the first widget, not that of the second (the two are
    different objects), and [NeedAppearances] stays true. *)
Theorem X12_second_field_keeps_form_defaults self1 self2 page box1 box2 h cat :
  _widget_dictionary self1 = None →
  _widget_dictionary self2 = None →
  attachable h page = true →
  catalog_of h page = Some cat →
  acroform_of h cat = None →
  ∃ w1 h1 w2 h2 af r1 r2,
    _init_widget_dictionary self1 page box1 h
    = Ok (set_widget_dictionary self1 w1) h1 ∧
    _init_widget_dictionary self2 page box2 h1
    = Ok (set_widget_dictionary self2 w2) h2 ∧
    acroform_of h1 cat = Some af ∧
    acroform_of h2 cat = Some af ∧
    dentries h2 af = dentries h1 af ∧
    dget h2 w1 "DR" = Some (VRef r1) ∧
    dget h2 w2 "DR" = Some (VRef r2) ∧
    r1 ≠ r2 ∧
    dget h2 af "DR" = Some (VRef r1) ∧
    dget h2 af "NeedAppearances" = Some (VBoolean true).
Proof.
  intros Hw1 Hw2 Hatt Hcat Hfirst.
  destruct (synthesis self1 page box1 h cat Hw1 Hatt Hcat)
    as (w1 & h1 & Hrun1 & Hs1).
  destruct (synthesized_attachable _ _ _ _ _ _ _ Hatt Hcat Hs1) as [Hatt1 Hcat1].
  destruct (synthesis self2 page box2 h1 cat Hw2 Hatt1 Hcat1)
    as (w2 & h2 & Hrun2 & Hs2).
  destruct (synthesized_widget_new _ _ _ _ _ _ _ Hs1) as (_ & Hw1lt & _).
  destruct (synthesized_resources _ _ _ _ _ _ _ Hs1)
    as (s1 & r1 & fd & _ & Hr1 & _ & _ & Hdr1 & _ & _ & Hform).
  destruct (synthesized_resources _ _ _ _ _ _ _ Hs2)
    as (s2 & r2 & fd2 & Hr2 & _ & _ & _ & Hdr2 & _).
  destruct (Hform Hfirst) as (af & Haf & Hafdr).
  pose proof Hs1 as (h_a & fname & tname & fd' & al & af' & fl & _ & _ & _
                     & _ & _ & _ & Hname1 & Hregd1 & _).
  destruct Hregd1 as (HA1 & _ & HF1 & _ & _ & Hnew1 & _).
  destruct (synthesized_again _ _ _ _ _ _ _ _ Hs2 Hname1)
    as (Hg & Hsame & _); [by eexists | by eexists |].
  assert (af' = af) as ->.
  { unfold acroform_of in Haf. rewrite HF1 in Haf. by injection Haf. }
  destruct (Hnew1 Hfirst) as [_ Hneed].
  pose proof (is_dict_lt _ _ (dget_is_dict _ _ _ _ Hafdr)) as Haflt.
  exists w1, h1, w2, h2, af, r1, r2. split_and!; try done.
  - unfold acroform_of. by rewrite (grows_dget _ _ _ _ _ Hg HF1).
  - by apply Hsame.
  - by apply grows_dget with h1.
  - lia.
  - by apply grows_dget with h1.
  - by apply grows_dget with h1.
Qed.

(** X17: how many objects a synthesis allocates.  After the font
    registrar has run (store [h_a]), the widget is the fifth new object,
    and the synthesis adds exactly six objects (resources dictionary,
    appearance stream, [/BBox], appearance dictionary, widget
    dictionary, [/Rect]), one more when the page had no [/Annots], and
    two more when the catalog had no [/AcroForm]. *)
Theorem X17_attach_allocation_count self page box h cat :
  _widget_dictionary self = None →
  attachable h page = true →
  catalog_of h page = Some cat →
  ∃ w h' h_a fname,
    _init_widget_dictionary self page box h
    = Ok (set_widget_dictionary self w) h' ∧
    _get_font_resource_name (StandardType1Font "Helvetica") page h
    = Ok fname h_a ∧
    length h ≤ length h_a ∧
    w = length h_a + 4 ∧
    length h'
    = length h_a + 6
      + (match dget h page "Annots" with Some _ => 0 | None => 1 end)
      + (match dget h cat "AcroForm" with Some _ => 0 | None => 2 end).
Proof.
  intros Hw Hatt Hcat.
  destruct (synthesis_full self page box h cat Hw Hatt Hcat)
    as (w & h' & tname' & hT & al & af & Hrun & Hs & _ & _ & _ & _ & _ & _
        & _ & _ & _ & h_a & fname & Hreg & Hwa & Hcount).
  destruct Hs as (h_a' & fname' & tname & fd & al' & af' & fl & Hreg' & Hlen & _).
  rewrite Hreg in Hreg'. apply Ok_inj in Hreg' as [_ <-].
  by exists w, h', h_a, fname.
Qed.

End AttachExtras.

(* ================================================================== *)
(** ** Documents the synthesis cannot complete *)
(* ================================================================== *)

Section ErrorExtras.

Context `{Collaborators}.

(** X13: a half-built document is an error, not a deferral.  When the
    root of the page has an [XRef] entry that is a dictionary without
    [Trailer], the synthesis, and with it the layout pass, raises
    KeyError (line 112), for every field without a widget, every box and
    every space. *)
Theorem X13_attach_raises_without_trailer self page box space h root xr :
  _widget_dictionary self = None →
  is_dict h page = true →
  resources_typed h page = true →
  get_root_fuel (length h) h page = Some root →
  dget h root "XRef" = Some (VRef xr) →
  is_dict h xr = true →
  dget h xr "Trailer" = None →
  _init_widget_dictionary self page box h = Raise KeyError ∧
  _paint_content_box self page space h = Raise KeyError.
Proof.
  intros Hw Hpage Hres Hroot Hx Hxd Hnt.
  destruct (get_font_resource_name_spec h page (StandardType1Font "Helvetica") Hpage Hres)
    as (fname & h_a & rs & fd & Hreg & Hrs & Hfd & Hfdd & Hregname & Hpres & Hgrow & _).
  pose proof Hpres as (Hlen & Hpar & Hdicts & _ & Hkeys).
  pose proof (is_dict_lt _ _ Hxd) as Hxl.
  pose proof (is_dict_lt _ _ (dget_is_dict _ _ _ _ Hx)) as Hrl.
  assert (dget h_a root "XRef" = Some (VRef xr)) as Hx_a by (by eapply grows_dget).
  assert (is_dict h_a xr = true) as Hxd_a by (by eapply grows_is_dict).
  assert (dget h_a xr "Trailer" = None) as Hnt_a.
  { rewrite Hkeys; [done | done | key_const]. }
  assert (is_dict h_a page = true) as Hpage_a by (by eapply grows_is_dict).
  assert (∀ b, _init_widget_dictionary self page b h = Raise KeyError) as Hinit.
  { intros b. old_bounds.
    unfold _init_widget_dictionary. rewrite Hw.
    eapply bind_run; [mrun|].
    eapply bind_run; [mrun|]. cbv beta iota zeta. simpl negb. cbv iota.
    eapply bind_run; [exact Hreg|].
    mruns.
    apply bind_raise. apply py_getitem_missing; hsolve. }
  split; [apply Hinit|].
  unfold _paint_content_box. apply bind_raise. apply Hinit.
Qed.

(** X14: a form registry without a field list is an error.  When the
    catalog of the page has an [/AcroForm] dictionary that has no
    [Fields] entry, the synthesis raises KeyError (line 158): the
    registry is only completed when the synthesis creates it. *)
Theorem X14_attach_raises_without_fields self page box h cat af :
  _widget_dictionary self = None →
  is_dict h page = true →
  resources_typed h page = true →
  annots_typed h page = true →
  catalog_of h page = Some cat →
  dget h cat "AcroForm" = Some (VRef af) →
  is_dict h af = true →
  dget h af "Fields" = None →
  _init_widget_dictionary self page box h = Raise KeyError.
Proof.
  intros Hw Hpage Hres Hann Hcat HF Hafd Hnf.
  destruct (catalog_of_Some _ _ _ Hcat)
    as (root & xr & tr & Hroot & Hx & Ht & Hc & Hcd).
  destruct (get_font_resource_name_spec h page (StandardType1Font "Helvetica") Hpage Hres)
    as (fname & h_a & rs & fd & Hreg & Hrs & Hfd & Hfdd & Hregname & Hpres & Hgrow & _).
  pose proof Hpres as (Hlen & Hpar & _ & _ & Hkeys).
  pose proof (is_dict_lt _ _ Hpage) as Hpl. pose proof (is_dict_lt _ _ Hcd) as Hcl.
  pose proof (is_dict_lt _ _ Hafd) as Hal.
  assert (dget h_a page "Annots" = dget h page "Annots") as HkA.
  { apply Hkeys; [done|]. key_const. }
  assert (annots_typed h_a page = true) as Hann_a.
  { unfold annots_typed in *. rewrite HkA.
    destruct (dget h page "Annots") as [[| | | | | |al]|]; try done.
    by eapply preserves_is_list. }
  assert (dget h_a af "Fields" = None) as Hnf_a.
  { rewrite Hkeys; [done | done | key_const]. }
  pose proof (grows_dget _ _ _ _ _ Hgrow Hx) as Hx_a.
  pose proof (grows_dget _ _ _ _ _ Hgrow Ht) as Ht_a.
  pose proof (grows_dget _ _ _ _ _ Hgrow Hc) as Hc_a.
  pose proof (grows_dget _ _ _ _ _ Hgrow HF) as HF_a.
  pose proof (grows_is_dict _ _ _ Hgrow Hcd) as Hcd_a.
  pose proof (grows_is_dict _ _ _ Hgrow Hpage) as Hpage_a.
  pose proof (grows_is_dict _ _ _ Hgrow Hafd) as Hafd_a.
  unfold annots_typed in Hann_a.
  destruct (dget h_a page "Annots") as [[| | | | | |al]|] eqn:Ha; try done;
  try destruct (is_list_lget _ _ Hann_a) as [xs Hxs];
  old_bounds;
  (unfold _init_widget_dictionary; rewrite Hw;
   eapply bind_run; [mrun|];
   eapply bind_run; [mrun|]; cbv beta iota zeta; simpl negb; cbv iota;
   eapply bind_run; [exact Hreg|];
   mruns; simpl negb; cbv iota;
   mruns; simpl negb; cbv iota;
   mruns;
   apply bind_raise; apply py_getitem_missing; hsolve).
Qed.

End ErrorExtras.

(* ================================================================== *)
(** ** The layout pass, composed *)
(* ================================================================== *)

Section PaintExtras.

Context `{Collaborators}.


(** X16: the last layout pass wins.  For a field that has its widget,
    two passes in sequence, on any pages and with any available spaces,
    end in the same result and the same store as the second pass alone;
    in particular a pass repeated with the same space changes nothing
    more. *)
Theorem X16_repaint_last_wins self page1 page2 space1 space2 h w bbox rect :
  _widget_dictionary self = Some w →
  widget_shape h w bbox rect = true →
  (let* self1 := _paint_content_box self page1 space1 in
   _paint_content_box self1 page2 space2) h
  = _paint_content_box self page2 space2 h ∧
  (let* self1 := _paint_content_box self page1 space1 in
   _paint_content_box self1 page1 space1) h
  = _paint_content_box self page1 space1 h.
Proof.
  intros Hw Hs.
  destruct (widget_shape_elim _ _ _ _ Hs)
    as (ap & s & bs & rs & _ & _ & _ & _ & Hbs & Hrs & Hlb & Hlr & Hne).
  assert (∀ p1 s1 p2 s2,
            (let* self1 := _paint_content_box self p1 s1 in
             _paint_content_box self1 p2 s2) h
            = _paint_content_box self p2 s2 h) as Hgen.
  { intros p1 s1 p2 s2.
    eapply bind_run; [by eapply paint_content_box_initialized|].
    rewrite !(paint_content_box_initialized _ _ _ _ w bbox rect Hw);
      [|done|by apply relayout_widget_shape].
    f_equal. by eapply relayout_relayout. }
  split; apply Hgen.
Qed.

End PaintExtras.

(* ================================================================== *)
(** ** The further theorems at the example documents *)
(* ================================================================== *)


(** X4 at the example: the value of [example_field] is in [V]. *)
Lemma X4_attach_widget_entries_witness :
  attachable example_document example_page = true ∧
  ∃ w h',
    _init_widget_dictionary example_field example_page example_space
      example_document
    = Ok (set_widget_dictionary example_field w) h' ∧
    dget h' w "V" = Some (VString "hello").
Proof.
  split; [by vm_compute|].
  destruct (X4_attach_widget_entries example_field example_page example_space
              example_document example_catalog)
    as (w & h' & rect & r & ap & s & fd & tname & fname & Hrun & Hd & _);
    [reflexivity | by vm_compute | by vm_compute |].
  exists w, h'. split; [exact Hrun|]. unfold dget. rewrite Hd. reflexivity.
Defined.

(** X5 at the example: the name of [example_field] is in [T]. *)
Lemma X5_attach_field_name_witness :
  attachable example_document example_page = true ∧
  ∃ w h',
    _init_widget_dictionary example_field example_page example_space
      example_document
    = Ok (set_widget_dictionary example_field w) h' ∧
    dget h' w "T" = Some (VString "name").
Proof.
  split; [by vm_compute|].
  destruct (X5_attach_field_name example_field example_page example_space
              example_document example_catalog)
    as (w & h' & hT & Hrun & Hnamed & _);
    [reflexivity | by vm_compute | by vm_compute |].
  exists w, h'. split; [exact Hrun|]. apply Hnamed; [reflexivity|discriminate].
Defined.

(** X6 at the example: the [/BBox] written for [example_space]. *)
Lemma X6_attach_geometry_witness :
  attachable example_document example_page = true ∧
  ∃ w h' bbox,
    _init_widget_dictionary example_field example_page example_space
      example_document
    = Ok (set_widget_dictionary example_field w) h' ∧
    lget h' bbox
    = Some [VDecimal (Decimal_of_int 0); VDecimal (Decimal_of_int 0);
            VDecimal (Decimal_of_int 200); VDecimal (Decimal_of_int 12)].
Proof.
  split; [by vm_compute|].
  destruct (X6_attach_geometry example_field example_page example_space
              example_document example_catalog)
    as (w & h' & s & bbox & rect & Hrun & _ & _ & _ & _ & _ & _ & Hb & _);
    [reflexivity | by vm_compute | by vm_compute |].
  exists w, h', bbox. split; [exact Hrun | exact Hb].
Defined.

(** X7 at the example: the widget is marked unique. *)
Lemma X7_attach_marks_new_objects_witness :
  attachable example_document example_page = true ∧
  ∃ w h',
    _init_widget_dictionary example_field example_page example_space
      example_document
    = Ok (set_widget_dictionary example_field w) h' ∧
    flags_of h' w = Some (true, false).
Proof.
  split; [by vm_compute|].
  destruct (X7_attach_marks_new_objects example_field example_page
              example_space example_document example_catalog)
    as (w & h' & r & s & ap & bbox & rect & Hrun & _ & _ & _ & _ & _ & _ & _
        & _ & Hf & _);
    [reflexivity | by vm_compute | by vm_compute |].
  exists w, h'. split; [exact Hrun | exact Hf].
Defined.

(** X8 at the example. *)
Lemma X8_default_appearance_names_registered_font_witness :
  attachable example_document example_page = true ∧
  ∃ w h' fd fname es,
    _init_widget_dictionary example_field example_page example_space
      example_document
    = Ok (set_widget_dictionary example_field w) h' ∧
    dentries h' fd = Some es ∧
    (fname, VFont (StandardType1Font "Helvetica")) ∈ es.
Proof.
  split; [by vm_compute|].
  destruct (X8_default_appearance_names_registered_font example_field
              example_page example_space example_document example_catalog)
    as (w & h' & r & fd & fname & es & Hrun & _ & _ & _ & _ & Hes & Hin);
    [reflexivity | by vm_compute | by vm_compute |].
  exists w, h', fd, fname, es. split; [exact Hrun|]. split; [exact Hes | exact Hin].
Defined.

(** X9 at the example: the page has no [/Annots] yet. *)
Lemma X9_attach_creates_registries_witness :
  attachable example_document example_page = true ∧
  dget example_document example_page "Annots" = None ∧
  ∃ w h' al,
    _init_widget_dictionary example_field example_page example_space
      example_document
    = Ok (set_widget_dictionary example_field w) h' ∧
    lget h' al = Some [VRef w].
Proof.
  split; [by vm_compute|]. split; [reflexivity|].
  destruct (X9_attach_creates_registries example_field example_page
              example_space example_document example_catalog)
    as (w & h' & r & Hrun & _ & Hannots & _);
    [reflexivity | by vm_compute | by vm_compute |].
  destruct (Hannots eq_refl) as (al & _ & _ & Hal).
  exists w, h', al. split; [exact Hrun | exact Hal].
Defined.


(** X11 at the example: the second page of the document. *)
Lemma X11_attach_leaves_other_pages_witness :
  attachable example_document example_page = true ∧
  ∃ w h',
    _init_widget_dictionary example_field example_page example_space
      example_document
    = Ok (set_widget_dictionary example_field w) h' ∧
    annots_of h' second_page = annots_of example_document second_page.
Proof.
  split; [by vm_compute|].
  destruct (X11_attach_leaves_other_pages example_field example_page
              example_space example_document example_catalog)
    as (w & h' & Hrun & Hother);
    [reflexivity | by vm_compute | by vm_compute |].
  exists w, h'. split; [exact Hrun|].
  destruct (Hother second_page) as (_ & Hannots & _);
    [vm_compute; lia | discriminate | discriminate | exact Hannots].
Defined.

(** X12 at the example: [example_field], then [example_field2]. *)
Lemma X12_second_field_keeps_form_defaults_witness :
  attachable example_document example_page = true ∧
  acroform_of example_document example_catalog = None ∧
  ∃ w1 h1 w2 h2 af r1,
    _init_widget_dictionary example_field example_page example_space
      example_document
    = Ok (set_widget_dictionary example_field w1) h1 ∧
    _init_widget_dictionary example_field2 example_page narrow_space h1
    = Ok (set_widget_dictionary example_field2 w2) h2 ∧
    dget h2 w1 "DR" = Some (VRef r1) ∧
    dget h2 af "DR" = Some (VRef r1).
Proof.
  split; [by vm_compute|]. split; [reflexivity|].
  destruct (X12_second_field_keeps_form_defaults example_field example_field2
              example_page example_space narrow_space example_document
              example_catalog)
    as (w1 & h1 & w2 & h2 & af & r1 & r2 & H1 & H2 & _ & _ & _ & Hd1 & _ & _
        & Hd & _);
    [reflexivity | reflexivity | by vm_compute | by vm_compute | reflexivity |].
  exists w1, h1, w2, h2, af, r1. by split_and!.
Defined.

(** X17 at the example: two pages, no font, no annotations and no form
    registry yet. *)
Lemma X17_attach_allocation_count_witness :
  attachable example_document example_page = true ∧
  ∃ w h' (h_a : heap),
    _init_widget_dictionary example_field example_page example_space
      example_document
    = Ok (set_widget_dictionary example_field w) h' ∧
    length h' = length h_a + 9.
Proof.
  split; [by vm_compute|].
  destruct (X17_attach_allocation_count example_field example_page
              example_space example_document example_catalog)
    as (w & h' & h_a & fname & Hrun & _ & _ & _ & Hcount);
    [reflexivity | by vm_compute | by vm_compute |].
  exists w, h', h_a. split; [exact Hrun|]. rewrite Hcount. simpl. lia.
Defined.

(** X13 at the example: the document without a trailer. *)
Lemma X13_attach_raises_without_trailer_witness :
  dget broken_document 1 "Trailer" = None ∧
  _init_widget_dictionary example_field broken_document_page example_space
    broken_document
  = Raise KeyError.
Proof.
  split; [reflexivity|].
  destruct (X13_attach_raises_without_trailer example_field
              broken_document_page example_space example_space
              broken_document 0 1) as [Hraise _];
    [reflexivity | reflexivity | reflexivity | reflexivity | reflexivity
    | reflexivity | reflexivity | exact Hraise].
Defined.

(** X14 at the example: the form registry without [Fields]. *)
Lemma X14_attach_raises_without_fields_witness :
  dget document_without_fields document_without_fields_form "Fields" = None ∧
  _init_widget_dictionary example_field document_without_fields_page
    example_space document_without_fields
  = Raise KeyError.
Proof.
  split; [reflexivity|].
  apply (X14_attach_raises_without_fields example_field
           document_without_fields_page example_space document_without_fields
           3 document_without_fields_form); reflexivity.
Defined.


(** X16 at the example: the painted field laid out in the narrow space
    on the second page, then in the example space on the first. *)
Lemma X16_repaint_last_wins_witness :
  widget_shape example_painted example_widget example_bbox example_rect = true ∧
  (let* self1 := _paint_content_box example_painted_field second_page
                   narrow_space in
   _paint_content_box self1 example_page example_space) example_painted
  = _paint_content_box example_painted_field example_page example_space
      example_painted.
Proof.
  split; [by vm_compute|].
  destruct (X16_repaint_last_wins example_painted_field second_page
              example_page narrow_space example_space example_painted
              example_widget example_bbox example_rect) as [Hlast _];
    [reflexivity | by vm_compute | exact Hlast].
Defined.
